(** * fbscraper: a model of the dumper and parser, and the properties of
      the paginated crawl, the attachment classification and the download
      bookkeeping.

    The Python sources are [fbscraper/dumper.py], [fbscraper/parser.py],
    [fbscraper/lib.py] and [fbscraper/__main__.py].  Decoded JSON documents
    are values of [json]; a missing key, a wrong type or an empty list
    raise the exception Python raises.  Mutable dictionaries keep their
    insertion order.  A character of a Python string is one [ascii] of a
    [string]. *)

From Stdlib Require Import ZArith List String Ascii Bool Lia Arith DecimalString Sorted.
Import ListNotations.
Local Open Scope string_scope.
Local Open Scope list_scope.
Local Open Scope Z_scope.

Notation "a +++ b" := (String.append a b) (at level 60, right associativity).

(** ** Decoded JSON documents *)

#[local] Set Warnings "-register-all".


Inductive json : Type :=
| JNull
| JBool (b : bool)
| JNum (n : Z)
| JStr (s : string)
| JArr (items : list json)
| JObj (fields : list (string * json)).

(** ** Exceptions *)

Inductive exn : Type :=
| KeyError (key : json)
| TypeError
| IndexError
| ValueError
| AttributeError
| OSError
| FBResponseError (summary : json)
| FBUnknownConvers (convers_id : json).

Inductive result (A : Type) : Type :=
| Ok (a : A)
| Err (e : exn).
Arguments Ok {A} a.
Arguments Err {A} e.

(** What running a piece of stateful code gives: a value, an exception, or
    nothing yet because the loop bound ran out. *)
Inductive outcome (A : Type) : Type :=
| Ret (a : A)
| Exc (e : exn)
| OutOfFuel.
Arguments Ret {A} a.
Arguments Exc {A} e.
Arguments OutOfFuel {A}.

(** ** State and exception monad *)

Definition M (S A : Type) : Type := S -> S * outcome A.

Definition ret {S A} (a : A) : M S A := fun s => (s, Ret a).

Definition raise {S A} (e : exn) : M S A := fun s => (s, Exc e).

Definition out_of_fuel {S A} : M S A := fun s => (s, OutOfFuel).

Definition bind {S A B} (m : M S A) (k : A -> M S B) : M S B :=
  fun s =>
    match m s with
    | (s', Ret a) => k a s'
    | (s', Exc e) => (s', Exc e)
    | (s', OutOfFuel) => (s', OutOfFuel)
    end.

Definition lift {S A} (r : result A) : M S A :=
  match r with
  | Ok a => ret a
  | Err e => raise e
  end.

Definition get {S} : M S S := fun s => (s, Ret s).

Definition modify {S} (f : S -> S) : M S unit := fun s => (f s, Ret tt).

Notation "x <- c1 ;; c2" := (bind c1 (fun x => c2))
  (at level 61, c1 at next level, right associativity).
Notation "c1 ;; c2" := (bind c1 (fun _ => c2))
  (at level 61, right associativity).

(** [for x in l: body(x)] *)
Fixpoint for_each {S A} (l : list A) (body : A -> M S unit) : M S unit :=
  match l with
  | [] => ret tt
  | x :: rest => body x ;; for_each rest body
  end.

(** A [for] loop that carries a local variable from one iteration to the
    next. *)
Fixpoint for_fold {S A L} (l : list A) (body : A -> L -> M S L) (acc : L)
  : M S L :=
  match l with
  | [] => ret acc
  | x :: rest => acc' <- body x acc ;; for_fold rest body acc'
  end.

(** ** Python operations on decoded JSON *)

Fixpoint assoc {V} (k : string) (kv : list (string * V)) : option V :=
  match kv with
  | [] => None
  | (k', v) :: rest => if String.eqb k k' then Some v else assoc k rest
  end.

(** [j[k]] for a string key [k]. *)
Definition getitem (j : json) (k : string) : result json :=
  match j with
  | JObj kv =>
      match assoc k kv with
      | Some v => Ok v
      | None => Err (KeyError (JStr k))
      end
  | _ => Err TypeError
  end.

(** [x == s] for a string literal [s]. *)
Definition py_eq_str (x : json) (s : string) : bool :=
  match x with
  | JStr t => String.eqb t s
  | _ => false
  end.

(** [x == n] for an integer literal [n]; [True == 1] and [False == 0]. *)
Definition py_eq_int (x : json) (n : Z) : bool :=
  match x with
  | JNum m => m =? n
  | JBool b => (if b then 1 else 0) =? n
  | _ => false
  end.

Definition is_substring (s t : string) : bool :=
  match String.index 0 s t with
  | Some _ => true
  | None => false
  end.

(** [k in j] for a string literal [k]. *)
Definition contains (k : string) (j : json) : result bool :=
  match j with
  | JObj kv => Ok (match assoc k kv with Some _ => true | None => false end)
  | JArr l => Ok (existsb (fun x => py_eq_str x k) l)
  | JStr s => Ok (is_substring k s)
  | _ => Err TypeError
  end.

Fixpoint chars (s : string) : list json :=
  match s with
  | EmptyString => []
  | String c rest => JStr (String c EmptyString) :: chars rest
  end.

(** The items a [for] loop over [j] visits. *)
Definition py_iter (j : json) : result (list json) :=
  match j with
  | JArr l => Ok l
  | JObj kv => Ok (map (fun p => JStr (fst p)) kv)
  | JStr s => Ok (chars s)
  | _ => Err TypeError
  end.

(** [len(j)] *)
Definition py_len (j : json) : result Z :=
  match j with
  | JArr l => Ok (Z.of_nat (List.length l))
  | JObj kv => Ok (Z.of_nat (List.length kv))
  | JStr s => Ok (Z.of_nat (String.length s))
  | _ => Err TypeError
  end.

(** [j[0]] *)
Definition getitem0 (j : json) : result json :=
  match j with
  | JArr [] => Err IndexError
  | JArr (x :: _) => Ok x
  | JStr EmptyString => Err IndexError
  | JStr (String c _) => Ok (JStr (String c EmptyString))
  | JObj _ => Err (KeyError (JNum 0))
  | _ => Err TypeError
  end.

(** [j + l] where [l] is a list. *)
Definition py_add_list (j : json) (l : list json) : result (list json) :=
  match j with
  | JArr items => Ok (items ++ l)
  | _ => Err TypeError
  end.

(** [a + b] where [a] is already known to be a string. *)
Definition str_add (a : string) (j : json) : result string :=
  match j with
  | JStr s => Ok (a +++ s)
  | _ => Err TypeError
  end.

(** [j + s] for a string [s]. *)
Definition add_str (j : json) (s : string) : result string :=
  match j with
  | JStr a => Ok (a +++ s)
  | _ => Err TypeError
  end.

(** [str(n)] for an integer. *)
Definition str_of_Z (n : Z) : string := NilZero.string_of_int (Z.to_int n).

(** ** Python dictionaries keyed by JSON scalars *)

Definition hashable (j : json) : bool :=
  match j with
  | JArr _ | JObj _ => false
  | _ => true
  end.

(** Equality of two hashable keys, as [==] decides it. *)
Definition key_eqb (a b : json) : bool :=
  match a, b with
  | JNull, JNull => true
  | JStr s, JStr t => String.eqb s t
  | JNum m, JNum n => m =? n
  | JBool x, JBool y => Bool.eqb x y
  | JBool x, JNum n => (if x then 1 else 0) =? n
  | JNum n, JBool x => n =? (if x then 1 else 0)
  | _, _ => false
  end.

Definition pydict (V : Type) : Type := list (json * V).

Fixpoint dict_find {V} (k : json) (d : pydict V) : option V :=
  match d with
  | [] => None
  | (k', v) :: rest => if key_eqb k k' then Some v else dict_find k rest
  end.

(** The keys stay where they were first inserted; the first key object is
    kept when an equal key is assigned again. *)
Fixpoint dict_store {V} (k : json) (v : V) (d : pydict V) : pydict V :=
  match d with
  | [] => [(k, v)]
  | (k', v') :: rest =>
      if key_eqb k k' then (k', v) :: rest else (k', v') :: dict_store k v rest
  end.

Definition dict_keys {V} (d : pydict V) : list json := map fst d.

(** [d[k]] *)
Definition dict_getitem {V} (d : pydict V) (k : json) : result V :=
  if hashable k then
    match dict_find k d with
    | Some v => Ok v
    | None => Err (KeyError k)
    end
  else Err TypeError.

(** [d[k] = v] *)
Definition dict_setitem {V} (d : pydict V) (k : json) (v : V)
  : result (pydict V) :=
  if hashable k then Ok (dict_store k v d) else Err TypeError.

(** [k in d] *)
Definition dict_contains {V} (k : json) (d : pydict V) : result bool :=
  if hashable k then
    Ok (match dict_find k d with Some _ => true | None => false end)
  else Err TypeError.

(** Dictionaries with string keys, as the form data of a request. *)
Definition form : Type := list (string * json).

Fixpoint form_store (k : string) (v : json) (d : form) : form :=
  match d with
  | [] => [(k, v)]
  | (k', v') :: rest =>
      if String.eqb k k' then (k', v) :: rest
      else (k', v') :: form_store k v rest
  end.

(** [d.update(other)] *)
Definition form_update (d other : form) : form :=
  fold_left (fun acc p => form_store (fst p) (snd p) acc) other d.

(** [{k1: v1, ...}] written as a literal. *)
Definition form_literal (items : form) : form := form_update [] items.

(** ** lib.py *)

Module FBConversType.
Inductive t : Type := GROUP | USER.
Definition value (x : t) : string :=
  match x with
  | GROUP => "group"
  | USER => "user"
  end.
End FBConversType.

Module FBParserMode.
Inductive t : Type := REPORT | DL.
Definition value (x : t) : string :=
  match x with
  | REPORT => "report"
  | DL => "dl"
  end.
Definition eqb (x y : t) : bool :=
  match x, y with
  | REPORT, REPORT | DL, DL => true
  | _, _ => false
  end.
End FBParserMode.

Module FBDataTypes.
Inductive t : Type := ALL | MESSAGES | PICTURES | GIFS | VIDEOS | FILES | LINKS.
Definition value (x : t) : string :=
  match x with
  | ALL => "all"
  | MESSAGES => "messages"
  | PICTURES => "pictures"
  | GIFS => "gifs"
  | VIDEOS => "videos"
  | FILES => "files"
  | LINKS => "links"
  end.
End FBDataTypes.

Definition OUTPUT_DEFAULT_FOLDER : string := "output".

(** [os.sep] and [os.path.join(p, '')] on a POSIX system. *)
Definition os_sep : string := "/".

Fixpoint ends_with_sep (p : string) : bool :=
  match p with
  | EmptyString => false
  | String c EmptyString => Ascii.eqb c "/"%char
  | String _ rest => ends_with_sep rest
  end.

Definition path_join_empty (p : string) : string :=
  match p with
  | EmptyString => p
  | _ => if ends_with_sep p then p else p +++ os_sep
  end.

(** ** Strings *)

Definition nl : string := String "010"%char EmptyString.

(** [s[:-1]] *)
Fixpoint drop_last (s : string) : string :=
  match s with
  | EmptyString => EmptyString
  | String c EmptyString => EmptyString
  | String c rest => String c (drop_last rest)
  end.

(** [s[n:]] *)
Fixpoint string_drop (n : nat) (s : string) : string :=
  match n, s with
  | O, _ => s
  | S n', String _ rest => string_drop n' rest
  | S _, EmptyString => EmptyString
  end.

(** ** dumper.py

    The creation of directories and the writing of files are taken to
    succeed, and the pause [time.sleep(self.timer)] between two requests has
    no state of its own; the chunk size and the timer are integers.  The
    lines printed under [to_stdout] are left out, but not the evaluation of
    what they print, which can raise. *)

Definition headers_t : Type := list (string * string).

Record request : Type := {
  req_url : string;
  req_headers : headers_t;
  req_data : form
}.

(** The value of one conversation in [convers]: the deep copy of the local
    dictionary [current_convers].  A key that was never assigned is [None]. *)
Record convers_entry : Type := {
  ce_type : option FBConversType.t;
  ce_name : option json;
  ce_status : option string;
  ce_participants : option json;
  ce_last_message_timestamp : option json
}.

Definition empty_entry : convers_entry :=
  {| ce_type := None; ce_name := None; ce_status := None;
     ce_participants := None; ce_last_message_timestamp := None |}.

(** [entry["type"]] and [entry["name"]] *)
Definition entry_type (e : convers_entry) : result FBConversType.t :=
  match ce_type e with
  | Some t => Ok t
  | None => Err (KeyError (JStr "type"))
  end.

Definition entry_name (e : convers_entry) : result json :=
  match ce_name e with
  | Some n => Ok n
  | None => Err (KeyError (JStr "name"))
  end.

(** The local variables of [get_all_convers_metadata] together with the
    requests sent so far. *)
Record crawl_state : Type := {
  cs_log : list request;
  cs_convers : pydict convers_entry;
  cs_participants : pydict json
}.

Inductive convers_status : Type := Inbox | Archived.

Definition status_name (s : convers_status) : string :=
  match s with
  | Inbox => "inbox"
  | Archived => "archived"
  end.

(** One file written by [json.dump]. *)
Record written_file : Type := {
  wf_path : string;
  wf_dump : list json;
  wf_indent : option Z
}.

(** What [dump] acts on: the requests sent and the files written. *)
Record world : Type := {
  w_log : list request;
  w_files : list written_file
}.

Record FBDumper : Type := {
  convers_ids : option (list string);
  user_raw_data : string;
  chunk_size : Z;
  timer : Z;
  output : string;
  headers : headers_t;
  post_data : form;
  convers : pydict convers_entry;
  participants : pydict json
}.

Definition _DICT_FB_TYPES (t : FBConversType.t) : string :=
  match t with
  | FBConversType.GROUP => "thread_fbids"
  | FBConversType.USER => "user_ids"
  end.

Definition _url_convers : string :=
  "https://www.facebook.com/ajax/mercury/thread_info.php".

Definition _url_convers_list : string :=
  "https://www.facebook.com/ajax/mercury/threadlist_info.php".

Definition _end_flag : string := "end_of_history".

Definition _chunk_size_convers : Z := 1000.

(** Truth value of an optional string argument: [None] and [""] are false. *)
Definition truthy (o : option string) : bool :=
  match o with
  | Some (String _ _) => true
  | _ => false
  end.

(** The string of an optional argument that is known to be given. *)
Definition string_of (o : option string) : string :=
  match o with
  | Some s => s
  | None => EmptyString
  end.

Definition with_log {A} (m : M (list request) A) : M crawl_state A :=
  fun st =>
    let (lg, r) := m (cs_log st) in
    ({| cs_log := lg; cs_convers := cs_convers st;
        cs_participants := cs_participants st |}, r).

Definition with_world_log {A} (m : M (list request) A) : M world A :=
  fun w =>
    let (lg, r) := m (w_log w) in
    ({| w_log := lg; w_files := w_files w |}, r).

Definition set_participants (p : pydict json) : M crawl_state unit :=
  modify (fun st => {| cs_log := cs_log st; cs_convers := cs_convers st;
                       cs_participants := p |}).

Definition set_convers (c : pydict convers_entry) : M crawl_state unit :=
  modify (fun st => {| cs_log := cs_log st; cs_convers := c;
                       cs_participants := cs_participants st |}).

Definition write_file (f : written_file) : M world unit :=
  modify (fun w => {| w_log := w_log w; w_files := w_files w ++ [f] |}).

(** [unidecode(x)]: the transliteration is the library's; a value that is
    not a string has no [encode] attribute. *)
Definition py_unidecode (unidecode : string -> string) (x : json)
  : result string :=
  match x with
  | JStr s => Ok (unidecode s)
  | _ => Err AttributeError
  end.

(** The form data of one conversation-listing request, before the
    credentials are added. *)
Definition listing_data (status : convers_status) (offset : Z) : form :=
  match status with
  | Inbox =>
      form_literal
        [ (status_name status +++ "[offset]", JStr (str_of_Z offset));
          (status_name status +++ "[limit]", JStr (str_of_Z _chunk_size_convers));
          (status_name status +++ "[filter]", JStr "");
          ("client", JStr "web_messenger") ]
  | Archived =>
      form_literal
        [ ("action:" +++ status_name status +++ "[offset]", JStr (str_of_Z offset));
          ("action:" +++ status_name status +++ "[limit]",
            JStr (str_of_Z _chunk_size_convers));
          ("action:" +++ status_name status +++ "[filter]", JStr "");
          ("client", JStr "web_messenger") ]
  end.

Section Model.

(** The transport: [requests.post], the removal of the 9 leading
    characters and [json.loads].  The decoded response is any function of
    the requests sent before and of the request itself, and may be an
    exception. *)
Variable respond : list request -> request -> result json.

(** The [unidecode] library function on strings. *)
Variable unidecode : string -> string.

(** [open(path).read()] *)
Variable read_file : string -> result string.

(** [get_post_data]: the regular-expression search of the cookie and of
    the form fields in the raw user data. *)
Variable get_post_data : string -> result (headers_t * form).

Definition post (hdrs : headers_t) (url : string) (data : form)
  : M (list request) json :=
  fun lg =>
    let rq := {| req_url := url; req_headers := hdrs; req_data := data |} in
    (lg ++ [rq],
     match respond lg rq with
     | Ok j => Ret j
     | Err e => Exc e
     end).

Definition make_request (hdrs : headers_t) (url : string) (data : form)
  : M (list request) json :=
  json_data <- post hdrs url data ;;
  has_error <- lift (contains "error" json_data) ;;
  if (has_error : bool) then
    summary <- lift (getitem json_data "errorSummary") ;;
    raise (FBResponseError summary)
  else ret json_data.

Definition build_data (self : FBDumper) (convers_id : json)
  (convers_type : FBConversType.t) (offset : Z) (timestamp : json)
  : result form :=
  match str_add ("messages[" +++ _DICT_FB_TYPES convers_type +++ "][")
                convers_id with
  | Err e => Err e
  | Ok prefix =>
      Ok (form_update
            (form_literal
               [ (prefix +++ "][offset]", JStr (str_of_Z offset));
                 (prefix +++ "][limit]", JStr (str_of_Z (chunk_size self)));
                 (prefix +++ "][timestamp]", timestamp);
                 ("client", JStr "web_messenger") ])
            (post_data self))
  end.

(** [for participant in json_participants:
       participants[participant["fbid"]] = participant["name"]]
    The right-hand side is evaluated before the subscript of the target. *)
Definition merge_participant (participant : json) : M crawl_state unit :=
  name <- lift (getitem participant "name") ;;
  fbid <- lift (getitem participant "fbid") ;;
  st <- get ;;
  p <- lift (dict_setitem (cs_participants st) fbid name) ;;
  set_participants p.

(** The body of [for c in json_threads]; [current_convers] is the local
    dictionary shared by all the threads of one page. *)
Definition merge_thread (status : convers_status) (c : json)
  (current_convers : convers_entry) : M crawl_state convers_entry :=
  thread_type <- lift (getitem c "thread_type") ;;
  cur <-
    (if py_eq_int thread_type 2 then
       name <- lift (getitem c "name") ;;
       ret {| ce_type := Some FBConversType.GROUP;
              ce_name := Some name;
              ce_status := ce_status current_convers;
              ce_participants := ce_participants current_convers;
              ce_last_message_timestamp :=
                ce_last_message_timestamp current_convers |}
     else if py_eq_int thread_type 1 then
       other <- lift (getitem c "other_user_fbid") ;;
       st <- get ;;
       name <- lift (dict_getitem (cs_participants st) other) ;;
       ret {| ce_type := Some FBConversType.USER;
              ce_name := Some name;
              ce_status := ce_status current_convers;
              ce_participants := ce_participants current_convers;
              ce_last_message_timestamp :=
                ce_last_message_timestamp current_convers |}
     else ret current_convers) ;;
  parts <- lift (getitem c "participants") ;;
  last <- lift (getitem c "last_message_timestamp") ;;
  let cur' :=
    {| ce_type := ce_type cur; ce_name := ce_name cur;
       ce_status := Some (status_name status);
       ce_participants := Some parts;
       ce_last_message_timestamp := Some last |} in
  thread_fbid <- lift (getitem c "thread_fbid") ;;
  st <- get ;;
  d <- lift (dict_setitem (cs_convers st) thread_fbid cur') ;;
  set_convers d ;;
  ret cur'.

(** What one iteration of the [while] loop does with a response: from
    [json_threads = json_data["payload"]["threads"]] to the end of the
    loop over the threads.  Returns [json_threads]. *)
Definition merge_page (status : convers_status) (json_data : json)
  : M crawl_state json :=
  payload <- lift (getitem json_data "payload") ;;
  json_threads <- lift (getitem payload "threads") ;;
  payload' <- lift (getitem json_data "payload") ;;
  json_participants <- lift (getitem payload' "participants") ;;
  ps <- lift (py_iter json_participants) ;;
  for_each ps merge_participant ;;
  ts <- lift (py_iter json_threads) ;;
  for_fold ts (merge_thread status) empty_entry ;;
  ret json_threads.

(** The [while not is_dumped] loop of one status, entered with the given
    offset; [fuel] bounds the number of requests. *)
Fixpoint crawl_status (fuel : nat) (hdrs : headers_t) (pdata : form)
  (status : convers_status) (offset : Z) : M crawl_state unit :=
  match fuel with
  | O => out_of_fuel
  | S fuel' =>
      let data_for_msgs := form_update (listing_data status offset) pdata in
      json_data <- with_log (make_request hdrs _url_convers_list data_for_msgs) ;;
      json_threads <- merge_page status json_data ;;
      n <- lift (py_len json_threads) ;;
      if n <? _chunk_size_convers then ret tt
      else crawl_status fuel' hdrs pdata status (offset + _chunk_size_convers)
  end.

(** The dictionaries are local: they are returned only when both loops
    end without an exception. *)
Definition get_all_convers_metadata (fuel : nat) (hdrs : headers_t)
  (pdata : form) : M (list request) (pydict convers_entry * pydict json) :=
  fun lg =>
    let run :=
      crawl_status fuel hdrs pdata Inbox 0 ;;
      crawl_status fuel hdrs pdata Archived 0 in
    match run {| cs_log := lg; cs_convers := []; cs_participants := [] |} with
    | (st, Ret _) => (cs_log st, Ret (cs_convers st, cs_participants st))
    | (st, Exc e) => (cs_log st, Exc e)
    | (st, OutOfFuel) => (cs_log st, OutOfFuel)
    end.

(** [FBDumper.__init__]; the object exists only when it returns.  [fuel]
    bounds each loop of [get_all_convers_metadata]. *)
Definition FBDumper_init (fuel : nat) (convers_ids : option (list string))
  (user_raw_data infile_user_raw_data : option string)
  (chunk_size timer : Z) (output : string) : M (list request) FBDumper :=
  raw <-
    (if xorb (truthy user_raw_data) (truthy infile_user_raw_data) then
       if truthy user_raw_data then ret (string_of user_raw_data)
       else lift (read_file (string_of infile_user_raw_data))
     else raise ValueError) ;;
  if chunk_size <=? 0 then raise ValueError
  else if timer <? 0 then raise ValueError
  else
    let out := path_join_empty output in
    hp <- lift (get_post_data raw) ;;
    cp <- get_all_convers_metadata fuel (fst hp) (snd hp) ;;
    ret {| convers_ids := convers_ids; user_raw_data := raw;
           chunk_size := chunk_size; timer := timer; output := out;
           headers := fst hp; post_data := snd hp;
           convers := fst cp; participants := snd cp |}.

Definition write_dump_to_file (dump : list json) (filelocation : string)
  (mode : Z) (base_filename : string) : M world unit :=
  if (mode <? 0) || (2 <? mode) then raise ValueError
  else
    (if (mode =? 0) || (mode =? 2) then
       write_file {| wf_path := filelocation +++ base_filename +++ ".json";
                     wf_dump := dump; wf_indent := None |}
     else ret tt) ;;
    (if (mode =? 1) || (mode =? 2) then
       write_file {| wf_path := filelocation +++ base_filename +++ ".pretty.json";
                     wf_dump := dump; wf_indent := Some 4 |}
     else ret tt).

(** The [while self._end_flag not in json_data["payload"]] loop of one
    conversation; [fuel] bounds the number of requests. *)
Fixpoint crawl_messages (fuel : nat) (self : FBDumper) (c : json)
  (current_convers : convers_entry) (messages : list json) (offset : Z)
  (timestamp : json) (json_data : json) : M world (list json) :=
  payload <- lift (getitem json_data "payload") ;;
  at_end <- lift (contains _end_flag payload) ;;
  if (at_end : bool) then ret messages
  else
    match fuel with
    | O => out_of_fuel
    | S fuel' =>
        convers_type <- lift (entry_type current_convers) ;;
        data_for_msgs <-
          lift (build_data self c convers_type offset timestamp) ;;
        json_data' <-
          with_world_log (make_request (headers self) _url_convers data_for_msgs) ;;
        payload1 <- lift (getitem json_data' "payload") ;;
        actions1 <- lift (getitem payload1 "actions") ;;
        messages' <- lift (py_add_list actions1 messages) ;;
        payload2 <- lift (getitem json_data' "payload") ;;
        actions2 <- lift (getitem payload2 "actions") ;;
        first <- lift (getitem0 actions2) ;;
        timestamp' <- lift (getitem first "timestamp") ;;
        crawl_messages fuel' self c current_convers messages'
          (offset + chunk_size self) timestamp' json_data'
    end.

(** The body of [for c in convers_ids] in [dump]. *)
Definition dump_convers (fuel : nat) (self : FBDumper) (to_stdout : bool)
  (c : json) : M world unit :=
  known <- lift (dict_contains c (convers self)) ;;
  if negb known then raise (FBUnknownConvers c)
  else
    (if to_stdout then
       e <- lift (dict_getitem (convers self) c) ;;
       name <- lift (entry_name e) ;;
       _ <- lift (py_unidecode unidecode name) ;;
       ret tt
     else ret tt) ;;
    current_convers <- lift (dict_getitem (convers self) c) ;;
    messages <-
      crawl_messages fuel self c current_convers [] 0 (JStr "0")
        (JObj [("payload", JObj [])]) ;;
    out_c <- lift (str_add (output self) c) ;;
    e <- lift (dict_getitem (convers self) c) ;;
    name <- lift (entry_name e) ;;
    uname <- lift (py_unidecode unidecode name) ;;
    let filelocation := out_c +++ " - " +++ uname +++ os_sep in
    write_dump_to_file messages filelocation 2 "complete".

(** The identifiers [dump] goes through: [self.convers_ids] when it is
    given and not empty, else every key of [self.convers]. *)
Definition ids_to_dump (self : FBDumper) : list json :=
  match convers_ids self with
  | Some (x :: rest) => map JStr (x :: rest)
  | _ => dict_keys (convers self)
  end.

Definition dump (fuel : nat) (self : FBDumper) (to_stdout : bool)
  : M world unit :=
  for_each (ids_to_dump self) (dump_convers fuel self to_stdout).

(** ** parser.py *)

(** A download request: the URL and the destination path handed to
    [dl_file]. *)
Definition download : Type := (json * string)%type.

(** The attributes of an [FBParser] that the checks read and write.
    [futures] lists each submitted download request with the URL stored
    under its future, in submission order. *)
Record FBParser : Type := {
  mode : FBParserMode.t;
  data : list FBDataTypes.t;
  output_convers : string;
  parser_participants : pydict json;
  msgs : string;
  pics : string;
  gifs : string;
  videos : string;
  files : string;
  links : string;
  cnt_msgs : Z;
  cnt_pics : Z;
  cnt_gifs : Z;
  cnt_videos : Z;
  cnt_files : Z;
  cnt_links : Z;
  futures : list (download * json)
}.

Definition set_msgs (v : string) (self : FBParser) : FBParser :=
  {| mode := mode self; data := data self; output_convers :=
     output_convers self; parser_participants := parser_participants
     self; msgs := v; pics := pics self; gifs := gifs self; videos :=
     videos self; files := files self; links := links self; cnt_msgs
     := cnt_msgs self; cnt_pics := cnt_pics self; cnt_gifs := cnt_gifs
     self; cnt_videos := cnt_videos self; cnt_files := cnt_files self;
     cnt_links := cnt_links self; futures := futures self |}.

Definition set_pics (v : string) (self : FBParser) : FBParser :=
  {| mode := mode self; data := data self; output_convers :=
     output_convers self; parser_participants := parser_participants
     self; msgs := msgs self; pics := v; gifs := gifs self; videos :=
     videos self; files := files self; links := links self; cnt_msgs
     := cnt_msgs self; cnt_pics := cnt_pics self; cnt_gifs := cnt_gifs
     self; cnt_videos := cnt_videos self; cnt_files := cnt_files self;
     cnt_links := cnt_links self; futures := futures self |}.

Definition set_gifs (v : string) (self : FBParser) : FBParser :=
  {| mode := mode self; data := data self; output_convers :=
     output_convers self; parser_participants := parser_participants
     self; msgs := msgs self; pics := pics self; gifs := v; videos :=
     videos self; files := files self; links := links self; cnt_msgs
     := cnt_msgs self; cnt_pics := cnt_pics self; cnt_gifs := cnt_gifs
     self; cnt_videos := cnt_videos self; cnt_files := cnt_files self;
     cnt_links := cnt_links self; futures := futures self |}.

Definition set_videos (v : string) (self : FBParser) : FBParser :=
  {| mode := mode self; data := data self; output_convers :=
     output_convers self; parser_participants := parser_participants
     self; msgs := msgs self; pics := pics self; gifs := gifs self;
     videos := v; files := files self; links := links self; cnt_msgs
     := cnt_msgs self; cnt_pics := cnt_pics self; cnt_gifs := cnt_gifs
     self; cnt_videos := cnt_videos self; cnt_files := cnt_files self;
     cnt_links := cnt_links self; futures := futures self |}.

Definition set_files (v : string) (self : FBParser) : FBParser :=
  {| mode := mode self; data := data self; output_convers :=
     output_convers self; parser_participants := parser_participants
     self; msgs := msgs self; pics := pics self; gifs := gifs self;
     videos := videos self; files := v; links := links self; cnt_msgs
     := cnt_msgs self; cnt_pics := cnt_pics self; cnt_gifs := cnt_gifs
     self; cnt_videos := cnt_videos self; cnt_files := cnt_files self;
     cnt_links := cnt_links self; futures := futures self |}.

Definition set_links (v : string) (self : FBParser) : FBParser :=
  {| mode := mode self; data := data self; output_convers :=
     output_convers self; parser_participants := parser_participants
     self; msgs := msgs self; pics := pics self; gifs := gifs self;
     videos := videos self; files := files self; links := v; cnt_msgs
     := cnt_msgs self; cnt_pics := cnt_pics self; cnt_gifs := cnt_gifs
     self; cnt_videos := cnt_videos self; cnt_files := cnt_files self;
     cnt_links := cnt_links self; futures := futures self |}.

Definition set_cnt_msgs (v : Z) (self : FBParser) : FBParser :=
  {| mode := mode self; data := data self; output_convers :=
     output_convers self; parser_participants := parser_participants
     self; msgs := msgs self; pics := pics self; gifs := gifs self;
     videos := videos self; files := files self; links := links self;
     cnt_msgs := v; cnt_pics := cnt_pics self; cnt_gifs := cnt_gifs
     self; cnt_videos := cnt_videos self; cnt_files := cnt_files self;
     cnt_links := cnt_links self; futures := futures self |}.

Definition set_cnt_pics (v : Z) (self : FBParser) : FBParser :=
  {| mode := mode self; data := data self; output_convers :=
     output_convers self; parser_participants := parser_participants
     self; msgs := msgs self; pics := pics self; gifs := gifs self;
     videos := videos self; files := files self; links := links self;
     cnt_msgs := cnt_msgs self; cnt_pics := v; cnt_gifs := cnt_gifs
     self; cnt_videos := cnt_videos self; cnt_files := cnt_files self;
     cnt_links := cnt_links self; futures := futures self |}.

Definition set_cnt_gifs (v : Z) (self : FBParser) : FBParser :=
  {| mode := mode self; data := data self; output_convers :=
     output_convers self; parser_participants := parser_participants
     self; msgs := msgs self; pics := pics self; gifs := gifs self;
     videos := videos self; files := files self; links := links self;
     cnt_msgs := cnt_msgs self; cnt_pics := cnt_pics self; cnt_gifs :=
     v; cnt_videos := cnt_videos self; cnt_files := cnt_files self;
     cnt_links := cnt_links self; futures := futures self |}.

Definition set_cnt_videos (v : Z) (self : FBParser) : FBParser :=
  {| mode := mode self; data := data self; output_convers :=
     output_convers self; parser_participants := parser_participants
     self; msgs := msgs self; pics := pics self; gifs := gifs self;
     videos := videos self; files := files self; links := links self;
     cnt_msgs := cnt_msgs self; cnt_pics := cnt_pics self; cnt_gifs :=
     cnt_gifs self; cnt_videos := v; cnt_files := cnt_files self;
     cnt_links := cnt_links self; futures := futures self |}.

Definition set_cnt_files (v : Z) (self : FBParser) : FBParser :=
  {| mode := mode self; data := data self; output_convers :=
     output_convers self; parser_participants := parser_participants
     self; msgs := msgs self; pics := pics self; gifs := gifs self;
     videos := videos self; files := files self; links := links self;
     cnt_msgs := cnt_msgs self; cnt_pics := cnt_pics self; cnt_gifs :=
     cnt_gifs self; cnt_videos := cnt_videos self; cnt_files := v;
     cnt_links := cnt_links self; futures := futures self |}.

Definition set_cnt_links (v : Z) (self : FBParser) : FBParser :=
  {| mode := mode self; data := data self; output_convers :=
     output_convers self; parser_participants := parser_participants
     self; msgs := msgs self; pics := pics self; gifs := gifs self;
     videos := videos self; files := files self; links := links self;
     cnt_msgs := cnt_msgs self; cnt_pics := cnt_pics self; cnt_gifs :=
     cnt_gifs self; cnt_videos := cnt_videos self; cnt_files :=
     cnt_files self; cnt_links := v; futures := futures self |}.

Definition set_futures (v : list (download * json)) (self : FBParser) : FBParser :=
  {| mode := mode self; data := data self; output_convers :=
     output_convers self; parser_participants := parser_participants
     self; msgs := msgs self; pics := pics self; gifs := gifs self;
     videos := videos self; files := files self; links := links self;
     cnt_msgs := cnt_msgs self; cnt_pics := cnt_pics self; cnt_gifs :=
     cnt_gifs self; cnt_videos := cnt_videos self; cnt_files :=
     cnt_files self; cnt_links := cnt_links self; futures := v |}.

(** [repr(x)], and the UTF-8 decoding with replacement that
    [urllib.parse.unquote] applies to the bytes it unescaped. *)
Variable py_repr : json -> string.
Variable utf8_decode : string -> string.

(** [datetime.fromtimestamp(t / 1000).strftime('%Y-%m-%d %H:%M:%S')] for
    an integer [t]; the local time zone is the machine's, and a date out
    of range raises. *)
Variable format_timestamp : Z -> result string.

(** [str(x)] *)
Definition py_str (x : json) : string :=
  match x with
  | JStr s => s
  | JNum n => str_of_Z n
  | JNull => "None"
  | JBool true => "True"
  | JBool false => "False"
  | _ => py_repr x
  end.

Definition is_none (x : json) : bool :=
  match x with
  | JNull => true
  | _ => false
  end.

(** [x[5:]]; slicing a dictionary, a number or [None] is an error. *)
Definition slice_from_5 (x : json) : result json :=
  match x with
  | JStr s => Ok (JStr (string_drop 5 s))
  | JArr l => Ok (JArr (skipn 5 l))
  | _ => Err TypeError
  end.

(** [t / 1000] handed to the date formatter. *)
Definition format_date (t : json) : result string :=
  match t with
  | JNum n => format_timestamp n
  | JBool b => format_timestamp (if b then 1 else 0)
  | _ => Err TypeError
  end.

Definition _action_type_user_msg : string := "ma-type:user-generated-message".

(** [message_fmt.format(body, attachments, username, fbid, date)] *)
Definition message_fmt (body attachments username fbid date : string)
  : string :=
  "Message body: " +++ body +++ " - attachments {" +++ attachments
    +++ "} - sent by: '" +++ username +++ "' (" +++ fbid +++ ") - the "
    +++ date +++ nl.

Definition common_checks (msg : json) : result bool :=
  match getitem msg "action_type" with
  | Ok t => Ok (py_eq_str t _action_type_user_msg)
  | Err e => Err e
  end.

(** [[str(a["name"]) + " " for a in l if a["attach_type"] != "error"]] *)
Fixpoint attachment_names (l : list json) : result (list string) :=
  match l with
  | [] => Ok []
  | a :: rest =>
      match getitem a "attach_type" with
      | Err e => Err e
      | Ok t =>
          if negb (py_eq_str t "error") then
            match getitem a "name" with
            | Err e => Err e
            | Ok n =>
                match attachment_names rest with
                | Err e => Err e
                | Ok names => Ok ((py_str n +++ " ") :: names)
                end
            end
          else attachment_names rest
      end
  end.

Definition check_and_get_msg (msg : json) : M FBParser unit :=
  atts <- lift (getitem msg "attachments") ;;
  l <- lift (py_iter atts) ;;
  names <- lift (attachment_names l) ;;
  let attachments := drop_last (String.concat "" names) in
  author <- lift (getitem msg "author") ;;
  fbid <- lift (slice_from_5 author) ;;
  self <- get ;;
  known <- lift (dict_contains fbid (parser_participants self)) ;;
  username <-
    (if (known : bool) then
       u <- lift (dict_getitem (parser_participants self) fbid) ;;
       ret (py_str u)
     else ret "") ;;
  body <- lift (getitem msg "body") ;;
  t <- lift (getitem msg "timestamp") ;;
  date <- lift (format_date t) ;;
  modify (fun self =>
            set_msgs (msgs self +++ message_fmt (py_repr body) attachments
                                      username (py_str fbid) date) self) ;;
  modify (fun self => set_cnt_msgs (cnt_msgs self + 1) self).

(** The four media checks differ by the attachment kind, by the key of
    the retrieval URL, by the folder and by the stream and counter they
    write; [check_media] is their common text and [media_step] the body
    of its loop over the attachments. *)
Definition media_step (kind url_key : string) (folder : FBDataTypes.t)
  (add_line : string -> FBParser -> FBParser)
  (incr : FBParser -> FBParser) (attachment : json) : M FBParser unit :=
  attach_type <- lift (getitem attachment "attach_type") ;;
  if py_eq_str attach_type kind then
    url <- lift (getitem attachment url_key) ;;
    if negb (is_none url) then
      self <- get ;;
      (if FBParserMode.eqb (mode self) FBParserMode.REPORT
          || FBParserMode.eqb (mode self) FBParserMode.DL then
         line <- lift (add_str url nl) ;;
         modify (add_line line)
       else ret tt) ;;
      (if FBParserMode.eqb (mode self) FBParserMode.DL then
         name <- lift (getitem attachment "name") ;;
         dl_path <-
           lift (str_add (output_convers self +++ FBDataTypes.value folder
                            +++ os_sep) name) ;;
         modify (fun self =>
                   set_futures (futures self ++ [((url, dl_path), url)])
                               self)
       else ret tt) ;;
      modify incr
    else ret tt
  else ret tt.

Definition check_media (kind url_key : string) (folder : FBDataTypes.t)
  (add_line : string -> FBParser -> FBParser)
  (incr : FBParser -> FBParser) (msg : json) : M FBParser unit :=
  atts <- lift (getitem msg "attachments") ;;
  l <- lift (py_iter atts) ;;
  for_each l (media_step kind url_key folder add_line incr).

Definition check_and_get_pics : json -> M FBParser unit :=
  check_media "photo" "preview_url" FBDataTypes.PICTURES
    (fun line self => set_pics (pics self +++ line) self)
    (fun self => set_cnt_pics (cnt_pics self + 1) self).

Definition check_and_get_gifs : json -> M FBParser unit :=
  check_media "animated_image" "preview_url" FBDataTypes.GIFS
    (fun line self => set_gifs (gifs self +++ line) self)
    (fun self => set_cnt_gifs (cnt_gifs self + 1) self).

Definition check_and_get_videos : json -> M FBParser unit :=
  check_media "video" "url" FBDataTypes.VIDEOS
    (fun line self => set_videos (videos self +++ line) self)
    (fun self => set_cnt_videos (cnt_videos self + 1) self).

Definition check_and_get_files : json -> M FBParser unit :=
  check_media "file" "url" FBDataTypes.FILES
    (fun line self => set_files (files self +++ line) self)
    (fun self => set_cnt_files (cnt_files self + 1) self).

(** *** Links: the redirect pattern and the percent decoding *)

(** One position of the pattern: a given character, or [.], any
    character but a newline. *)
Inductive pat : Type :=
| Lit (c : ascii)
| Dot.

Fixpoint lits (s : string) : list pat :=
  match s with
  | EmptyString => []
  | String c rest => Lit c :: lits rest
  end.

(** [https:\/\/l.facebook.com\/l.php.u=], the part of
    [regex_get_url_from_uri] before the group. *)
Definition redirect_prefix : list pat :=
  lits "https://l" ++ [Dot] ++ lits "facebook" ++ [Dot] ++ lits "com/l"
    ++ [Dot] ++ lits "php" ++ [Dot] ++ lits "u=".

Definition is_newline (c : ascii) : bool := Ascii.eqb c "010"%char.

(** The rest of [s] after a match of the pattern at its start. *)
Fixpoint match_pats (p : list pat) (s : string) : option string :=
  match p, s with
  | [], _ => Some s
  | _ :: _, EmptyString => None
  | Lit c :: p', String d rest =>
      if Ascii.eqb c d then match_pats p' rest else None
  | Dot :: p', String d rest =>
      if is_newline d then None else match_pats p' rest
  end.

(** The group [(.*?)] followed by the literal [stop], matched at the
    start of [s]: the shortest run without a newline before [stop]. *)
Fixpoint lazy_group (stop : string) (s : string) : option string :=
  if String.prefix stop s then Some EmptyString
  else
    match s with
    | EmptyString => None
    | String c rest =>
        if is_newline c then None
        else
          match lazy_group stop rest with
          | Some g => Some (String c g)
          | None => None
          end
    end.

Definition match_redirect_here (s : string) : option string :=
  match match_pats redirect_prefix s with
  | Some rest => lazy_group "&h=" rest
  | None => None
  end.

(** [re.search(regex_get_url_from_uri, s)]: group 1 of the leftmost
    match, if there is one. *)
Fixpoint re_search_redirect (s : string) : option string :=
  match match_redirect_here s with
  | Some g => Some g
  | None =>
      match s with
      | EmptyString => None
      | String _ rest => re_search_redirect rest
      end
  end.

Definition hex_digit (c : ascii) : option N :=
  let n := N_of_ascii c in
  if ((48 <=? n) && (n <=? 57))%N then Some (n - 48)%N
  else if ((65 <=? n) && (n <=? 70))%N then Some (n - 55)%N
  else if ((97 <=? n) && (n <=? 102))%N then Some (n - 87)%N
  else None.

(** [urllib.parse.unquote_to_bytes]: [%] followed by two hexadecimal
    digits is one byte; any other [%] stays. *)
Fixpoint unquote_to_bytes (s : string) : string :=
  match s with
  | EmptyString => EmptyString
  | String c tail =>
      if Ascii.eqb c "%"%char then
        match tail with
        | String a (String b rest) =>
            match hex_digit a, hex_digit b with
            | Some h, Some l =>
                String (ascii_of_N (16 * h + l)) (unquote_to_bytes rest)
            | _, _ => String c (unquote_to_bytes tail)
            end
        | _ => String c (unquote_to_bytes tail)
        end
      else String c (unquote_to_bytes tail)
  end.

Definition is_ascii (c : ascii) : bool :=
  match c with
  | Ascii _ _ _ _ _ _ _ b7 => negb b7
  end.

Definition decode_run (run : string) : string :=
  match run with
  | EmptyString => EmptyString
  | _ => utf8_decode (unquote_to_bytes run)
  end.

(** Every maximal run of ASCII characters is unescaped and decoded; the
    other characters stay.  [run] is the ASCII run read so far. *)
Fixpoint unquote_runs (s : string) (run : string) : string :=
  match s with
  | EmptyString => decode_run run
  | String c rest =>
      if is_ascii c then unquote_runs rest (run +++ String c EmptyString)
      else decode_run run +++ String c (unquote_runs rest EmptyString)
  end.

(** [urllib.parse.unquote(s)] *)
Definition unquote (s : string) : string :=
  if is_substring "%" s then unquote_runs s EmptyString else s.

(** [re.search(regex, uri)] needs a string. *)
Definition search_uri (uri : json) : result (option string) :=
  match uri with
  | JStr s => Ok (re_search_redirect s)
  | _ => Err TypeError
  end.

Definition add_link (line : string) : M FBParser unit :=
  modify (fun self => set_links (links self +++ line) self).

Definition incr_cnt_links : M FBParser unit :=
  modify (fun self => set_cnt_links (cnt_links self + 1) self).

(** The body of the loop over the attachments in
    [check_and_get_links]. *)
Definition share_step (attachment : json) : M FBParser unit :=
  attach_type <- lift (getitem attachment "attach_type") ;;
  if py_eq_str attach_type "share" then
    share <- lift (getitem attachment "share") ;;
    uri <- lift (getitem share "uri") ;;
    if negb (is_none uri) then
      found <- lift (search_uri uri) ;;
      match found with
      | Some inner => add_link (unquote inner +++ nl)
      | None => line <- lift (add_str uri nl) ;; add_link line
      end ;;
      incr_cnt_links
    else ret tt
  else ret tt.

(** The body of the loop over [msg["ranges"]]. *)
Definition range_step (link_range : json) : M FBParser unit :=
  entity <- lift (getitem link_range "entity") ;;
  url <- lift (getitem entity "url") ;;
  line <- lift (add_str url nl) ;;
  add_link line ;;
  incr_cnt_links.

Definition check_and_get_links (msg : json) : M FBParser Z :=
  atts <- lift (getitem msg "attachments") ;;
  l <- lift (py_iter atts) ;;
  for_each l share_step ;;
  has_ranges <- lift (contains "ranges" msg) ;;
  (if (has_ranges : bool) then
     ranges <- lift (getitem msg "ranges") ;;
     rs <- lift (py_iter ranges) ;;
     for_each rs range_step
   else ret tt) ;;
  ret 0.

(** The list [functions] that [parse] builds from [self.data]. *)
Definition functions (data : list FBDataTypes.t)
  : list (json -> M FBParser unit) :=
  let has d :=
    existsb (fun x => String.eqb (FBDataTypes.value x) (FBDataTypes.value d))
            data in
  let links_check msg := check_and_get_links msg ;; ret tt in
  if has FBDataTypes.ALL then
    [check_and_get_msg; check_and_get_pics; check_and_get_gifs;
     check_and_get_videos; check_and_get_files; links_check]
  else
    (if has FBDataTypes.MESSAGES then [check_and_get_msg] else [])
      ++ (if has FBDataTypes.PICTURES then [check_and_get_pics] else [])
      ++ (if has FBDataTypes.GIFS then [check_and_get_gifs] else [])
      ++ (if has FBDataTypes.VIDEOS then [check_and_get_videos] else [])
      ++ (if has FBDataTypes.FILES then [check_and_get_files] else [])
      ++ (if has FBDataTypes.LINKS then [links_check] else []).

Definition process_msgs (fs : list (json -> M FBParser unit))
  (json_msgs : list json) : M FBParser unit :=
  for_each json_msgs (fun msg =>
    user_msg <- lift (common_checks msg) ;;
    if (user_msg : bool) then for_each fs (fun f => f msg) else ret tt).

(** *** Waiting for the downloads

    The downloads run in worker threads; [wait_threads] itself is one
    sequential loop over the futures in the order in which
    [futures.as_completed] yields them, and that order, with the result of
    each future, is given to the model.  The loading thread only reads the
    counter; what it prints is left out. *)

(** What [future.result()] gives once a download is over: nothing, or
    the exception of [dl_file] with its text [str(e)]. *)
Inductive download_result : Type :=
| Saved
| Failed (e : exn) (reason : string).

(** The standard output and the counter [cnt] of the loading thread. *)
Record wait_state : Type := {
  stdout : list string;
  loading_cnt : Z
}.

Definition print (line : string) : M wait_state unit :=
  modify (fun st => {| stdout := stdout st ++ [line];
                       loading_cnt := loading_cnt st |}).

Definition decr_cnt : M wait_state unit :=
  modify (fun st => {| stdout := stdout st;
                       loading_cnt := loading_cnt st - 1 |}).

(** [try: body finally: final] *)
Definition try_finally {S A} (body : M S A) (final : M S unit) : M S A :=
  fun s =>
    match body s with
    | (s', r) =>
        match final s' with
        | (s'', Ret _) => (s'', r)
        | (s'', Exc e) => (s'', Exc e)
        | (s'', OutOfFuel) => (s'', OutOfFuel)
        end
    end.

(** The body of the loop over [futures.as_completed(self.futures)];
    [url] is [self.futures[future]]. *)
Definition collect_outcome (to_stdout verbose : bool)
  (completed : json * download_result) : M wait_state unit :=
  let (url, outcome) := completed in
  try_finally
    (match outcome with
     | Saved =>
         if to_stdout && verbose then
           line <- lift (str_add "[+]     - File '" url) ;;
           print (line +++ "' saved")
         else ret tt
     | Failed e reason =>
         if to_stdout then
           line <- lift (str_add "[+]     - File '" url) ;;
           print (line +++ "' generated an exception: " +++ reason)
         else raise e
     end)
    decr_cnt.

(** [wait_threads]; [completed] lists the futures in the order
    [as_completed] yields them, each with the URL stored under it and
    with its result. *)
Definition wait_threads (self : FBParser) (to_stdout verbose : bool)
  (completed : list (json * download_result)) : M wait_state unit :=
  if FBParserMode.eqb (mode self) FBParserMode.DL then
    (if to_stdout then
       print "[+]     - Waiting for downloading threads to finished"
     else ret tt) ;;
    modify (fun st => {| stdout := stdout st;
                         loading_cnt := Z.of_nat (List.length (futures self)) |}) ;;
    for_each completed (collect_outcome to_stdout verbose)
  else ret tt.

(** ** Data used to state and to exercise the properties *)

(** A service that answers the [n]-th request with the [n]-th element of
    [rs], whatever the request. *)
Definition scripted (rs : list json) (lg : list request) (rq : request)
  : result json :=
  match nth_error rs (List.length lg) with
  | Some r => Ok r
  | None => Err OSError
  end.

(** [respond] answers the requests number [n0], [n0 + 1], ... with the
    elements of [rs] in turn. *)
Definition serves (n0 : nat) (rs : list json) : Prop :=
  forall i r lg rq,
    nth_error rs i = Some r ->
    List.length lg = (n0 + i)%nat ->
    respond lg rq = Ok r.

(** What the history crawl reads in a response it accepts: the chunk
    [payload.actions], which is a list with a first record, the timestamp
    of that record, and whether the end flag is in the payload.  [None]
    when the response has an error report or lacks one of these. *)
Definition history_view (r : json) : option (list json * json * bool) :=
  match contains "error" r, getitem r "payload" with
  | Ok false, Ok payload =>
      match getitem payload "actions", contains _end_flag payload with
      | Ok (JArr (first :: rest)), Ok at_end =>
          match getitem first "timestamp" with
          | Ok ts => Some (first :: rest, ts, at_end)
          | Err _ => None
          end
      | _, _ => None
      end
  | _, _ => None
  end.

(** A response without error report whose chunk is the empty list. *)
Definition is_empty_page (r : json) : bool :=
  match contains "error" r, getitem r "payload" with
  | Ok false, Ok payload =>
      match getitem payload "actions" with
      | Ok (JArr []) => true
      | _ => false
      end
  | _, _ => false
  end.

(** The form data [build_data] returns for a string identifier. *)
Definition message_form (self : FBDumper) (cid : string)
  (convers_type : FBConversType.t) (offset : Z) (timestamp : json) : form :=
  let prefix := ("messages[" +++ _DICT_FB_TYPES convers_type +++ "][") +++ cid in
  form_update
    (form_literal
       [ (prefix +++ "][offset]", JStr (str_of_Z offset));
         (prefix +++ "][limit]", JStr (str_of_Z (chunk_size self)));
         (prefix +++ "][timestamp]", timestamp);
         ("client", JStr "web_messenger") ])
    (post_data self).

Definition message_request (self : FBDumper) (cid : string)
  (convers_type : FBConversType.t) (offset : Z) (timestamp : json)
  : request :=
  {| req_url := _url_convers; req_headers := headers self;
     req_data := message_form self cid convers_type offset timestamp |}.

(** The requests of one history crawl that starts at [offset] with the
    cursor [timestamp] and receives chunks whose first records carry the
    timestamps [cursors], one request per chunk received. *)
Fixpoint message_requests (self : FBDumper) (cid : string)
  (convers_type : FBConversType.t) (offset : Z) (timestamp : json)
  (cursors : list json) : list request :=
  match cursors with
  | [] => []
  | ts :: rest =>
      message_request self cid convers_type offset timestamp
        :: message_requests self cid convers_type
             (offset + chunk_size self) ts rest
  end.

(** The timestamp of a message record, when it is an integer. *)
Definition timestamp_of (m : json) : option Z :=
  match getitem m "timestamp" with
  | Ok (JNum t) => Some t
  | _ => None
  end.

(** [a] is strictly older than [b]. *)
Definition older (a b : json) : Prop :=
  exists ta tb, timestamp_of a = Some ta /\ timestamp_of b = Some tb /\ ta < tb.

(** Oldest to newest, strictly. *)
Definition ascending (l : list json) : Prop := StronglySorted older l.

(** Newest to oldest, strictly. *)
Definition descending (l : list json) : Prop :=
  StronglySorted (fun a b => older b a) l.

(** Every record of a chunk received later is strictly older than every
    record of a chunk received earlier; the chunks are listed in the order
    they are received. *)
Definition successively_older (chunks : list (list json)) : Prop :=
  ForallOrdPairs
    (fun earlier later =>
       forall a b, In a later -> In b earlier -> older a b)
    chunks.

(** The initial value of [json_data] in [dump]. *)
Definition initial_json_data : json := JObj [("payload", JObj [])].


(** *** Sample data *)

Definition sample_message (t : Z) : json :=
  JObj [("timestamp", JNum t); ("body", JStr "hi")].

(** A history response with the given chunk, with or without the end
    flag. *)
Definition history_page (chunk : list json) (at_end : bool) : json :=
  JObj [("payload",
         JObj (("actions", JArr chunk)
                 :: if at_end then [(_end_flag, JBool true)] else []))].

Definition sample_entry : convers_entry :=
  {| ce_type := Some FBConversType.USER; ce_name := Some (JStr "Ann");
     ce_status := Some "inbox"; ce_participants := Some (JArr []);
     ce_last_message_timestamp := Some (JNum 40) |}.

Definition sample_dumper : FBDumper :=
  {| convers_ids := Some ["42"]; user_raw_data := "cookie:c";
     chunk_size := 2; timer := 1; output := "output/";
     headers := [("cookie", "c")]; post_data := [("__user", JStr "7")];
     convers := [(JStr "42", sample_entry)];
     participants := [(JStr "9", JStr "Ann")] |}.

Definition empty_world : world := {| w_log := []; w_files := [] |}.

(** A dumper asked for a conversation it knows and for one it does not
    know. *)
Definition sample_dumper_two_ids : FBDumper :=
  {| convers_ids := Some ["42"; "99"]; user_raw_data := "cookie:c";
     chunk_size := 2; timer := 1; output := "output/";
     headers := [("cookie", "c")]; post_data := [("__user", JStr "7")];
     convers := [(JStr "42", sample_entry)];
     participants := [(JStr "9", JStr "Ann")] |}.

(** *** The directory crawl, read as functions on the two dictionaries *)

(** The value under a key, [JNull] when there is none. *)
Definition field (j : json) (k : string) : json :=
  match getitem j k with
  | Ok v => v
  | Err _ => JNull
  end.

Definition has_key (j : json) (k : string) : bool :=
  match getitem j k with
  | Ok _ => true
  | Err _ => false
  end.

(** A participant record the crawl accepts: it has a name and an
    identifier that can be a dictionary key. *)
Definition participant_ok (p : json) : bool :=
  has_key p "name" && has_key p "fbid" && hashable (field p "fbid").

(** A thread record the crawl accepts when the participant directory is
    [P]: it has the fields that are read for its type, and a one-to-one
    thread names a participant of [P]. *)
Definition thread_ok (P : pydict json) (c : json) : bool :=
  has_key c "thread_type"
  && (if py_eq_int (field c "thread_type") 2 then has_key c "name"
      else if py_eq_int (field c "thread_type") 1 then
        has_key c "other_user_fbid"
        && match dict_getitem P (field c "other_user_fbid") with
           | Ok _ => true
           | Err _ => false
           end
      else true)
  && has_key c "participants"
  && has_key c "last_message_timestamp"
  && has_key c "thread_fbid"
  && hashable (field c "thread_fbid").

(** The participant directory after the participants of a page. *)
Definition merged (P : pydict json) (parts : list json) : pydict json :=
  fold_left (fun acc p => dict_store (field p "fbid") (field p "name") acc)
            parts P.

(** The value of [current_convers] after an accepted thread. *)
Definition entry_of (status : convers_status) (P : pydict json) (c : json)
  (current_convers : convers_entry) : convers_entry :=
  let typed :=
    if py_eq_int (field c "thread_type") 2 then
      (Some FBConversType.GROUP, Some (field c "name"))
    else if py_eq_int (field c "thread_type") 1 then
      (Some FBConversType.USER,
       match dict_getitem P (field c "other_user_fbid") with
       | Ok n => Some n
       | Err _ => None
       end)
    else (ce_type current_convers, ce_name current_convers) in
  {| ce_type := fst typed; ce_name := snd typed;
     ce_status := Some (status_name status);
     ce_participants := Some (field c "participants");
     ce_last_message_timestamp := Some (field c "last_message_timestamp") |}.

(** The conversation index after the accepted threads of a page. *)
Fixpoint stored (status : convers_status) (P : pydict json)
  (threads : list json) (current_convers : convers_entry)
  (C : pydict convers_entry) : pydict convers_entry :=
  match threads with
  | [] => C
  | c :: rest =>
      let e := entry_of status P c current_convers in
      stored status P rest e (dict_store (field c "thread_fbid") e C)
  end.

(** The two lists of a listing response that carries no error report. *)
Definition listing_view (r : json) : option (list json * list json) :=
  match contains "error" r, getitem r "payload" with
  | Ok false, Ok payload =>
      match getitem payload "threads", getitem payload "participants" with
      | Ok (JArr threads), Ok (JArr parts) => Some (threads, parts)
      | _, _ => None
      end
  | _, _ => None
  end.

Definition threads_of (r : json) : list json :=
  match listing_view r with
  | Some (threads, _) => threads
  | None => []
  end.

Definition participants_of (r : json) : list json :=
  match listing_view r with
  | Some (_, parts) => parts
  | None => []
  end.

Definition is_listing (r : json) : bool :=
  match listing_view r with
  | Some _ => true
  | None => false
  end.

(** Every page of a run of responses is accepted, the participant
    directory growing from page to page. *)
Fixpoint pages_ok (P : pydict json) (rs : list json) : bool :=
  match rs with
  | [] => true
  | r :: rest =>
      let P' := merged P (participants_of r) in
      is_listing r
      && forallb participant_ok (participants_of r)
      && forallb (thread_ok P') (threads_of r)
      && pages_ok P' rest
  end.

(** The two dictionaries after a run of accepted pages. *)
Fixpoint after_pages (status : convers_status) (rs : list json)
  (C : pydict convers_entry) (P : pydict json)
  : pydict convers_entry * pydict json :=
  match rs with
  | [] => (C, P)
  | r :: rest =>
      let P' := merged P (participants_of r) in
      after_pages status rest (stored status P' (threads_of r) empty_entry C) P'
  end.

(** All the thread records of a run of pages, and their identifiers. *)
Definition all_threads (rs : list json) : list json :=
  flat_map threads_of rs.

Definition thread_ids (threads : list json) : list json :=
  map (fun c => field c "thread_fbid") threads.

Definition listing_request (hdrs : headers_t) (pdata : form)
  (status : convers_status) (offset : Z) : request :=
  {| req_url := _url_convers_list; req_headers := hdrs;
     req_data := form_update (listing_data status offset) pdata |}.

(** The offsets [0], [1000], ... of [n] successive listing requests
    that start at [offset]. *)
Fixpoint listing_offsets (n : nat) (offset : Z) : list Z :=
  match n with
  | O => []
  | S n' => offset :: listing_offsets n' (offset + _chunk_size_convers)
  end.

(** A record of a page that lacks a field the crawl reads in it. *)
Definition participant_lacks_field (p : json) : bool :=
  match p with
  | JObj _ => negb (has_key p "name") || negb (has_key p "fbid")
  | _ => false
  end.

Definition thread_lacks_field (c : json) : bool :=
  match c with
  | JObj _ =>
      negb (has_key c "thread_type")
      || (py_eq_int (field c "thread_type") 2 && negb (has_key c "name"))
      || (negb (py_eq_int (field c "thread_type") 2)
          && py_eq_int (field c "thread_type") 1
          && negb (has_key c "other_user_fbid"))
      || negb (has_key c "participants")
      || negb (has_key c "last_message_timestamp")
      || negb (has_key c "thread_fbid")
  | _ => false
  end.

Definition page_malformed (r : json) : bool :=
  existsb participant_lacks_field (participants_of r)
  || existsb thread_lacks_field (threads_of r).

(** Sample listing data. *)
Definition group_thread (id : string) : json :=
  JObj [("thread_fbid", JStr id); ("thread_type", JNum 2);
        ("name", JStr "friends"); ("participants", JArr [JStr "fbid:9"]);
        ("last_message_timestamp", JNum 40)].

Definition user_thread (id other : string) : json :=
  JObj [("thread_fbid", JStr id); ("thread_type", JNum 1);
        ("other_user_fbid", JStr other);
        ("participants", JArr [JStr ("fbid:" +++ other)]);
        ("last_message_timestamp", JNum 41)].

Definition sample_participant (id name : string) : json :=
  JObj [("fbid", JStr id); ("name", JStr name)].

Definition listing_page (threads parts : list json) : json :=
  JObj [("payload",
         JObj [("threads", JArr threads); ("participants", JArr parts)])].

Definition empty_crawl : crawl_state :=
  {| cs_log := []; cs_convers := []; cs_participants := [] |}.

(** The identifiers ["t0"], ["t1"], ... of [n] threads. *)
Definition numbered_ids (first n : nat) : list string :=
  map (fun i => "t" +++ str_of_Z (Z.of_nat i)) (seq first n).

(** A full page: 1000 group threads. *)
Definition full_page : json :=
  listing_page (map group_thread (numbered_ids 0 1000)) [].

(** A short page with a one-to-one thread and a group thread. *)
Definition short_page : json :=
  listing_page [user_thread "a" "9"; group_thread "b"]
               [sample_participant "9" "Ann"].

(** A page whose second thread has no [participants] field. *)
Definition bad_page : json :=
  listing_page
    [group_thread "1";
     JObj [("thread_fbid", JStr "2"); ("thread_type", JNum 2);
           ("name", JStr "family"); ("last_message_timestamp", JNum 50)]]
    [sample_participant "9" "Ann"].

(** No string occurs twice in [l]. *)
Fixpoint all_different (l : list string) : bool :=
  match l with
  | [] => true
  | x :: rest => negb (existsb (String.eqb x) rest) && all_different rest
  end.

(** *** The classification, read as functions on a message *)

(** An attachment whose name can go into the message line: it carries
    its kind and, unless the kind is [error], a name. *)
Definition attachment_named (a : json) : bool :=
  has_key a "attach_type"
  && (py_eq_str (field a "attach_type") "error" || has_key a "name").

Definition names_of (atts : list json) : list string :=
  map (fun a => py_str (field a "name") +++ " ")
      (filter (fun a => negb (py_eq_str (field a "attach_type") "error"))
              atts).

(** The name of the author in the participant directory, or nothing. *)
Definition username_of (self : FBParser) (fbid : string) : string :=
  match dict_find (JStr fbid) (parser_participants self) with
  | Some u => py_str u
  | None => ""
  end.

Definition sample_parser (m : FBParserMode.t) : FBParser :=
  {| mode := m; data := [FBDataTypes.ALL]; output_convers := "output/42 - Ann/";
     parser_participants := [(JStr "9", JStr "Ann")];
     msgs := ""; pics := ""; gifs := ""; videos := ""; files := "";
     links := ""; cnt_msgs := 0; cnt_pics := 0; cnt_gifs := 0;
     cnt_videos := 0; cnt_files := 0; cnt_links := 0; futures := [] |}.

(** A message from an author that is not in the directory, with a photo
    that has a URL and a file that has none. *)
Definition sample_user_message : json :=
  JObj [("action_type", JStr _action_type_user_msg);
        ("author", JStr "fbid:77"); ("body", JStr "hello");
        ("timestamp", JNum 1500000000000);
        ("attachments",
         JArr [JObj [("attach_type", JStr "photo"); ("name", JStr "a.jpg");
                     ("preview_url", JStr "https://cdn/a.jpg")];
               JObj [("attach_type", JStr "file"); ("name", JStr "b.pdf");
                     ("url", JNull)]])].

Definition is_str (x : json) : bool :=
  match x with
  | JStr _ => true
  | _ => false
  end.

(** The characters of a JSON string. *)
Definition text (x : json) : string :=
  match x with
  | JStr s => s
  | _ => ""
  end.

(** The lines of a stream put end to end. *)
Definition lines_of (l : list string) : string :=
  fold_right String.append "" l.

(** The four media categories, with the attachment kind each one
    retains, the key of its retrieval URL, and its check. *)
Definition is_media (d : FBDataTypes.t) : bool :=
  match d with
  | FBDataTypes.PICTURES | FBDataTypes.GIFS
  | FBDataTypes.VIDEOS | FBDataTypes.FILES => true
  | _ => false
  end.

Definition media_kind (d : FBDataTypes.t) : string :=
  match d with
  | FBDataTypes.PICTURES => "photo"
  | FBDataTypes.GIFS => "animated_image"
  | FBDataTypes.VIDEOS => "video"
  | FBDataTypes.FILES => "file"
  | _ => ""
  end.

Definition media_url_key (d : FBDataTypes.t) : string :=
  match d with
  | FBDataTypes.PICTURES | FBDataTypes.GIFS => "preview_url"
  | _ => "url"
  end.

Definition media_check (d : FBDataTypes.t) : json -> M FBParser unit :=
  match d with
  | FBDataTypes.PICTURES => check_and_get_pics
  | FBDataTypes.GIFS => check_and_get_gifs
  | FBDataTypes.VIDEOS => check_and_get_videos
  | FBDataTypes.FILES => check_and_get_files
  | _ => fun _ => ret tt
  end.

(** An attachment that counts for a category: its kind is the one of the
    category and its retrieval URL is not null. *)
Definition eligible (kind url_key : string) (a : json) : bool :=
  py_eq_str (field a "attach_type") kind
  && negb (is_none (field a url_key)).

(** An attachment the check of a category accepts: it carries its kind;
    when the kind is the one of the category, it carries the retrieval
    URL, null or a string, and when the URL is a string and files are
    downloaded, a name that is a string. *)
Definition media_ok (kind url_key : string) (m : FBParserMode.t) (a : json)
  : bool :=
  has_key a "attach_type"
  && (if py_eq_str (field a "attach_type") kind then
        has_key a url_key
        && (is_none (field a url_key)
            || (is_str (field a url_key)
                && (if FBParserMode.eqb m FBParserMode.DL then
                      has_key a "name" && is_str (field a "name")
                    else true)))
      else true).

Definition url_line (url_key : string) (a : json) : string :=
  text (field a url_key) +++ nl.

(** The download request of an eligible attachment, with the URL kept
    under its future. *)
Definition download_of (url_key : string) (folder : FBDataTypes.t)
  (self : FBParser) (a : json) : download * json :=
  ((field a url_key,
    (output_convers self +++ FBDataTypes.value folder +++ os_sep)
      +++ text (field a "name")),
   field a url_key).

(** What the check of a category does to its stream and to its counter. *)
Definition media_add_line (d : FBDataTypes.t) (line : string)
  (self : FBParser) : FBParser :=
  match d with
  | FBDataTypes.PICTURES => set_pics (pics self +++ line) self
  | FBDataTypes.GIFS => set_gifs (gifs self +++ line) self
  | FBDataTypes.VIDEOS => set_videos (videos self +++ line) self
  | FBDataTypes.FILES => set_files (files self +++ line) self
  | _ => self
  end.

Definition media_incr (d : FBDataTypes.t) (self : FBParser) : FBParser :=
  match d with
  | FBDataTypes.PICTURES => set_cnt_pics (cnt_pics self + 1) self
  | FBDataTypes.GIFS => set_cnt_gifs (cnt_gifs self + 1) self
  | FBDataTypes.VIDEOS => set_cnt_videos (cnt_videos self + 1) self
  | FBDataTypes.FILES => set_cnt_files (cnt_files self + 1) self
  | _ => self
  end.

(** The parser after a media check: [lines] more in the stream of the
    category, [n] more in its counter, [reqs] more download requests, and
    nothing else changed. *)
Definition media_result (d : FBDataTypes.t) (self : FBParser)
  (lines : string) (n : Z) (reqs : list (download * json)) : FBParser :=
  let self' := set_futures (futures self ++ reqs) self in
  match d with
  | FBDataTypes.PICTURES =>
      set_cnt_pics (cnt_pics self + n) (set_pics (pics self +++ lines) self')
  | FBDataTypes.GIFS =>
      set_cnt_gifs (cnt_gifs self + n) (set_gifs (gifs self +++ lines) self')
  | FBDataTypes.VIDEOS =>
      set_cnt_videos (cnt_videos self + n)
                     (set_videos (videos self +++ lines) self')
  | FBDataTypes.FILES =>
      set_cnt_files (cnt_files self + n)
                    (set_files (files self +++ lines) self')
  | _ => self
  end.

(** The report and the counter the parser holds for a kind of data:
    the attributes [msgs] and [cnt_msgs], [pics] and [cnt_pics], and so
    on.  [ALL] has none. *)
Definition report_of (d : FBDataTypes.t) (self : FBParser) : string :=
  match d with
  | FBDataTypes.MESSAGES => msgs self
  | FBDataTypes.PICTURES => pics self
  | FBDataTypes.GIFS => gifs self
  | FBDataTypes.VIDEOS => videos self
  | FBDataTypes.FILES => files self
  | FBDataTypes.LINKS => links self
  | FBDataTypes.ALL => ""
  end.

Definition count_of (d : FBDataTypes.t) (self : FBParser) : Z :=
  match d with
  | FBDataTypes.MESSAGES => cnt_msgs self
  | FBDataTypes.PICTURES => cnt_pics self
  | FBDataTypes.GIFS => cnt_gifs self
  | FBDataTypes.VIDEOS => cnt_videos self
  | FBDataTypes.FILES => cnt_files self
  | FBDataTypes.LINKS => cnt_links self
  | FBDataTypes.ALL => 0
  end.

(** *** Links *)

(** The nested URI of a share attachment. *)
Definition share_uri (a : json) : json := field (field a "share") "uri".

(** A share attachment that counts: its nested URI is not null. *)
Definition is_share (a : json) : bool :=
  py_eq_str (field a "attach_type") "share" && negb (is_none (share_uri a)).

(** An attachment the links check accepts: it carries its kind, and a
    share carries a nested URI that is null or a string. *)
Definition share_ok (a : json) : bool :=
  has_key a "attach_type"
  && (if py_eq_str (field a "attach_type") "share" then
        has_key a "share" && has_key (field a "share") "uri"
        && (is_none (share_uri a) || is_str (share_uri a))
      else true).

(** The line of a share: the decoded inner target of a redirect, else
    the URI as it is. *)
Definition share_line (a : json) : string :=
  match re_search_redirect (text (share_uri a)) with
  | Some inner => unquote inner +++ nl
  | None => text (share_uri a) +++ nl
  end.

(** The inline ranges of a message: none when the key is absent. *)
Definition ranges_view (msg : json) : option (list json) :=
  if has_key msg "ranges" then
    match field msg "ranges" with
    | JArr rs => Some rs
    | _ => None
    end
  else Some [].

Definition range_url (r : json) : json := field (field r "entity") "url".

Definition range_ok (r : json) : bool :=
  has_key r "entity" && has_key (field r "entity") "url"
  && is_str (range_url r).

Definition range_line (r : json) : string := text (range_url r) +++ nl.

(** The parser after a links check: [lines] more in the links stream and
    [n] more in its counter. *)
Definition links_result (self : FBParser) (lines : string) (n : Z)
  : FBParser :=
  set_cnt_links (cnt_links self + n) (set_links (links self +++ lines) self).

Definition share_attachment (uri : json) : json :=
  JObj [("attach_type", JStr "share"); ("name", JStr "link");
        ("share", JObj [("uri", uri)])].

Definition wrapped_example : string :=
  "https://l.facebook.com/l.php?u=https%3A%2F%2Fexample.com%2Fx&h=AT0x&s=1".

Definition link_range (url : string) : json :=
  JObj [("entity", JObj [("url", JStr url)])].

(** A message with a wrapped share, a plain share, a share without URI,
    a photo, and one inline range. *)
Definition sample_links_message : json :=
  JObj [("attachments",
         JArr [share_attachment (JStr wrapped_example);
               share_attachment (JStr "https://plain.example/p");
               share_attachment JNull;
               JObj [("attach_type", JStr "photo")]]);
        ("ranges", JArr [link_range "https://inline.example/i"])].

(** *** The report of the downloads *)

Definition waiting_line : string :=
  "[+]     - Waiting for downloading threads to finished".

Definition saved_line (url : string) : string :=
  ("[+]     - File '" +++ url) +++ "' saved".

Definition failure_line (url reason : string) : string :=
  ("[+]     - File '" +++ url) +++ "' generated an exception: " +++ reason.

Definition is_saved (r : download_result) : bool :=
  match r with
  | Saved => true
  | Failed _ _ => false
  end.

(** What is printed for one outcome when traces are asked for. *)
Definition report_line (verbose : bool) (c : string * download_result)
  : list string :=
  match snd c with
  | Saved => if verbose then [saved_line (fst c)] else []
  | Failed _ reason => [failure_line (fst c) reason]
  end.

(** The outcomes as [as_completed] yields them, the URLs being strings. *)
Definition outcomes (completed : list (string * download_result))
  : list (json * download_result) :=
  map (fun c => (JStr (fst c), snd c)) completed.

Definition sample_failure : exn := OSError.

(** Three downloads: the second one fails. *)
Definition sample_outcomes : list (string * download_result) :=
  [("https://cdn/a.jpg", Saved);
   ("https://cdn/b.jpg", Failed sample_failure "connection reset");
   ("https://cdn/c.jpg", Saved)].

Definition sample_downloading_parser : FBParser :=
  set_futures
    [((JStr "https://cdn/a.jpg", "output/pictures/a.jpg"), JStr "https://cdn/a.jpg");
     ((JStr "https://cdn/b.jpg", "output/pictures/b.jpg"), JStr "https://cdn/b.jpg");
     ((JStr "https://cdn/c.jpg", "output/pictures/c.jpg"), JStr "https://cdn/c.jpg")]
    (sample_parser FBParserMode.DL).

(** *** Stand-ins for the environment in the closed instances *)

(** No file can be read. *)
Definition no_file (path : string) : result string := Err OSError.

(** The raw data holds no credentials worth a name. *)
Definition no_post_data (raw : string) : result (headers_t * form) :=
  Ok ([], []).

(** A [repr] that is right for strings without quotes or escapes. *)
Definition sample_repr (x : json) : string :=
  match x with
  | JStr s => "'" +++ s +++ "'"
  | _ => "?"
  end.

(** A clock that formats every timestamp alike. *)
Definition sample_clock (t : Z) : result string :=
  Ok "2017-07-14 04:40:00".

(** Bytes are kept as they are, which is right for ASCII. *)
Definition keep_bytes (s : string) : string := s.

(** *** The loop over the messages *)

(** The message is one a user wrote, as [common_checks] decides it. *)
Definition user_generated (msg : json) : bool :=
  py_eq_str (field msg "action_type") _action_type_user_msg.

(** The folders of the four kinds of media. *)
Definition media_folders : list FBDataTypes.t :=
  [FBDataTypes.PICTURES; FBDataTypes.GIFS; FBDataTypes.VIDEOS;
   FBDataTypes.FILES].

(** The names of the attachments of a message that are not of the kind
    [error]. *)
Definition plain_names (atts : list json) : list string :=
  map (fun a => py_str (field a "name"))
      (filter (fun a => negb (py_eq_str (field a "attach_type") "error"))
              atts).

(** ** lib.py: the formatting functions *)

Definition and_then {A B} (r : result A) (k : A -> result B) : result B :=
  match r with
  | Ok a => k a
  | Err e => Err e
  end.

Notation "'let?' x ':=' r 'in' k" := (and_then r (fun x => k))
  (at level 10, x name, r at level 100, k at level 200).

(** [s[:-n]] for a positive [n]. *)
Definition drop_last_n (n : nat) (s : string) : string :=
  substring 0 (String.length s - n) s.

(** [s.lower()] on ASCII letters, which is all that the values of the
    enumerations hold. *)
Definition ascii_lower (c : ascii) : ascii :=
  let n := N_of_ascii c in
  if ((65 <=? n) && (n <=? 90))%N then ascii_of_N (n + 32) else c.

Fixpoint py_lower (s : string) : string :=
  match s with
  | EmptyString => EmptyString
  | String c rest => String (ascii_lower c) (py_lower rest)
  end.

(** [build_fmt_str_from_enum(enums)]; [value] is [e.value]. *)
Definition build_fmt_str_from_enum {E} (value : E -> string)
  (enums : list E) : string :=
  let formatted :=
    fold_left (fun formatted e =>
                 formatted +++ (("'" +++ py_lower (value e)) +++ "', "))
              enums "[" in
  drop_last_n (String.length ", ") formatted +++ "]".

(** [s.rstrip()], which cuts the white space of Unicode off the end. *)
Variable py_rstrip : string -> string.

(** [entry[key]] for a key of a conversation entry that may not be set. *)
Definition entry_field {A} (o : option A) (key : string) : result A :=
  match o with
  | Some v => Ok v
  | None => Err (KeyError (JStr key))
  end.

(** A number as the left operand of [/ 1000]. *)
Definition as_number (t : json) : result Z :=
  match t with
  | JNum n => Ok n
  | JBool b => Ok (if b then 1 else 0)
  | _ => Err TypeError
  end.

(** [metadata_fmt.format(c, name, date, type, status, users)] *)
Definition metadata_fmt (c name date type status users : string) : string :=
  "[+] - ID: '" +++ c +++ "' - Name: '" +++ name +++ "' - Last msg: '"
    +++ date +++ "' - Type: '" +++ type +++ "' - Status: '" +++ status
    +++ "' - Users: '" +++ users +++ "'" +++ nl.

(** [[participants[u[5:]] + " | " for u in us]] *)
Fixpoint user_names (participants : pydict json) (us : list json)
  : result (list string) :=
  match us with
  | [] => Ok []
  | u :: rest =>
      let? fbid := slice_from_5 u in
      let? name := dict_getitem participants fbid in
      let? shown := add_str name " | " in
      let? names := user_names participants rest in
      Ok (shown :: names)
  end.

(** The line that one turn of the loop of [format_convers_metadata] adds
    for the key [c]. *)
Definition format_convers (convers : pydict convers_entry)
  (participants : pydict json) (c : json) : result string :=
  let? current_convers := dict_getitem convers c in
  let? parts := entry_field (ce_participants current_convers) "participants" in
  let? us := py_iter parts in
  let? names := user_names participants us in
  let users := drop_last_n (String.length " | ") (String.concat "" names) in
  let? last := entry_field (ce_last_message_timestamp current_convers)
                           "last_message_timestamp" in
  let? last_msg_date := as_number last in
  let? name := entry_name current_convers in
  let? date := format_timestamp last_msg_date in
  let? type := entry_type current_convers in
  let? status := entry_field (ce_status current_convers) "status" in
  Ok (metadata_fmt (py_str c) (py_str name) date (FBConversType.value type)
                   status users).

Fixpoint format_lines (convers : pydict convers_entry)
  (participants : pydict json) (keys : list json) (formatted_metadata : string)
  : result string :=
  match keys with
  | [] => Ok formatted_metadata
  | c :: rest =>
      let? line := format_convers convers participants c in
      format_lines convers participants rest (formatted_metadata +++ line)
  end.

Definition format_convers_metadata (convers : pydict convers_entry)
  (participants : pydict json) : result string :=
  let? formatted_metadata :=
    format_lines convers participants (dict_keys convers) "" in
  Ok (py_rstrip formatted_metadata).

(** ** parser.py: the identifier of a dumped conversation *)

(** [get_conversation_id], on the decoded file [self.json_msgs]. *)
Definition get_conversation_id (json_msgs : json) : result json :=
  let? first := getitem0 json_msgs in
  let? user := getitem first "other_user_fbid" in
  if negb (is_none user) then Ok user
  else
    let? first' := getitem0 json_msgs in
    let? group := getitem first' "thread_fbid" in
    if negb (is_none group) then Ok group
    else Err ValueError.

(** *** More sample data *)

(** A thread of a type that is neither 1 nor 2. *)
Definition untyped_thread (id : string) : json :=
  JObj [("thread_fbid", JStr id); ("thread_type", JNum 3);
        ("participants", JArr [JStr "fbid:9"]);
        ("last_message_timestamp", JNum 42)].

(** A page with a group thread followed by a thread without a known
    type. *)
Definition mixed_page : json :=
  listing_page [group_thread "g"; untyped_thread "u"]
               [sample_participant "9" "Ann"].

Definition untyped_entry : convers_entry :=
  {| ce_type := None; ce_name := None; ce_status := Some "inbox";
     ce_participants := Some (JArr [JStr "fbid:9"]);
     ce_last_message_timestamp := Some (JNum 42) |}.

Definition sample_dumper_untyped : FBDumper :=
  {| convers_ids := None; user_raw_data := "cookie:c";
     chunk_size := 2; timer := 1; output := "output/";
     headers := [("cookie", "c")]; post_data := [("__user", JStr "7")];
     convers := [(JStr "u", untyped_entry)];
     participants := [(JStr "9", JStr "Ann")] |}.

(** A record of the history that no user wrote. *)
Definition system_event : json :=
  JObj [("action_type", JStr "ma-type:log-message");
        ("author", JStr "fbid:9"); ("timestamp", JNum 1500000000000)].

(** An index with one conversation between two participants. *)
Definition sample_index : pydict convers_entry :=
  [(JStr "42",
    {| ce_type := Some FBConversType.USER; ce_name := Some (JStr "Ann");
       ce_status := Some "inbox";
       ce_participants := Some (JArr [JStr "fbid:9"; JStr "fbid:8"]);
       ce_last_message_timestamp := Some (JNum 40) |})].

(** ** __main__.py: the dumper tool

    The arguments are those that [argparse] has accepted; the cookie file
    has been opened by it, and [a_cookie] is what [f.read()] gives.  The
    lines the tool prints are left out, but not the evaluation of what
    they show. *)

(** [try: body except ...: handler]; [handler e] is [None] for an
    exception that no [except] clause names. *)
Definition try_except {S A} (body : M S A) (handler : exn -> option (M S A))
  : M S A :=
  fun s =>
    match body s with
    | (s', Exc e) =>
        match handler e with
        | Some h => h s'
        | None => (s', Exc e)
        end
    | r => r
    end.

Record dumper_args : Type := {
  a_convers_id : option (list string);
  a_size : Z;
  a_timer : Z;
  a_metadata : bool;
  a_verbose : bool;
  a_output : string;
  a_cookie : string
}.

(** [check_positive_int] and [check_positive_and_not_zero_int], on the
    integer that [int(value)] gave; [None] is [ArgumentTypeError]. *)
Definition check_positive_int (ivalue : Z) : option Z :=
  if ivalue <? 0 then None else Some ivalue.

Definition check_positive_and_not_zero_int (ivalue : Z) : option Z :=
  if ivalue <=? 0 then None else Some ivalue.

(** [dumper_tool_main(args)]; [fuel] bounds every loop of requests. *)
Definition dumper_tool_main (fuel : nat) (args : dumper_args) : M world Z :=
  let user_post_data := a_cookie args in
  fb_dumper <-
    with_world_log
      (FBDumper_init fuel (a_convers_id args) (Some user_post_data) None
                     (a_size args) (a_timer args) (a_output args)) ;;
  if a_metadata args then
    _ <- lift (format_convers_metadata (convers fb_dumper)
                                       (participants fb_dumper)) ;;
    ret 0
  else
    try_except (dump fuel fb_dumper true)
               (fun e => match e with
                         | FBResponseError _ => Some (ret tt)
                         | _ => None
                         end) ;;
    ret 0.

(** What [main] does with the function of the chosen tool:
    [try: return args.func(args) except KeyError: ... return 1]. *)
Definition main_with {S} (func : M S Z) : M S Z :=
  try_except func
             (fun e => match e with
                       | KeyError _ => Some (ret 1)
                       | _ => None
                       end).

(** ** parser.py: the parser object and [parse]

    [FBParser] above holds the attributes of the conversation being
    parsed; the record below holds the object around them.  An attribute
    that may not be set is an option.  [__init__] sets [infile_json] only
    when it is truthy, and nothing else assigns it: [infile] is a value
    that is truthy, and the [elif] branch of [parse], which needs the
    attribute set and falsy, belongs to no parser.  The files are paths
    given as strings. *)

(** The truth value of a decoded JSON document. *)
Definition json_truthy (j : json) : bool :=
  match j with
  | JNull => false
  | JBool b => b
  | JNum n => negb (n =? 0)
  | JStr EmptyString => false
  | JStr (String _ _) => true
  | JArr [] => false
  | JArr (_ :: _) => true
  | JObj [] => false
  | JObj (_ :: _) => true
  end.

(** What is given as [infile_json]: one string or a list of paths. *)
Inductive paths : Type :=
| OnePath (s : string)
| Paths (l : list string).

(** A value of [infile_json] that is truthy: a string with a first
    character, or a list with a first path. *)
Inductive infile : Type :=
| InString (c : ascii) (rest : string)
| InList (file : string) (files : list string).

Definition as_infile (p : option paths) : option infile :=
  match p with
  | Some (OnePath (String c rest)) => Some (InString c rest)
  | Some (Paths (file :: files)) => Some (InList file files)
  | _ => None
  end.

Fixpoint string_chars (s : string) : list string :=
  match s with
  | EmptyString => []
  | String c rest => String c EmptyString :: string_chars rest
  end.

(** [for file in self.infile_json]: a string is gone through character
    by character. *)
Definition infile_iter (i : infile) : list string :=
  match i with
  | InString c rest => string_chars (String c rest)
  | InList file files => file :: files
  end.

Record FBParserSelf : Type := {
  p_json_msgs : option json;
  p_infile_json : option infile;
  p_mode : FBParserMode.t;
  p_data : option (list FBDataTypes.t);
  p_output : string;
  p_threads : Z;
  p_convers : pydict convers_entry;
  p_participants : pydict json;
  p_convers_id : option json;
  p_current : option FBParser
}.

(** [os.makedirs(path, exist_ok=True)] as [FBParser.__init__] calls it on
    its output folder: the folder is there afterwards, or an exception is
    raised, as [FileNotFoundError] is for the empty path. *)
Variable makedirs : string -> result unit.

(** A file system in which every folder can be created but the one of
    the empty path. *)
Definition sample_makedirs (path : string) : result unit :=
  match path with
  | EmptyString => Err OSError
  | String _ _ => Ok tt
  end.

(** [FBParser.__init__].  [json_msgs] is [None] when the argument is left
    out; [data] is [None] when it is left out, and [self.data] is then the
    member [FBDataTypes.ALL] itself and not a list.  The output folder is
    created after the two sources are compared and before [threads] is
    looked at.  The dumper that fetches the two dictionaries is given the
    empty string as identifiers, which counts as none, and is dropped; the
    output folder it is given is the one that was just created.
    The executor and the empty [futures] of the [DL] mode are not kept:
    [init_parser_for_next] sets [futures] again before any check reads
    it. *)
Definition FBParser_init (fuel : nat) (user_raw_data : option string)
  (json_msgs : option json) (infile_json : option paths)
  (mode : FBParserMode.t) (data : option (list FBDataTypes.t))
  (threads : Z) (output : string) : M (list request) FBParserSelf :=
  let given_msgs :=
    match json_msgs with
    | Some j => json_truthy j
    | None => false
    end in
  let given_files :=
    match as_infile infile_json with
    | Some _ => true
    | None => false
    end in
  if xorb given_msgs given_files then
    let out := path_join_empty output in
    _ <- lift (makedirs out) ;;
    if threads <=? 0 then raise ValueError
    else
      fb_dumper <-
        FBDumper_init fuel None user_raw_data None 2000 1 output ;;
      ret {| p_json_msgs := if given_msgs then json_msgs else None;
             p_infile_json :=
               if given_msgs then None else as_infile infile_json;
             p_mode := mode; p_data := data;
             p_output := out; p_threads := threads;
             p_convers := convers fb_dumper;
             p_participants := participants fb_dumper;
             p_convers_id := None; p_current := None |}
  else raise ValueError.

(** [os.path.join(a, b)] on a POSIX system. *)
Definition starts_with_sep (p : string) : bool :=
  match p with
  | String c _ => Ascii.eqb c "/"%char
  | EmptyString => false
  end.

Definition path_join (a b : string) : string :=
  if starts_with_sep b then b
  else
    match a with
    | EmptyString => b
    | _ => if ends_with_sep a then a +++ b else a +++ os_sep +++ b
    end.

(** What [parse] works on: the object, the standard output and the
    report files written so far, each with its text. *)
Record parse_state : Type := {
  ps_self : FBParserSelf;
  ps_stdout : list string;
  ps_reports : list (string * string)
}.

Definition set_self (f : FBParserSelf -> FBParserSelf) : M parse_state unit :=
  modify (fun ps => {| ps_self := f (ps_self ps); ps_stdout := ps_stdout ps;
                       ps_reports := ps_reports ps |}).

Definition say (to_stdout : bool) (line : string) : M parse_state unit :=
  if to_stdout then
    modify (fun ps => {| ps_self := ps_self ps;
                         ps_stdout := ps_stdout ps ++ [line];
                         ps_reports := ps_reports ps |})
  else ret tt.

Definition write_report (path text : string) : M parse_state unit :=
  modify (fun ps => {| ps_self := ps_self ps; ps_stdout := ps_stdout ps;
                       ps_reports := ps_reports ps ++ [(path, text)] |}).

(** [open(infile_json, 'r')] and [json.load]. *)
Variable load_json : string -> result json.

(** The value of an attribute of the object; one that was never set
    raises [AttributeError]. *)
Definition attribute {S A} (o : option A) : M S A :=
  match o with
  | Some v => ret v
  | None => raise AttributeError
  end.

(** The attributes of a conversation as [init_parser_for_next] sets
    them. *)
Definition fresh_parser (self : FBParserSelf) (output_convers : string)
  : FBParser :=
  {| mode := p_mode self;
     data := match p_data self with
             | Some l => l
             | None => [FBDataTypes.ALL]
             end;
     output_convers := output_convers;
     parser_participants := p_participants self;
     msgs := ""; pics := ""; gifs := ""; videos := ""; files := "";
     links := ""; cnt_msgs := 0; cnt_pics := 0; cnt_gifs := 0;
     cnt_videos := 0; cnt_files := 0; cnt_links := 0; futures := [] |}.

(** [init_parser_for_next(infile_json)]; it returns the attributes it has
    set for the conversation. *)
Definition init_parser_for_next (file : string) : M parse_state FBParser :=
  json_msgs <- lift (load_json file) ;;
  set_self (fun self =>
    {| p_json_msgs := Some json_msgs; p_infile_json := p_infile_json self;
       p_mode := p_mode self; p_data := p_data self;
       p_output := p_output self; p_threads := p_threads self;
       p_convers := p_convers self; p_participants := p_participants self;
       p_convers_id := p_convers_id self; p_current := p_current self |}) ;;
  convers_id <- lift (get_conversation_id json_msgs) ;;
  set_self (fun self =>
    {| p_json_msgs := p_json_msgs self; p_infile_json := p_infile_json self;
       p_mode := p_mode self; p_data := p_data self;
       p_output := p_output self; p_threads := p_threads self;
       p_convers := p_convers self; p_participants := p_participants self;
       p_convers_id := Some convers_id; p_current := p_current self |}) ;;
  ps <- get ;;
  let self := ps_self ps in
  left <- lift (add_str convers_id " - ") ;;
  e <- lift (dict_getitem (p_convers self) convers_id) ;;
  name <- lift (entry_name e) ;;
  uname <- lift (py_unidecode unidecode name) ;;
  let output_convers :=
    path_join_empty (path_join (p_output self) (left +++ uname)) in
  let current := fresh_parser self output_convers in
  set_self (fun self =>
    {| p_json_msgs := p_json_msgs self; p_infile_json := p_infile_json self;
       p_mode := p_mode self; p_data := p_data self;
       p_output := p_output self; p_threads := p_threads self;
       p_convers := p_convers self; p_participants := p_participants self;
       p_convers_id := p_convers_id self; p_current := Some current |}) ;;
  ret current.

(** A piece of code that works on the attributes of the conversation,
    started on [current]; the object keeps what it leaves. *)
Definition on_current {A} (current : FBParser) (m : M FBParser A)
  : M parse_state (FBParser * A) :=
  fun ps =>
    let (current', r) := m current in
    let ps' :=
      {| ps_self :=
           {| p_json_msgs := p_json_msgs (ps_self ps);
              p_infile_json := p_infile_json (ps_self ps);
              p_mode := p_mode (ps_self ps); p_data := p_data (ps_self ps);
              p_output := p_output (ps_self ps);
              p_threads := p_threads (ps_self ps);
              p_convers := p_convers (ps_self ps);
              p_participants := p_participants (ps_self ps);
              p_convers_id := p_convers_id (ps_self ps);
              p_current := Some current' |};
         ps_stdout := ps_stdout ps; ps_reports := ps_reports ps |} in
    match r with
    | Ret a => (ps', Ret (current', a))
    | Exc e => (ps', Exc e)
    | OutOfFuel => (ps', OutOfFuel)
    end.

(** [summary_report_fmt.format(...)] *)
Definition summary_report (current : FBParser) : string :=
  "[+]     - Data report : " +++ str_of_Z (cnt_msgs current)
    +++ " messages, " +++ str_of_Z (cnt_pics current)
    +++ " pictures, " +++ str_of_Z (cnt_gifs current)
    +++ " gifs, " +++ str_of_Z (cnt_videos current)
    +++ " videos, " +++ str_of_Z (cnt_files current)
    +++ " files, " +++ str_of_Z (cnt_links current) +++ " links parsed".

Fixpoint repeat_string (n : nat) (s : string) : string :=
  match n with
  | O => ""
  | S n' => s +++ repeat_string n' s
  end.

(** [self.check_and_get_msg in functions] *)
Definition selects_messages (data : list FBDataTypes.t) : bool :=
  existsb (fun x => match x with
                    | FBDataTypes.ALL | FBDataTypes.MESSAGES => true
                    | _ => false
                    end) data.

(** [write_reports_to_file] *)
Definition write_reports_to_file (current : FBParser) : M parse_state unit :=
  let report (d : FBDataTypes.t) (text : string) :=
    write_report (output_convers current +++ FBDataTypes.value d +++ ".txt")
                 text in
  report FBDataTypes.MESSAGES (msgs current) ;;
  report FBDataTypes.PICTURES (pics current) ;;
  report FBDataTypes.GIFS (gifs current) ;;
  report FBDataTypes.VIDEOS (videos current) ;;
  report FBDataTypes.FILES (files current) ;;
  report FBDataTypes.LINKS (links current).

(** [wait_threads] inside [parse]: what it prints goes to the standard
    output; the counter belongs to the loading thread of the call. *)
Definition waiting (current : FBParser) (to_stdout verbose : bool)
  (completed : list (json * download_result)) : M parse_state unit :=
  fun ps =>
    let (ws, r) :=
      wait_threads current to_stdout verbose completed
                   {| stdout := ps_stdout ps; loading_cnt := 0 |} in
    ({| ps_self := ps_self ps; ps_stdout := stdout ws;
        ps_reports := ps_reports ps |}, r).

(** The body of [for file in self.infile_json] in [parse]; [schedule]
    gives, for the downloads submitted, the futures in the order in which
    they complete, each with its URL and its result. *)
Definition parse_file (data : list FBDataTypes.t) (to_stdout verbose : bool)
  (schedule : list (download * json) -> list (json * download_result))
  (file : string) : M parse_state unit :=
  say to_stdout ("[+] - Loading JSON from file '" +++ file +++ "'") ;;
  current <- init_parser_for_next file ;;
  ps <- get ;;
  json_msgs <- attribute (p_json_msgs (ps_self ps)) ;;
  msgs_list <- lift (py_iter json_msgs) ;;
  processed <- on_current current (process_msgs (functions data) msgs_list) ;;
  let current := fst processed in
  say to_stdout ("[+]     - JSON parsed succesfully, saving results "
                   +++ "inside folder '" +++ p_output (ps_self ps) +++ "'") ;;
  say to_stdout (summary_report current) ;;
  current <-
    (if selects_messages data then
       convers_id <- attribute (p_convers_id (ps_self ps)) ;;
       e <- lift (dict_getitem (p_convers (ps_self ps)) convers_id) ;;
       header <-
         lift (format_convers_metadata [(convers_id, e)]
                                       (p_participants (ps_self ps))) ;;
       updated <-
         on_current current
           (modify (set_msgs (header +++ nl +++ repeat_string 79 "-"
                                +++ nl +++ nl +++ msgs current))) ;;
       ret (fst updated)
     else ret current) ;;
  write_reports_to_file current ;;
  waiting current to_stdout verbose (schedule (futures current)).

(** [parse] *)
Definition parse (to_stdout verbose : bool)
  (schedule : list (download * json) -> list (json * download_result))
  : M parse_state unit :=
  ps <- get ;;
  match p_data (ps_self ps) with
  | None => raise TypeError
  | Some data =>
      match p_infile_json (ps_self ps) with
      | None => raise AttributeError
      | Some files =>
          for_each (infile_iter files)
                   (parse_file data to_stdout verbose schedule)
      end
  end.


(** The first record of a dumped one-to-one conversation: the message of
    the sample with the identifiers of its conversation. *)
Definition sample_record : json :=
  JObj [("other_user_fbid", JStr "42"); ("thread_fbid", JNull);
        ("action_type", JStr _action_type_user_msg);
        ("author", JStr "fbid:77"); ("body", JStr "hello");
        ("timestamp", JNum 1500000000000);
        ("attachments",
         JArr [JObj [("attach_type", JStr "photo"); ("name", JStr "a.jpg");
                     ("preview_url", JStr "https://cdn/a.jpg")]])].

(** One file can be loaded. *)
Definition sample_load (file : string) : result json :=
  if String.eqb file "complete.json" then Ok (JArr [sample_record])
  else Err OSError.

(** A parser built for the file of the sample, with the given index. *)
Definition sample_parser_object (index : pydict convers_entry) : FBParserSelf :=
  {| p_json_msgs := None;
     p_infile_json := Some (InList "complete.json" []);
     p_mode := FBParserMode.REPORT; p_data := Some [FBDataTypes.ALL];
     p_output := "output/"; p_threads := 4; p_convers := index;
     p_participants := [(JStr "9", JStr "Ann")];
     p_convers_id := None; p_current := None |}.

Definition sample_parse_state (index : pydict convers_entry) : parse_state :=
  {| ps_self := sample_parser_object index; ps_stdout := [];
     ps_reports := [] |}.

(** ** dumper.py: the credentials in the raw data

    [get_post_data] reads the cookie and six fields of the form data,
    each with [re.search] of its name, a colon, a group of any characters
    and a newline, and takes group 1 of the match.  The group is lazy for
    the cookie and greedy for the others; its characters are any but a
    newline. *)

(** The greedy group followed by a newline, matched at the start of [s]:
    the longest run without a newline is tried first, then the shorter
    ones down to the empty run. *)
Fixpoint dot_run (s : string) : nat :=
  match s with
  | EmptyString => O
  | String c rest => if is_newline c then O else S (dot_run rest)
  end.

Fixpoint greedy_upto (k : nat) (s : string) : option string :=
  if String.prefix nl (string_drop k s) then Some (substring 0 k s)
  else
    match k with
    | O => None
    | S k' => greedy_upto k' s
    end.

Definition greedy_group (s : string) : option string :=
  greedy_upto (dot_run s) s.

(** A match of [name:] and of the group at the start of [s]. *)
Definition match_field_here (group : string -> option string)
  (name s : string) : option string :=
  if String.prefix (name +++ ":") s then
    group (string_drop (String.length (name +++ ":")) s)
  else None.

(** [re.search]: the leftmost match. *)
Fixpoint search_field (group : string -> option string) (name s : string)
  : option string :=
  match match_field_here group name s with
  | Some g => Some g
  | None =>
      match s with
      | EmptyString => None
      | String _ rest => search_field group name rest
      end
  end.

(** [m.group(1)]; there is no match object when the search failed. *)
Definition group1 (m : option string) : result string :=
  match m with
  | Some g => Ok g
  | None => Err AttributeError
  end.

Definition _basic_headers : headers_t :=
  [ ("origin", "https://www.facebook.com");
    ("accept-encoding", "gzip,deflate");
    ("accept-language", "en-US,en;q=0.8");
    ("pragma", "no-cache");
    ("user-agent",
     "Mozilla/5.0 (Windows NT 6.1; WOW64) AppleWebKit/"
       +++ "537.36 (KHTML, like Gecko) Chrome/44.0.2403.107 Safari/537.36");
    ("content-type", "application/x-www-form-urlencoded");
    ("accept", "*/*");
    ("cache-control", "no-cache");
    ("referer", "https://www.facebook.com/messages/toto") ].

(** The names of the fields of the form data, in the order in which they
    are read. *)
Definition credential_names : list string :=
  ["__user"; "__a"; "__dyn"; "__req"; "fb_dtsg"; "__rev"].

Fixpoint read_credentials (names : list string) (raw : string)
  : result form :=
  match names with
  | [] => Ok []
  | name :: rest =>
      let? value := group1 (search_field greedy_group name raw) in
      let? others := read_credentials rest raw in
      Ok ((name, JStr value) :: others)
  end.

(** [get_post_data], on [self.user_raw_data]. *)
Definition FBDumper_get_post_data (raw : string) : result (headers_t * form) :=
  let? cookie := group1 (search_field (lazy_group nl) "cookie" raw) in
  let? post_data := read_credentials credential_names raw in
  Ok (_basic_headers ++ [("cookie", cookie)], post_data).

(** No character of the string is a newline. *)
Fixpoint one_line (s : string) : bool :=
  match s with
  | EmptyString => true
  | String c rest => negb (is_newline c) && one_line rest
  end.

(** Raw data with the seven fields, one per line. *)
Definition sample_raw : string :=
  "cookie:c=1; d=2" +++ nl +++ "__user:7" +++ nl +++ "__a:1" +++ nl
    +++ "__dyn:x" +++ nl +++ "__req:q" +++ nl +++ "fb_dtsg:t:k" +++ nl
    +++ "__rev:9" +++ nl.

(** [value] is what follows [name:] on a line of [raw] that ends with a
    newline. *)
Definition field_line (name value raw : string) : Prop :=
  one_line value = true
  /\ exists before after,
      raw = before +++ (name +++ ":") +++ value +++ nl +++ after.

(** A parser given the path of the sample as a string, not in a list. *)
Definition sample_string_state : parse_state :=
  {| ps_self :=
       {| p_json_msgs := None;
          p_infile_json := as_infile (Some (OnePath "complete.json"));
          p_mode := FBParserMode.REPORT; p_data := Some [FBDataTypes.ALL];
          p_output := "output/"; p_threads := 4;
          p_convers := [(JStr "42", sample_entry)];
          p_participants := [(JStr "9", JStr "Ann")];
          p_convers_id := None; p_current := None |};
     ps_stdout := []; ps_reports := [] |}.
(** ** The state and exception monad *)

Lemma bind_ret {S A B} (m : M S A) (k : A -> M S B) s s' a :
  m s = (s', Ret a) -> bind m k s = k a s'.
Proof. intros H. unfold bind. rewrite H. reflexivity. Qed.

Lemma bind_exc {S A B} (m : M S A) (k : A -> M S B) s s' e :
  m s = (s', Exc e) -> bind m k s = (s', Exc e).
Proof. intros H. unfold bind. rewrite H. reflexivity. Qed.

Lemma bind_fuel {S A B} (m : M S A) (k : A -> M S B) s s' :
  m s = (s', OutOfFuel) -> bind m k s = (s', OutOfFuel).
Proof. intros H. unfold bind. rewrite H. reflexivity. Qed.

Lemma bind_lift_ok {S A B} (r : result A) (k : A -> M S B) s a :
  r = Ok a -> bind (lift r) k s = k a s.
Proof. intros ->. reflexivity. Qed.

Lemma bind_lift_err {S A B} (r : result A) (k : A -> M S B) (s : S) e :
  r = Err e -> bind (lift r) k s = (s, Exc e).
Proof. intros ->. reflexivity. Qed.

(** ** The history crawl *)

Lemma crawl_messages_eq fuel self c cur messages offset timestamp json_data :
  crawl_messages fuel self c cur messages offset timestamp json_data =
  (payload <- lift (getitem json_data "payload") ;;
   at_end <- lift (contains _end_flag payload) ;;
   if (at_end : bool) then ret messages
   else
     match fuel with
     | O => out_of_fuel
     | S fuel' =>
         convers_type <- lift (entry_type cur) ;;
         data_for_msgs <-
           lift (build_data self c convers_type offset timestamp) ;;
         json_data' <-
           with_world_log
             (make_request (headers self) _url_convers data_for_msgs) ;;
         payload1 <- lift (getitem json_data' "payload") ;;
         actions1 <- lift (getitem payload1 "actions") ;;
         messages' <- lift (py_add_list actions1 messages) ;;
         payload2 <- lift (getitem json_data' "payload") ;;
         actions2 <- lift (getitem payload2 "actions") ;;
         first <- lift (getitem0 actions2) ;;
         timestamp' <- lift (getitem first "timestamp") ;;
         crawl_messages fuel' self c cur messages'
           (offset + chunk_size self) timestamp' json_data'
     end).
Proof. destruct fuel; reflexivity. Qed.

Lemma build_data_string self cid ty offset timestamp :
  build_data self (JStr cid) ty offset timestamp
  = Ok (message_form self cid ty offset timestamp).
Proof. reflexivity. Qed.

(** Whether the loop condition holds for the last response read. *)
Definition sentinel_in (json_data : json) : result bool :=
  match getitem json_data "payload" with
  | Ok payload => contains _end_flag payload
  | Err e => Err e
  end.

Lemma history_view_sentinel r chunk ts at_end :
  history_view r = Some (chunk, ts, at_end) -> sentinel_in r = Ok at_end.
Proof.
  unfold history_view, sentinel_in.
  destruct (contains "error" r) as [[|]|]; try discriminate.
  destruct (getitem r "payload") as [payload|]; try discriminate.
  destruct (getitem payload "actions") as [[| | | |[|first rest]|]|];
    try discriminate.
  destruct (contains _end_flag payload) as [b|]; try discriminate.
  destruct (getitem first "timestamp"); try discriminate.
  intros H; inversion H; reflexivity.
Qed.

(** One turn of the loop on a response that the crawl accepts. *)
Lemma crawl_messages_step fuel self cid cur ty messages offset timestamp
      json_data w r chunk ts at_end :
  sentinel_in json_data = Ok false ->
  entry_type cur = Ok ty ->
  respond (w_log w) (message_request self cid ty offset timestamp) = Ok r ->
  history_view r = Some (chunk, ts, at_end) ->
  crawl_messages (S fuel) self (JStr cid) cur messages offset timestamp
                 json_data w
  = crawl_messages fuel self (JStr cid) cur (chunk ++ messages)
                   (offset + chunk_size self) ts r
      {| w_log := w_log w ++ [message_request self cid ty offset timestamp];
         w_files := w_files w |}.
Proof.
  intros Hs Hty Hr Hv.
  rewrite crawl_messages_eq.
  unfold sentinel_in in Hs.
  destruct (getitem json_data "payload") as [payload|] eqn:Hp; try discriminate.
  erewrite bind_lift_ok by reflexivity.
  rewrite (bind_lift_ok _ _ _ _ Hs).
  rewrite (bind_lift_ok _ _ _ _ Hty).
  erewrite bind_lift_ok by apply build_data_string.
  unfold history_view in Hv.
  destruct (contains "error" r) as [[|]|] eqn:He; try discriminate.
  destruct (getitem r "payload") as [payload'|] eqn:Hp'; try discriminate.
  destruct (getitem payload' "actions") as [[| | | |[|first rest]|]|] eqn:Ha;
    try discriminate.
  destruct (contains _end_flag payload') as [b|] eqn:Hb; try discriminate.
  destruct (getitem first "timestamp") as [ts'|] eqn:Ht; try discriminate.
  inversion Hv; subst chunk ts at_end; clear Hv.
  erewrite bind_ret.
  2:{ unfold with_world_log, make_request.
      erewrite bind_ret.
      2:{ unfold post. fold (message_request self cid ty offset timestamp).
          rewrite Hr. reflexivity. }
      rewrite (bind_lift_ok _ _ _ _ He). reflexivity. }
  rewrite (bind_lift_ok _ _ _ _ Hp').
  rewrite (bind_lift_ok _ _ _ _ Ha).
  erewrite bind_lift_ok by reflexivity.
  rewrite (bind_lift_ok _ _ _ _ Hp').
  rewrite (bind_lift_ok _ _ _ _ Ha).
  erewrite bind_lift_ok by reflexivity.
  rewrite (bind_lift_ok _ _ _ _ Ht).
  reflexivity.
Qed.

(** The chunk, the cursor and the end flag of an accepted response. *)
Definition chunk_of (r : json) : list json :=
  match history_view r with
  | Some (chunk, _, _) => chunk
  | None => []
  end.

Definition cursor_of (r : json) : json :=
  match history_view r with
  | Some (_, ts, _) => ts
  | None => JNull
  end.

Definition flagged (r : json) : option bool :=
  match history_view r with
  | Some (_, _, at_end) => Some at_end
  | None => None
  end.

Lemma flagged_view r b :
  flagged r = Some b -> history_view r = Some (chunk_of r, cursor_of r, b).
Proof.
  unfold flagged, chunk_of, cursor_of.
  destruct (history_view r) as [[[chunk ts] e]|]; intros H; inversion H.
  reflexivity.
Qed.

Lemma cursor_is_first_timestamp r b :
  flagged r = Some b ->
  exists first rest,
    chunk_of r = first :: rest /\ getitem first "timestamp" = Ok (cursor_of r).
Proof.
  unfold flagged, chunk_of, cursor_of, history_view.
  destruct (contains "error" r) as [[|]|]; try discriminate.
  destruct (getitem r "payload") as [payload|]; try discriminate.
  destruct (getitem payload "actions") as [[| | | |[|first rest]|]|];
    try discriminate.
  destruct (contains _end_flag payload); try discriminate.
  destruct (getitem first "timestamp") eqn:Ht; try discriminate.
  intros _. exists first, rest. split; [reflexivity | exact Ht].
Qed.

Lemma serves_head n0 r rs :
  serves n0 (r :: rs) ->
  (forall lg rq, List.length lg = n0 -> respond lg rq = Ok r)
  /\ serves (S n0) rs.
Proof.
  intros H. split.
  - intros lg rq Hl. apply (H 0%nat r lg rq); [reflexivity | lia].
  - intros i r' lg rq Hn Hl. apply (H (S i) r' lg rq); [exact Hn | lia].
Qed.

Lemma serves_app n0 rs1 rs2 :
  serves n0 (rs1 ++ rs2) ->
  serves n0 rs1 /\ serves (n0 + List.length rs1) rs2.
Proof.
  intros H. split.
  - intros i r lg rq Hn Hl. apply (H i r lg rq); [|exact Hl].
    rewrite nth_error_app1; [exact Hn|].
    apply nth_error_Some. rewrite Hn. discriminate.
  - intros i r lg rq Hn Hl.
    apply (H (List.length rs1 + i)%nat r lg rq); [|lia].
    rewrite nth_error_app2 by lia.
    replace (List.length rs1 + i - List.length rs1)%nat with i by lia.
    exact Hn.
Qed.

Lemma last_cons {A} (a d : A) l : last (a :: l) d = last l a.
Proof.
  revert a d. induction l as [|b l IH]; intros a d; [reflexivity|].
  change (last (a :: b :: l) d) with (last (b :: l) d).
  rewrite IH. symmetry. apply IH.
Qed.

Lemma concat_rev_cons {A} (c : list A) cs rest :
  List.concat (rev (c :: cs)) ++ rest = List.concat (rev cs) ++ (c ++ rest).
Proof.
  simpl. rewrite concat_app. simpl. rewrite app_nil_r, <- app_assoc.
  reflexivity.
Qed.

(** The loop reads a run of responses that carry no end flag: each chunk
    goes in front of the messages, each cursor into the next request. *)
Lemma crawl_messages_run rs :
  forall fuel self cid cur ty messages offset timestamp json_data w,
    sentinel_in json_data = Ok false ->
    entry_type cur = Ok ty ->
    Forall (fun r => flagged r = Some false) rs ->
    serves (List.length (w_log w)) rs ->
    crawl_messages (List.length rs + fuel) self (JStr cid) cur messages
                   offset timestamp json_data w
    = crawl_messages fuel self (JStr cid) cur
        (List.concat (rev (map chunk_of rs)) ++ messages)
        (offset + Z.of_nat (List.length rs) * chunk_size self)
        (last (map cursor_of rs) timestamp)
        (last rs json_data)
        {| w_log := w_log w
                    ++ message_requests self cid ty offset timestamp
                         (map cursor_of rs);
           w_files := w_files w |}.
Proof.
  induction rs as [|r rs IH];
    intros fuel self cid cur ty messages offset timestamp json_data w
           Hs Hty Hall Hsrv.
  - simpl. rewrite app_nil_r, Z.add_0_r. destruct w; reflexivity.
  - inversion Hall as [|? ? Hr Hrs]; subst.
    apply serves_head in Hsrv. destruct Hsrv as [Hhead Htail].
    apply flagged_view in Hr.
    change (List.length (r :: rs) + fuel)%nat
      with (S (List.length rs + fuel)).
    rewrite (crawl_messages_step _ _ _ _ ty _ _ _ _ _ r (chunk_of r)
               (cursor_of r) false Hs Hty (Hhead _ _ eq_refl) Hr).
    rewrite (IH fuel self cid cur ty); auto.
    + cbn [map]. rewrite concat_rev_cons, !last_cons.
      cbn [message_requests w_log w_files]. rewrite <- app_assoc.
      cbn [app]. f_equal.
      change (List.length (r :: rs)) with (S (List.length rs)). lia.
    + eapply history_view_sentinel; eassumption.
    + cbn [w_log]. rewrite length_app. cbn [List.length].
      replace (List.length (w_log w) + 1)%nat
        with (S (List.length (w_log w))) by lia.
      exact Htail.
Qed.

Lemma crawl_messages_out_of_fuel self c cur messages offset timestamp
      json_data w :
  sentinel_in json_data = Ok false ->
  crawl_messages 0 self c cur messages offset timestamp json_data w
  = (w, OutOfFuel).
Proof.
  intros Hs. rewrite crawl_messages_eq. unfold sentinel_in in Hs.
  destruct (getitem json_data "payload") as [payload|]; try discriminate.
  erewrite bind_lift_ok by reflexivity.
  rewrite (bind_lift_ok _ _ _ _ Hs). reflexivity.
Qed.

Lemma crawl_messages_at_end fuel self c cur messages offset timestamp
      json_data w :
  sentinel_in json_data = Ok true ->
  crawl_messages fuel self c cur messages offset timestamp json_data w
  = (w, Ret messages).
Proof.
  intros Hs. rewrite crawl_messages_eq. unfold sentinel_in in Hs.
  destruct (getitem json_data "payload") as [payload|]; try discriminate.
  erewrite bind_lift_ok by reflexivity.
  rewrite (bind_lift_ok _ _ _ _ Hs). reflexivity.
Qed.

Lemma initial_has_no_sentinel : sentinel_in initial_json_data = Ok false.
Proof. reflexivity. Qed.

Lemma message_requests_length self cid ty offset timestamp cursors :
  List.length (message_requests self cid ty offset timestamp cursors)
  = List.length cursors.
Proof.
  revert offset timestamp.
  induction cursors as [|ts rest IH]; intros offset timestamp;
    [reflexivity|]. simpl. rewrite IH. reflexivity.
Qed.

(** The request that follows the [i]-th chunk carries its cursor. *)
Lemma message_requests_next self cid ty cursors :
  forall offset timestamp i ts,
    nth_error cursors i = Some ts ->
    (S i < List.length cursors)%nat ->
    nth_error (message_requests self cid ty offset timestamp cursors) (S i)
    = Some (message_request self cid ty
              (offset + Z.of_nat (S i) * chunk_size self) ts).
Proof.
  induction cursors as [|c rest IH]; intros offset timestamp i ts Hn Hl.
  - destruct i; discriminate.
  - destruct i as [|i].
    + simpl in Hn. inversion Hn; subst. destruct rest as [|c' rest'].
      * simpl in Hl. lia.
      * cbn [message_requests nth_error]. do 2 f_equal. lia.
    + simpl in Hn. simpl in Hl.
      change (nth_error (message_requests self cid ty offset timestamp
                           (c :: rest)) (S (S i)))
        with (nth_error (message_requests self cid ty
                           (offset + chunk_size self) c rest) (S i)).
      rewrite (IH _ _ i ts Hn) by lia. do 2 f_equal. lia.
Qed.

Lemma message_requests_snoc self cid ty cursors c :
  forall offset timestamp,
    message_requests self cid ty offset timestamp (cursors ++ [c])
    = message_requests self cid ty offset timestamp cursors
        ++ [message_request self cid ty
              (offset + Z.of_nat (List.length cursors) * chunk_size self)
              (last cursors timestamp)].
Proof.
  induction cursors as [|ts rest IH]; intros offset timestamp.
  - cbn [app message_requests List.length last].
    replace (offset + Z.of_nat 0 * chunk_size self) with offset by lia.
    reflexivity.
  - cbn [app message_requests]. rewrite IH, last_cons.
    change (List.length (ts :: rest)) with (S (List.length rest)).
    replace (offset + chunk_size self
             + Z.of_nat (List.length rest) * chunk_size self)
      with (offset + Z.of_nat (S (List.length rest)) * chunk_size self)
      by lia.
    reflexivity.
Qed.

(** The whole crawl of a conversation whose last response, and no
    earlier one, carries the end flag. *)
Lemma crawl_messages_complete rs last_r fuel self cid cur ty w :
  entry_type cur = Ok ty ->
  Forall (fun r => flagged r = Some false) rs ->
  flagged last_r = Some true ->
  serves (List.length (w_log w)) (rs ++ [last_r]) ->
  (List.length rs < fuel)%nat ->
  crawl_messages fuel self (JStr cid) cur [] 0 (JStr "0")
                 initial_json_data w
  = ({| w_log := w_log w
                 ++ message_requests self cid ty 0 (JStr "0")
                      (map cursor_of (rs ++ [last_r]));
        w_files := w_files w |},
     Ret (List.concat (rev (map chunk_of (rs ++ [last_r]))))).
Proof.
  intros Hty Hall Hlast Hsrv Hfuel.
  assert (Hrun :
    forall messages offset timestamp json_data w0 f,
      sentinel_in json_data = Ok false ->
      serves (List.length (w_log w0)) [last_r] ->
      crawl_messages (S f) self (JStr cid) cur messages offset timestamp
                     json_data w0
      = ({| w_log := w_log w0
                     ++ [message_request self cid ty offset timestamp];
            w_files := w_files w0 |},
         Ret (chunk_of last_r ++ messages))).
  { intros messages offset timestamp json_data w0 f Hs Hs1.
    apply serves_head in Hs1. destruct Hs1 as [Hhead _].
    pose proof (flagged_view _ _ Hlast) as Hv.
    rewrite (crawl_messages_step _ _ _ _ ty _ _ _ _ _ last_r _ _ _
               Hs Hty (Hhead _ _ eq_refl) Hv).
    apply crawl_messages_at_end.
    eapply history_view_sentinel; eassumption. }
  replace fuel with (List.length rs + S (fuel - S (List.length rs)))%nat
    by lia.
  assert (Hpre : serves (List.length (w_log w)) rs).
  { intros i r lg rq Hn Hl. apply (Hsrv i r lg rq); [|exact Hl].
    rewrite nth_error_app1; [exact Hn|].
    apply nth_error_Some. rewrite Hn. discriminate. }
  rewrite (crawl_messages_run rs _ self cid cur ty [] 0 (JStr "0")
             initial_json_data w initial_has_no_sentinel Hty Hall Hpre).
  rewrite Hrun.
  - cbn [w_log w_files]. f_equal.
    + f_equal. rewrite <- app_assoc. f_equal.
      rewrite map_app. cbn [map].
      rewrite message_requests_snoc, length_map. reflexivity.
    + f_equal. rewrite map_app, rev_app_distr. cbn [map rev app List.concat].
      rewrite app_nil_r. reflexivity.
  - destruct rs as [|r0 rs0] using rev_ind.
    + reflexivity.
    + rewrite last_last. rewrite Forall_app in Hall.
      destruct Hall as [_ Hr0]. inversion Hr0; subst.
      eapply history_view_sentinel. apply flagged_view. eassumption.
  - cbn [w_log]. rewrite length_app, message_requests_length, length_map.
    intros i r lg rq Hn Hl. apply (Hsrv (List.length rs + i)%nat r lg rq).
    + rewrite nth_error_app2 by lia.
      replace (List.length rs + i - List.length rs)%nat with i by lia.
      exact Hn.
    + lia.
Qed.

(** One turn of the loop on a response whose chunk is empty. *)
Lemma crawl_messages_empty_page fuel self cid cur ty messages offset
      timestamp json_data w r :
  sentinel_in json_data = Ok false ->
  entry_type cur = Ok ty ->
  respond (w_log w) (message_request self cid ty offset timestamp) = Ok r ->
  is_empty_page r = true ->
  crawl_messages (S fuel) self (JStr cid) cur messages offset timestamp
                 json_data w
  = ({| w_log := w_log w ++ [message_request self cid ty offset timestamp];
        w_files := w_files w |}, Exc IndexError).
Proof.
  intros Hs Hty Hr He.
  rewrite crawl_messages_eq.
  unfold sentinel_in in Hs.
  destruct (getitem json_data "payload") as [payload|] eqn:Hp; try discriminate.
  erewrite bind_lift_ok by reflexivity.
  rewrite (bind_lift_ok _ _ _ _ Hs).
  rewrite (bind_lift_ok _ _ _ _ Hty).
  erewrite bind_lift_ok by apply build_data_string.
  unfold is_empty_page in He.
  destruct (contains "error" r) as [[|]|] eqn:Herr; try discriminate.
  destruct (getitem r "payload") as [payload'|] eqn:Hp'; try discriminate.
  destruct (getitem payload' "actions") as [[| | | |[|first rest]|]|] eqn:Ha;
    try discriminate.
  erewrite bind_ret.
  2:{ unfold with_world_log, make_request.
      erewrite bind_ret.
      2:{ unfold post. fold (message_request self cid ty offset timestamp).
          rewrite Hr. reflexivity. }
      rewrite (bind_lift_ok _ _ _ _ Herr). reflexivity. }
  rewrite (bind_lift_ok _ _ _ _ Hp').
  rewrite (bind_lift_ok _ _ _ _ Ha).
  erewrite bind_lift_ok by reflexivity.
  rewrite (bind_lift_ok _ _ _ _ Hp').
  rewrite (bind_lift_ok _ _ _ _ Ha).
  reflexivity.
Qed.

Lemma last_response_has_no_sentinel rs :
  Forall (fun r => flagged r = Some false) rs ->
  sentinel_in (last rs initial_json_data) = Ok false.
Proof.
  intros Hall. destruct rs as [|r0 rs0] using rev_ind; [reflexivity|].
  rewrite last_last. rewrite Forall_app in Hall.
  destruct Hall as [_ Hr0]. inversion Hr0; subst.
  eapply history_view_sentinel. apply flagged_view. eassumption.
Qed.

Lemma strongly_sorted_app {A} (R : A -> A -> Prop) l1 l2 :
  StronglySorted R l1 -> StronglySorted R l2 ->
  (forall a b, In a l1 -> In b l2 -> R a b) ->
  StronglySorted R (l1 ++ l2).
Proof.
  intros H1 H2 H12. induction H1 as [|a l1 Hs IH Ha]; [exact H2|].
  simpl. constructor.
  - apply IH. intros x y Hx Hy. apply H12; [right; exact Hx | exact Hy].
  - apply Forall_app. split; [exact Ha|].
    apply Forall_forall. intros y Hy. apply H12; [left; reflexivity | exact Hy].
Qed.

(** Chunks that are each oldest first, put one in front of the other as
    they come, read oldest first when each later chunk is older. *)
Lemma prepended_chunks_ascending chunks :
  Forall ascending chunks -> successively_older chunks ->
  ascending (List.concat (rev chunks)).
Proof.
  unfold successively_older, ascending.
  induction chunks as [|c cs IH]; intros Hall Hord.
  - constructor.
  - inversion Hall as [|? ? Hc Hcs]; subst.
    inversion Hord as [|? ? Hfirst Hrest]; subst.
    simpl. rewrite concat_app. simpl. rewrite app_nil_r.
    apply strongly_sorted_app; [apply IH; assumption | exact Hc |].
    intros a b Ha Hb. apply in_concat in Ha.
    destruct Ha as [later [Hlater Ha]]. apply in_rev in Hlater.
    rewrite Forall_forall in Hfirst. exact (Hfirst later Hlater a b Ha Hb).
Qed.

(** C1 (as amended).  One conversation is crawled from responses that
    the crawl accepts, the last one alone carrying the end flag.  The
    messages returned are the chunks in the reverse of the order of
    arrival, each chunk in front of the ones received before it and kept
    in its own order.  When every chunk is strictly ascending by
    timestamp and every later chunk is strictly older than the earlier
    ones, the messages are strictly ascending by timestamp.  The cursor
    sent with the request that follows a chunk is the timestamp of the
    first record of that chunk. *)
Theorem history_is_assembled_by_prepending :
  forall self cid cur ty w rs last_r fuel,
    entry_type cur = Ok ty ->
    Forall (fun r => flagged r = Some false) rs ->
    flagged last_r = Some true ->
    serves (List.length (w_log w)) (rs ++ [last_r]) ->
    (List.length rs < fuel)%nat ->
    exists reqs messages,
      crawl_messages fuel self (JStr cid) cur [] 0 (JStr "0")
                     initial_json_data w
      = ({| w_log := w_log w ++ reqs; w_files := w_files w |}, Ret messages)
      /\ messages = List.concat (rev (map chunk_of (rs ++ [last_r])))
      /\ (Forall ascending (map chunk_of (rs ++ [last_r])) ->
          successively_older (map chunk_of (rs ++ [last_r])) ->
          ascending messages)
      /\ forall i r,
           nth_error (rs ++ [last_r]) i = Some r ->
           (exists first rest,
               chunk_of r = first :: rest
               /\ getitem first "timestamp" = Ok (cursor_of r))
           /\ ((S i < List.length (rs ++ [last_r]))%nat ->
               nth_error reqs (S i)
               = Some (message_request self cid ty
                         (Z.of_nat (S i) * chunk_size self) (cursor_of r))).
Proof.
  intros self cid cur ty w rs last_r fuel Hty Hall Hlast Hsrv Hfuel.
  exists (message_requests self cid ty 0 (JStr "0")
            (map cursor_of (rs ++ [last_r]))).
  exists (List.concat (rev (map chunk_of (rs ++ [last_r])))).
  split; [apply crawl_messages_complete; assumption|].
  split; [reflexivity|].
  split; [apply prepended_chunks_ascending|].
  intros i r Hi. split.
  - assert (Hin : In r (rs ++ [last_r])) by (eapply nth_error_In; eassumption).
    apply in_app_or in Hin. destruct Hin as [Hin|[Heq|[]]].
    + rewrite Forall_forall in Hall.
      eapply cursor_is_first_timestamp. apply Hall. exact Hin.
    + subst. eapply cursor_is_first_timestamp. exact Hlast.
  - intros Hlt.
    rewrite (message_requests_next self cid ty _ 0 (JStr "0") i (cursor_of r)).
    + reflexivity.
    + apply map_nth_error. exact Hi.
    + rewrite length_map. exact Hlt.
Qed.

(** C3 (as amended).  While the responses carry no end flag and each
    has a chunk with a first record, every response is followed by
    another request: after [n] such responses the crawl has sent [n]
    requests and has not finished.  When the response to request [k] is
    the first to carry the end flag, the crawl sends exactly [k] requests
    and returns.  A response whose chunk is empty ends the crawl with an
    [IndexError] instead, with no request after it. *)
Theorem history_crawl_ends_at_the_end_flag :
  forall self cid cur ty w rs,
    entry_type cur = Ok ty ->
    Forall (fun r => flagged r = Some false) rs ->
    (serves (List.length (w_log w)) rs ->
     exists reqs,
       List.length reqs = List.length rs
       /\ crawl_messages (List.length rs) self (JStr cid) cur [] 0 (JStr "0")
                         initial_json_data w
          = ({| w_log := w_log w ++ reqs; w_files := w_files w |}, OutOfFuel))
    /\ (forall last_r fuel,
           flagged last_r = Some true ->
           serves (List.length (w_log w)) (rs ++ [last_r]) ->
           (List.length rs < fuel)%nat ->
           exists reqs messages,
             List.length reqs = S (List.length rs)
             /\ crawl_messages fuel self (JStr cid) cur [] 0 (JStr "0")
                               initial_json_data w
                = ({| w_log := w_log w ++ reqs; w_files := w_files w |},
                   Ret messages))
    /\ (forall empty_r fuel,
           is_empty_page empty_r = true ->
           serves (List.length (w_log w)) (rs ++ [empty_r]) ->
           (List.length rs < fuel)%nat ->
           exists reqs,
             List.length reqs = S (List.length rs)
             /\ crawl_messages fuel self (JStr cid) cur [] 0 (JStr "0")
                               initial_json_data w
                = ({| w_log := w_log w ++ reqs; w_files := w_files w |},
                   Exc IndexError)).
Proof.
  intros self cid cur ty w rs Hty Hall. split; [|split].
  - intros Hsrv.
    exists (message_requests self cid ty 0 (JStr "0") (map cursor_of rs)).
    split; [rewrite message_requests_length, length_map; reflexivity|].
    replace (List.length rs) with (List.length rs + 0)%nat at 1 by lia.
    rewrite (crawl_messages_run rs 0 self cid cur ty [] 0 (JStr "0")
               initial_json_data w initial_has_no_sentinel Hty Hall Hsrv).
    apply crawl_messages_out_of_fuel.
    apply last_response_has_no_sentinel. exact Hall.
  - intros last_r fuel Hlast Hsrv Hfuel.
    exists (message_requests self cid ty 0 (JStr "0")
              (map cursor_of (rs ++ [last_r]))).
    exists (List.concat (rev (map chunk_of (rs ++ [last_r])))).
    split.
    + rewrite message_requests_length, length_map, length_app.
      simpl. lia.
    + apply crawl_messages_complete; assumption.
  - intros empty_r fuel Hempty Hsrv Hfuel.
    apply serves_app in Hsrv. destruct Hsrv as [Hpre Hlast].
    apply serves_head in Hlast. destruct Hlast as [Hhead _].
    replace fuel with (List.length rs + S (fuel - S (List.length rs)))%nat
      by lia.
    rewrite (crawl_messages_run rs _ self cid cur ty [] 0 (JStr "0")
               initial_json_data w initial_has_no_sentinel Hty Hall Hpre).
    erewrite crawl_messages_empty_page.
    + eexists. split; [|cbn [w_log w_files]; rewrite <- app_assoc; reflexivity].
      rewrite length_app, message_requests_length, length_map.
      cbn [List.length]. lia.
    + apply last_response_has_no_sentinel. exact Hall.
    + exact Hty.
    + apply Hhead. cbn [w_log].
      rewrite length_app, message_requests_length, length_map. reflexivity.
    + exact Hempty.
Qed.

(** ** Which exceptions the dumper can raise *)

(** [FBUnknownConvers] is the dumper's own exception. *)
Definition is_unknown_convers (e : exn) : bool :=
  match e with
  | FBUnknownConvers _ => true
  | _ => false
  end.

Definition quiet_result {A} (r : result A) : Prop :=
  match r with
  | Err e => is_unknown_convers e = false
  | Ok _ => True
  end.

Definition quiet_outcome {A} (r : outcome A) : Prop :=
  match r with
  | Exc e => is_unknown_convers e = false
  | _ => True
  end.

(** A computation that never raises [FBUnknownConvers]. *)
Definition quiet {S A} (m : M S A) : Prop :=
  forall s, quiet_outcome (snd (m s)).

Lemma quiet_ret {S A} (a : A) : quiet (@ret S A a).
Proof. intros s. exact I. Qed.

Lemma quiet_raise {S A} e :
  is_unknown_convers e = false -> quiet (@raise S A e).
Proof. intros H s. exact H. Qed.

Lemma quiet_out_of_fuel {S A} : quiet (@out_of_fuel S A).
Proof. intros s. exact I. Qed.

Lemma quiet_lift {S A} (r : result A) : quiet_result r -> quiet (@lift S A r).
Proof. intros H s. destruct r; [exact I | exact H]. Qed.

Lemma quiet_modify {S} (f : S -> S) : quiet (modify f).
Proof. intros s. exact I. Qed.

Lemma quiet_write_file f : quiet (write_file f).
Proof. intros s. exact I. Qed.

Lemma quiet_bind {S A B} (m : M S A) (k : A -> M S B) :
  quiet m -> (forall a, quiet (k a)) -> quiet (bind m k).
Proof.
  intros Hm Hk s. unfold bind. specialize (Hm s).
  destruct (m s) as [s' [a| e |]]; simpl in Hm |- *; auto. apply Hk.
Qed.

Lemma quiet_for_each {S A} (l : list A) (body : A -> M S unit) :
  (forall x, In x l -> quiet (body x)) -> quiet (for_each l body).
Proof.
  induction l as [|x l IH]; intros H; simpl.
  - apply quiet_ret.
  - apply quiet_bind; [apply H; left; reflexivity|].
    intros _. apply IH. intros y Hy. apply H. right. exact Hy.
Qed.

Lemma quiet_with_world_log {A} (m : M (list request) A) :
  quiet m -> quiet (with_world_log m).
Proof.
  intros H w. unfold with_world_log. specialize (H (w_log w)).
  destruct (m (w_log w)). exact H.
Qed.

Ltac quiet_cases :=
  repeat match goal with
         | |- context [match ?x with _ => _ end] => destruct x
         | |- context [if ?x then _ else _] => destruct x
         end;
  simpl; auto.

Lemma quiet_getitem j k : quiet_result (getitem j k).
Proof. unfold getitem. quiet_cases. Qed.

Lemma quiet_contains k j : quiet_result (contains k j).
Proof. unfold contains. destruct j; simpl; auto. Qed.

Lemma quiet_getitem0 j : quiet_result (getitem0 j).
Proof. unfold getitem0. quiet_cases. Qed.

Lemma quiet_py_add_list j l : quiet_result (py_add_list j l).
Proof. unfold py_add_list. quiet_cases. Qed.

Lemma quiet_str_add a j : quiet_result (str_add a j).
Proof. unfold str_add. quiet_cases. Qed.

Lemma quiet_entry_type e : quiet_result (entry_type e).
Proof. unfold entry_type. quiet_cases. Qed.

Lemma quiet_entry_name e : quiet_result (entry_name e).
Proof. unfold entry_name. quiet_cases. Qed.

Lemma quiet_dict_getitem {V} (d : pydict V) k : quiet_result (dict_getitem d k).
Proof. unfold dict_getitem. quiet_cases. Qed.

Lemma quiet_py_unidecode x : quiet_result (py_unidecode unidecode x).
Proof. unfold py_unidecode. quiet_cases. Qed.

Lemma quiet_build_data self c ty offset timestamp :
  quiet_result (build_data self c ty offset timestamp).
Proof. unfold build_data, str_add. destruct c; simpl; auto. Qed.

Create HintDb quiet.

#[local] Hint Resolve quiet_ret quiet_out_of_fuel quiet_lift quiet_modify
     quiet_write_file
     quiet_getitem quiet_contains quiet_getitem0 quiet_py_add_list
     quiet_str_add quiet_entry_type quiet_entry_name quiet_dict_getitem
     quiet_py_unidecode quiet_build_data : quiet.

Ltac quiet_steps :=
  repeat first
    [ apply quiet_with_world_log
    | apply quiet_bind; [|intros ?]
    | apply quiet_raise; reflexivity
    | solve [auto with quiet]
    | match goal with
      | |- quiet (if ?b then _ else _) => destruct b
      end ].

(** The transport raises what it likes, but not the dumper's own
    exception. *)
Definition transport_is_foreign : Prop :=
  forall lg rq, quiet_result (respond lg rq).

Lemma quiet_post hdrs url form_data :
  transport_is_foreign -> quiet (post hdrs url form_data).
Proof.
  intros Hr lg. unfold post. simpl.
  specialize (Hr lg {| req_url := url; req_headers := hdrs;
                       req_data := form_data |}).
  destruct (respond lg _); [exact I | exact Hr].
Qed.

Lemma quiet_make_request hdrs url form_data :
  transport_is_foreign -> quiet (make_request hdrs url form_data).
Proof.
  intros Hr. unfold make_request.
  apply quiet_bind; [apply quiet_post, Hr|].
  intros json_data. quiet_steps.
Qed.

Lemma quiet_crawl_messages fuel :
  transport_is_foreign ->
  forall self c cur messages offset timestamp json_data,
    quiet (crawl_messages fuel self c cur messages offset timestamp json_data).
Proof.
  intros Hr. induction fuel as [|fuel IH];
    intros self c cur messages offset timestamp json_data;
    rewrite crawl_messages_eq.
  - quiet_steps.
  - quiet_steps. apply quiet_post, Hr.
Qed.

Lemma quiet_write_dump_to_file messages filelocation mode_ base :
  quiet (write_dump_to_file messages filelocation mode_ base).
Proof.
  unfold write_dump_to_file.
  destruct ((mode_ <? 0) || (2 <? mode_)); quiet_steps.
Qed.

Lemma for_each_app {S A} (l1 l2 : list A) (body : A -> M S unit) s :
  for_each (l1 ++ l2) body s = (for_each l1 body ;; for_each l2 body) s.
Proof.
  revert s. induction l1 as [|x l1 IH]; intros s; simpl.
  - reflexivity.
  - unfold bind in IH |- *. destruct (body x s) as [s' [[]| e |]]; auto.
Qed.

(** C7.  An identifier that is not a key of the conversation index makes
    its turn of the loop of [dump] raise [FBUnknownConvers] for it with
    the requests and the files left as they were; [dump] as a whole then
    ends with that exception in the state the earlier identifiers left,
    once these have been dumped.  An identifier that is a key never meets
    that exception, as long as the transport does not raise it. *)
Theorem unknown_conversation_is_rejected_before_any_request :
  forall fuel self to_stdout c,
    (dict_contains c (convers self) = Ok false ->
     (forall w, dump_convers fuel self to_stdout c w
                = (w, Exc (FBUnknownConvers c)))
     /\ (forall before after w w',
            ids_to_dump self = before ++ c :: after ->
            for_each before (dump_convers fuel self to_stdout) w
            = (w', Ret tt) ->
            dump fuel self to_stdout w = (w', Exc (FBUnknownConvers c))))
    /\ (dict_contains c (convers self) = Ok true ->
        transport_is_foreign ->
        forall w e,
          snd (dump_convers fuel self to_stdout c w) = Exc e ->
          is_unknown_convers e = false).
Proof.
  intros fuel self to_stdout c. split.
  - intros Habsent.
    assert (Hone : forall w, dump_convers fuel self to_stdout c w
                             = (w, Exc (FBUnknownConvers c))).
    { intros w. unfold dump_convers.
      rewrite (bind_lift_ok _ _ _ _ Habsent). reflexivity. }
    split; [exact Hone|].
    intros before after w w' Hids Hbefore. unfold dump.
    rewrite Hids, for_each_app.
    rewrite (bind_ret _ _ _ _ _ Hbefore). simpl.
    apply bind_exc. apply Hone.
  - intros Hknown Hr w e Hexc.
    unfold dump_convers in Hexc.
    rewrite (bind_lift_ok _ _ _ _ Hknown) in Hexc. cbn [negb] in Hexc.
    match type of Hexc with
    | snd (?m w) = _ => assert (Hq : quiet m)
    end.
    { pose proof (quiet_crawl_messages fuel Hr) as Hcrawl.
      pose proof quiet_write_dump_to_file as Hwrite.
      quiet_steps. }
    specialize (Hq w). rewrite Hexc in Hq. exact Hq.
Qed.

(** ** The constructor of the dumper *)

(** C9 (as amended).  [__init__] raises [ValueError], with no request
    sent, when the truth values of the raw data and of the file path are
    not exclusive; the raw data is then the string given or the content
    of the file, and an exception of the read is raised as it is; once
    the raw data is there, a chunk size that is not strictly positive or
    a negative timer raise [ValueError] with no request sent.  When the
    constructor returns, the object holds the chunk size and the timer
    that were given, and the three conditions held. *)
Theorem dumper_constructor_validates_its_arguments :
  forall fuel ids raw_data infile size delay out lg,
    (xorb (truthy raw_data) (truthy infile) = false ->
     FBDumper_init fuel ids raw_data infile size delay out lg
     = (lg, Exc ValueError))
    /\ (xorb (truthy raw_data) (truthy infile) = true ->
        truthy raw_data = true
        \/ (exists raw, read_file (string_of infile) = Ok raw) ->
        size <= 0 \/ delay < 0 ->
        FBDumper_init fuel ids raw_data infile size delay out lg
        = (lg, Exc ValueError))
    /\ (forall e,
           xorb (truthy raw_data) (truthy infile) = true ->
           truthy raw_data = false ->
           read_file (string_of infile) = Err e ->
           FBDumper_init fuel ids raw_data infile size delay out lg
           = (lg, Exc e))
    /\ (forall lg' d,
           FBDumper_init fuel ids raw_data infile size delay out lg
           = (lg', Ret d) ->
           chunk_size d = size /\ timer d = delay
           /\ xorb (truthy raw_data) (truthy infile) = true
           /\ 0 < size /\ 0 <= delay).
Proof.
  intros fuel ids raw_data infile size delay out lg.
  unfold FBDumper_init.
  split; [|split; [|split]].
  - intros Hx. rewrite Hx. reflexivity.
  - intros Hx Hraw Hbad. rewrite Hx.
    assert (Hchecks : forall raw,
      (if size <=? 0 then @raise (list request) FBDumper ValueError
       else if delay <? 0 then raise ValueError
       else
         hp <- lift (get_post_data raw) ;;
         cp <- get_all_convers_metadata fuel (fst hp) (snd hp) ;;
         ret {| convers_ids := ids; user_raw_data := raw;
                chunk_size := size; timer := delay;
                output := path_join_empty out;
                headers := fst hp; post_data := snd hp;
                convers := fst cp; participants := snd cp |}) lg
      = (lg, Exc ValueError)).
    { intros raw. destruct (size <=? 0) eqn:Hs; [reflexivity|].
      destruct (delay <? 0) eqn:Hd; [reflexivity|]. lia. }
    destruct Hraw as [Ht | [raw Hread]].
    + rewrite Ht. unfold bind at 1. cbn [ret]. apply Hchecks.
    + destruct (truthy raw_data).
      * unfold bind at 1. cbn [ret]. apply Hchecks.
      * rewrite (bind_lift_ok _ _ _ _ Hread). apply Hchecks.
  - intros e Hx Ht Hread. rewrite Hx, Ht.
    apply (bind_lift_err _ _ _ _ Hread).
  - intros lg' d Hrun.
    destruct (xorb (truthy raw_data) (truthy infile)) eqn:Hx;
      [|discriminate Hrun].
    unfold bind at 1 in Hrun.
    destruct ((if truthy raw_data
               then ret (string_of raw_data)
               else lift (read_file (string_of infile))) lg)
      as [lg0 [raw| e |]]; try discriminate Hrun.
    destruct (size <=? 0) eqn:Hs; [discriminate Hrun|].
    destruct (delay <? 0) eqn:Hd; [discriminate Hrun|].
    unfold bind at 1 in Hrun.
    destruct (lift (get_post_data raw) lg0) as [lg1 [hp| e |]];
      try discriminate Hrun.
    unfold bind at 1 in Hrun.
    destruct (get_all_convers_metadata fuel (fst hp) (snd hp) lg1)
      as [lg2 [cp| e |]]; try discriminate Hrun.
    inversion Hrun; subst. cbn [chunk_size timer].
    repeat split; lia.
Qed.

(** ** The directory crawl *)

Lemma bind_get {S B} (k : S -> M S B) s : bind get k s = k s s.
Proof. reflexivity. Qed.

Lemma has_key_getitem j k :
  has_key j k = true -> getitem j k = Ok (field j k).
Proof.
  unfold has_key, field. destruct (getitem j k); [reflexivity|discriminate].
Qed.

Lemma merge_participant_accepts p st :
  participant_ok p = true ->
  merge_participant p st
  = ({| cs_log := cs_log st; cs_convers := cs_convers st;
        cs_participants :=
          dict_store (field p "fbid") (field p "name") (cs_participants st) |},
     Ret tt).
Proof.
  unfold participant_ok. intros H.
  apply andb_prop in H. destruct H as [H Hh].
  apply andb_prop in H. destruct H as [Hn Hf].
  unfold merge_participant.
  rewrite (bind_lift_ok _ _ _ _ (has_key_getitem _ _ Hn)).
  rewrite (bind_lift_ok _ _ _ _ (has_key_getitem _ _ Hf)).
  rewrite bind_get. unfold dict_setitem. rewrite Hh.
  erewrite bind_lift_ok by reflexivity. reflexivity.
Qed.

Lemma merge_participants_accept parts :
  forall st,
    forallb participant_ok parts = true ->
    for_each parts merge_participant st
    = ({| cs_log := cs_log st; cs_convers := cs_convers st;
          cs_participants := merged (cs_participants st) parts |}, Ret tt).
Proof.
  induction parts as [|p parts IH]; intros st H.
  - destruct st; reflexivity.
  - simpl in H. apply andb_prop in H. destruct H as [Hp Hrest].
    cbn [for_each]. rewrite (bind_ret _ _ _ _ _ (merge_participant_accepts p st Hp)).
    rewrite IH by exact Hrest. reflexivity.
Qed.

Lemma merge_thread_accepts status c cur st :
  thread_ok (cs_participants st) c = true ->
  merge_thread status c cur st
  = ({| cs_log := cs_log st;
        cs_convers :=
          dict_store (field c "thread_fbid")
                     (entry_of status (cs_participants st) c cur)
                     (cs_convers st);
        cs_participants := cs_participants st |},
     Ret (entry_of status (cs_participants st) c cur)).
Proof.
  unfold thread_ok. intros H.
  repeat (apply andb_prop in H; let H' := fresh "H" in destruct H as [H H']).
  unfold merge_thread, entry_of.
  rewrite (bind_lift_ok _ _ _ _ (has_key_getitem _ _ H)).
  destruct (py_eq_int (field c "thread_type") 2).
  - erewrite bind_ret.
    2:{ rewrite (bind_lift_ok _ _ _ _ (has_key_getitem _ _ H4)). reflexivity. }
    rewrite (bind_lift_ok _ _ _ _ (has_key_getitem _ _ H3)).
    rewrite (bind_lift_ok _ _ _ _ (has_key_getitem _ _ H2)).
    rewrite (bind_lift_ok _ _ _ _ (has_key_getitem _ _ H1)).
    rewrite bind_get. unfold dict_setitem. rewrite H0.
    erewrite bind_lift_ok by reflexivity. reflexivity.
  - destruct (py_eq_int (field c "thread_type") 1).
    + apply andb_prop in H4. destruct H4 as [Ho Hd].
      destruct (dict_getitem (cs_participants st) (field c "other_user_fbid"))
        as [n|] eqn:Hn; [|discriminate].
      erewrite bind_ret.
      2:{ rewrite (bind_lift_ok _ _ _ _ (has_key_getitem _ _ Ho)).
          rewrite bind_get. rewrite (bind_lift_ok _ _ _ _ Hn). reflexivity. }
      rewrite (bind_lift_ok _ _ _ _ (has_key_getitem _ _ H3)).
      rewrite (bind_lift_ok _ _ _ _ (has_key_getitem _ _ H2)).
      rewrite (bind_lift_ok _ _ _ _ (has_key_getitem _ _ H1)).
      rewrite bind_get. unfold dict_setitem. rewrite H0.
      erewrite bind_lift_ok by reflexivity. reflexivity.
    + erewrite bind_ret by reflexivity.
      rewrite (bind_lift_ok _ _ _ _ (has_key_getitem _ _ H3)).
      rewrite (bind_lift_ok _ _ _ _ (has_key_getitem _ _ H2)).
      rewrite (bind_lift_ok _ _ _ _ (has_key_getitem _ _ H1)).
      rewrite bind_get. unfold dict_setitem. rewrite H0.
      erewrite bind_lift_ok by reflexivity. reflexivity.
Qed.

Lemma merge_threads_accept status threads :
  forall cur st,
    forallb (thread_ok (cs_participants st)) threads = true ->
    exists cur',
      for_fold threads (merge_thread status) cur st
      = ({| cs_log := cs_log st;
            cs_convers :=
              stored status (cs_participants st) threads cur (cs_convers st);
            cs_participants := cs_participants st |}, Ret cur').
Proof.
  induction threads as [|c threads IH]; intros cur st H.
  - exists cur. destruct st; reflexivity.
  - simpl in H. apply andb_prop in H. destruct H as [Hc Hrest].
    cbn [for_fold].
    rewrite (bind_ret _ _ _ _ _ (merge_thread_accepts status c cur st Hc)).
    destruct (IH (entry_of status (cs_participants st) c cur)
                 {| cs_log := cs_log st;
                    cs_convers :=
                      dict_store (field c "thread_fbid")
                        (entry_of status (cs_participants st) c cur)
                        (cs_convers st);
                    cs_participants := cs_participants st |} Hrest)
      as [cur' Hrun].
    exists cur'. rewrite Hrun. reflexivity.
Qed.

Lemma listing_view_fields r threads parts :
  listing_view r = Some (threads, parts) ->
  contains "error" r = Ok false
  /\ exists payload,
      getitem r "payload" = Ok payload
      /\ getitem payload "threads" = Ok (JArr threads)
      /\ getitem payload "participants" = Ok (JArr parts).
Proof.
  unfold listing_view.
  destruct (contains "error" r) as [[|]|]; try discriminate.
  destruct (getitem r "payload") as [payload|]; try discriminate.
  destruct (getitem payload "threads") as [[| | | |ts|]|] eqn:Ht;
    try discriminate.
  destruct (getitem payload "participants") as [[| | | |ps|]|] eqn:Hp;
    try discriminate.
  intros H; inversion H; subst. split; [reflexivity|].
  exists payload. auto.
Qed.

Lemma is_listing_view r :
  is_listing r = true ->
  listing_view r = Some (threads_of r, participants_of r).
Proof.
  unfold is_listing, threads_of, participants_of.
  destruct (listing_view r) as [[ts ps]|]; [reflexivity|discriminate].
Qed.

(** An accepted page is merged whole. *)
Lemma merge_page_accepts status r st :
  is_listing r = true ->
  forallb participant_ok (participants_of r) = true ->
  forallb (thread_ok (merged (cs_participants st) (participants_of r)))
          (threads_of r) = true ->
  merge_page status r st
  = ({| cs_log := cs_log st;
        cs_convers :=
          stored status (merged (cs_participants st) (participants_of r))
                 (threads_of r) empty_entry (cs_convers st);
        cs_participants := merged (cs_participants st) (participants_of r) |},
     Ret (JArr (threads_of r))).
Proof.
  intros Hl Hp Ht. apply is_listing_view in Hl.
  apply listing_view_fields in Hl.
  destruct Hl as [_ (payload & Hpay & Hts & Hps)].
  unfold merge_page.
  rewrite (bind_lift_ok _ _ _ _ Hpay), (bind_lift_ok _ _ _ _ Hts).
  rewrite (bind_lift_ok _ _ _ _ Hpay), (bind_lift_ok _ _ _ _ Hps).
  erewrite bind_lift_ok by reflexivity.
  rewrite (bind_ret _ _ _ _ _ (merge_participants_accept _ st Hp)).
  erewrite bind_lift_ok by reflexivity.
  destruct (merge_threads_accept status (threads_of r) empty_entry
              {| cs_log := cs_log st; cs_convers := cs_convers st;
                 cs_participants :=
                   merged (cs_participants st) (participants_of r) |} Ht)
    as [cur' Hrun].
  rewrite (bind_ret _ _ _ _ _ Hrun). reflexivity.
Qed.

(** One turn of the [while] loop on an accepted page. *)
Lemma crawl_status_step fuel hdrs pdata status offset st r :
  respond (cs_log st) (listing_request hdrs pdata status offset) = Ok r ->
  is_listing r = true ->
  forallb participant_ok (participants_of r) = true ->
  forallb (thread_ok (merged (cs_participants st) (participants_of r)))
          (threads_of r) = true ->
  let st' :=
    {| cs_log := cs_log st ++ [listing_request hdrs pdata status offset];
       cs_convers :=
         stored status (merged (cs_participants st) (participants_of r))
                (threads_of r) empty_entry (cs_convers st);
       cs_participants := merged (cs_participants st) (participants_of r) |} in
  crawl_status (S fuel) hdrs pdata status offset st
  = if Z.of_nat (List.length (threads_of r)) <? _chunk_size_convers
    then (st', Ret tt)
    else crawl_status fuel hdrs pdata status
           (offset + _chunk_size_convers) st'.
Proof.
  intros Hr Hl Hp Ht st'. cbn [crawl_status].
  pose proof (is_listing_view _ Hl) as Hv.
  apply listing_view_fields in Hv. destruct Hv as [He _].
  erewrite bind_ret.
  2:{ unfold with_log, make_request.
      erewrite bind_ret.
      2:{ unfold post. fold (listing_request hdrs pdata status offset).
          rewrite Hr. reflexivity. }
      rewrite (bind_lift_ok _ _ _ _ He). reflexivity. }
  erewrite bind_ret.
  2:{ apply merge_page_accepts; assumption. }
  erewrite bind_lift_ok by reflexivity.
  destruct (Z.of_nat (List.length (threads_of r)) <? _chunk_size_convers);
    reflexivity.
Qed.

Lemma pages_ok_head P r rest :
  pages_ok P (r :: rest) = true ->
  is_listing r = true
  /\ forallb participant_ok (participants_of r) = true
  /\ forallb (thread_ok (merged P (participants_of r))) (threads_of r) = true
  /\ pages_ok (merged P (participants_of r)) rest = true.
Proof.
  cbn [pages_ok]. intros H.
  repeat (apply andb_prop in H; let H' := fresh "H" in destruct H as [H H']).
  auto.
Qed.

(** The loop goes through a run of full accepted pages. *)
Lemma crawl_status_run hdrs pdata status rs :
  forall fuel offset st,
    serves (List.length (cs_log st)) rs ->
    pages_ok (cs_participants st) rs = true ->
    Forall (fun r => Z.of_nat (List.length (threads_of r))
                     = _chunk_size_convers) rs ->
    crawl_status (List.length rs + fuel) hdrs pdata status offset st
    = crawl_status fuel hdrs pdata status
        (offset + Z.of_nat (List.length rs) * _chunk_size_convers)
        {| cs_log :=
             cs_log st
             ++ map (listing_request hdrs pdata status)
                    (listing_offsets (List.length rs) offset);
           cs_convers :=
             fst (after_pages status rs (cs_convers st) (cs_participants st));
           cs_participants :=
             snd (after_pages status rs (cs_convers st) (cs_participants st)) |}.
Proof.
  induction rs as [|r rs IH]; intros fuel offset st Hsrv Hok Hfull.
  - cbn. rewrite app_nil_r, Z.add_0_r. destruct st; reflexivity.
  - apply serves_head in Hsrv. destruct Hsrv as [Hhead Htail].
    apply pages_ok_head in Hok. destruct Hok as (Hl & Hp & Ht & Hrest).
    inversion Hfull as [|? ? Hlen Hfull']; subst.
    change (List.length (r :: rs) + fuel)%nat
      with (S (List.length rs + fuel)).
    rewrite (crawl_status_step _ hdrs pdata status offset st r
               (Hhead _ _ eq_refl) Hl Hp Ht).
    rewrite Hlen, Z.ltb_irrefl.
    rewrite IH; cbn [cs_log cs_convers cs_participants].
    + cbn [after_pages listing_offsets map List.length].
      rewrite <- app_assoc. cbn [app].
      replace (offset + _chunk_size_convers
               + Z.of_nat (List.length rs) * _chunk_size_convers)
        with (offset + Z.of_nat (S (List.length rs)) * _chunk_size_convers)
        by lia.
      reflexivity.
    + rewrite length_app. cbn [List.length].
      replace (List.length (cs_log st) + 1)%nat
        with (S (List.length (cs_log st))) by lia.
      exact Htail.
    + exact Hrest.
    + exact Hfull'.
Qed.

Lemma after_pages_participants status status' rs :
  forall C C' P,
    snd (after_pages status rs C P) = snd (after_pages status' rs C' P).
Proof.
  induction rs as [|x rs IH]; intros; [reflexivity|].
  cbn [after_pages]. apply IH.
Qed.

Lemma pages_ok_app rs1 : forall P rs2,
  pages_ok P (rs1 ++ rs2) = true ->
  pages_ok P rs1 = true
  /\ pages_ok (snd (after_pages Inbox rs1 [] P)) rs2 = true.
Proof.
  induction rs1 as [|r rs1 IH]; intros P rs2 H.
  - split; [reflexivity | exact H].
  - change ((r :: rs1) ++ rs2) with (r :: rs1 ++ rs2) in H.
    apply pages_ok_head in H. destruct H as (Hl & Hp & Ht & Hrest).
    apply IH in Hrest. destruct Hrest as [H1 H2].
    split.
    + cbn [pages_ok]. rewrite Hl, Hp, Ht, H1. reflexivity.
    + cbn [after_pages].
      erewrite after_pages_participants. exact H2.
Qed.

Lemma after_pages_app status rs1 : forall rs2 C P,
  after_pages status (rs1 ++ rs2) C P
  = after_pages status rs2 (fst (after_pages status rs1 C P))
                (snd (after_pages status rs1 C P)).
Proof.
  induction rs1 as [|r rs1 IH]; intros rs2 C P; [reflexivity|].
  cbn [app after_pages]. apply IH.
Qed.

Lemma listing_offsets_length n : forall offset,
  List.length (listing_offsets n offset) = n.
Proof.
  induction n as [|n IH]; intros offset; [reflexivity|].
  cbn [listing_offsets List.length]. rewrite IH. reflexivity.
Qed.

Lemma listing_offsets_snoc n : forall offset,
  listing_offsets (S n) offset
  = listing_offsets n offset ++ [offset + Z.of_nat n * _chunk_size_convers].
Proof.
  induction n as [|n IH]; intros offset.
  - cbn [listing_offsets app]. do 2 f_equal. lia.
  - change (listing_offsets (S (S n)) offset)
      with (offset :: listing_offsets (S n) (offset + _chunk_size_convers)).
    rewrite IH. cbn [listing_offsets app]. do 3 f_equal. lia.
Qed.

(** The whole loop of one status: full pages, then a shorter one. *)
Lemma crawl_status_complete hdrs pdata status full last_r fuel st :
  serves (List.length (cs_log st)) (full ++ [last_r]) ->
  pages_ok (cs_participants st) (full ++ [last_r]) = true ->
  Forall (fun r => Z.of_nat (List.length (threads_of r))
                   = _chunk_size_convers) full ->
  Z.of_nat (List.length (threads_of last_r)) < _chunk_size_convers ->
  (List.length full < fuel)%nat ->
  crawl_status fuel hdrs pdata status 0 st
  = ({| cs_log :=
          cs_log st
          ++ map (listing_request hdrs pdata status)
                 (listing_offsets (S (List.length full)) 0);
        cs_convers :=
          fst (after_pages status (full ++ [last_r]) (cs_convers st)
                           (cs_participants st));
        cs_participants :=
          snd (after_pages status (full ++ [last_r]) (cs_convers st)
                           (cs_participants st)) |}, Ret tt).
Proof.
  intros Hsrv Hok Hfull Hshort Hfuel.
  apply serves_app in Hsrv. destruct Hsrv as [Hs1 Hs2].
  apply pages_ok_app in Hok. destruct Hok as [Hok1 Hok2].
  replace fuel with (List.length full + S (fuel - S (List.length full)))%nat
    by lia.
  rewrite (crawl_status_run hdrs pdata status full _ 0 st Hs1 Hok1 Hfull).
  apply serves_head in Hs2. destruct Hs2 as [Hhead _].
  rewrite (after_pages_participants Inbox status full [] (cs_convers st))
    in Hok2.
  apply pages_ok_head in Hok2. destruct Hok2 as (Hl & Hp & Ht & _).
  erewrite crawl_status_step; cbn [cs_log cs_convers cs_participants].
  - apply Z.ltb_lt in Hshort. rewrite Hshort.
    rewrite after_pages_app. cbn [after_pages fst snd].
    rewrite listing_offsets_snoc, map_app, <- app_assoc.
    reflexivity.
  - apply Hhead.
    rewrite length_app, length_map, listing_offsets_length. reflexivity.
  - exact Hl.
  - exact Hp.
  - exact Ht.
Qed.

(** *** The keys of the conversation index *)

Lemma dict_store_fresh_key {V} (d : pydict V) k v :
  (forall k', In k' (dict_keys d) -> key_eqb k k' = false) ->
  dict_keys (dict_store k v d) = dict_keys d ++ [k].
Proof.
  induction d as [|[k0 v0] d IH]; intros Hfresh; [reflexivity|].
  cbn [dict_store]. rewrite (Hfresh k0) by (left; reflexivity).
  cbn [dict_keys map fst app]. f_equal.
  apply IH. intros k' Hk'. apply Hfresh. right. exact Hk'.
Qed.

Lemma string_key_fresh id ks :
  ~ In id ks ->
  forall k', In k' (map JStr ks) -> key_eqb (JStr id) k' = false.
Proof.
  intros Hnot k' Hin. apply in_map_iff in Hin.
  destruct Hin as [s [<- Hs]]. cbn [key_eqb].
  apply String.eqb_neq. intros ->. exact (Hnot Hs).
Qed.

Lemma string_keys_nodup l : NoDup l -> NoDup (map JStr l).
Proof.
  induction 1 as [|x l Hx Hl IH]; cbn [map]; constructor; [|exact IH].
  intros Hin. apply in_map_iff in Hin. destruct Hin as [y [Hy Hin]].
  inversion Hy; subst. exact (Hx Hin).
Qed.

Lemma stored_keys status P threads :
  forall cur C ks ids,
    dict_keys C = map JStr ks ->
    thread_ids threads = map JStr ids ->
    NoDup (ks ++ ids) ->
    dict_keys (stored status P threads cur C) = map JStr (ks ++ ids).
Proof.
  induction threads as [|c threads IH]; intros cur C ks ids HC Hids Hnd.
  - destruct ids; [|discriminate]. rewrite app_nil_r. exact HC.
  - destruct ids as [|id ids]; [discriminate|].
    cbn [thread_ids map] in Hids. inversion Hids as [[Hid Hrest]].
    cbn [stored]. rewrite Hid.
    replace (ks ++ id :: ids) with ((ks ++ [id]) ++ ids)
      by (rewrite <- app_assoc; reflexivity).
    apply IH.
    + rewrite dict_store_fresh_key.
      * rewrite HC, map_app. reflexivity.
      * rewrite HC. apply string_key_fresh.
        apply NoDup_remove_2 in Hnd. intros Hin. apply Hnd.
        apply in_or_app. left. exact Hin.
    + exact Hrest.
    + rewrite <- app_assoc. exact Hnd.
Qed.

Lemma after_pages_keys status rs :
  forall C P ks ids,
    dict_keys C = map JStr ks ->
    thread_ids (all_threads rs) = map JStr ids ->
    NoDup (ks ++ ids) ->
    dict_keys (fst (after_pages status rs C P)) = map JStr (ks ++ ids).
Proof.
  induction rs as [|r rs IH]; intros C P ks ids HC Hids Hnd.
  - destruct ids; [|discriminate]. rewrite app_nil_r. exact HC.
  - cbn [all_threads flat_map] in Hids. unfold thread_ids in Hids.
    rewrite map_app in Hids. symmetry in Hids.
    apply map_eq_app in Hids.
    destruct Hids as (ids1 & ids2 & -> & H1 & H2).
    cbn [after_pages]. rewrite app_assoc.
    apply IH.
    + apply stored_keys; [exact HC | symmetry; exact H1 |].
      rewrite app_assoc in Hnd. apply NoDup_app_remove_r in Hnd. exact Hnd.
    + symmetry. exact H2.
    + rewrite <- app_assoc. exact Hnd.
Qed.

Lemma all_threads_length full last_r :
  Forall (fun r => Z.of_nat (List.length (threads_of r))
                   = _chunk_size_convers) full ->
  Z.of_nat (List.length (all_threads (full ++ [last_r])))
  = _chunk_size_convers * Z.of_nat (List.length full)
    + Z.of_nat (List.length (threads_of last_r)).
Proof.
  unfold all_threads. induction 1 as [|r full Hr Hfull IH].
  - cbn [app flat_map List.length]. rewrite app_nil_r. lia.
  - cbn [app flat_map]. rewrite length_app, Nat2Z.inj_add, IH, Hr.
    change (List.length (r :: full)) with (S (List.length full)). lia.
Qed.

(** C2 (as amended).  One status is crawled from a source whose pages
    are accepted, all of 1000 threads but the last, which is shorter, and
    whose [N] threads have identifiers that are strings, different from
    one another and from the keys already in the index.  The loop sends
    one request per page, with the offsets 0, 1000, 2000, ..., and stops
    after the short page: [N / 1000 + 1] requests in all, which is the
    ceiling of [N / 1000] when [N] is not a multiple of 1000 and one more
    when it is.  The index gains exactly [N] entries, under keys that are
    all different. *)
Theorem directory_crawl_stops_at_the_short_page :
  forall hdrs pdata status full last_r fuel st ks ids,
    serves (List.length (cs_log st)) (full ++ [last_r]) ->
    pages_ok (cs_participants st) (full ++ [last_r]) = true ->
    Forall (fun r => Z.of_nat (List.length (threads_of r))
                     = _chunk_size_convers) full ->
    Z.of_nat (List.length (threads_of last_r)) < _chunk_size_convers ->
    dict_keys (cs_convers st) = map JStr ks ->
    thread_ids (all_threads (full ++ [last_r])) = map JStr ids ->
    NoDup (ks ++ ids) ->
    (List.length full < fuel)%nat ->
    let N := Z.of_nat (List.length (all_threads (full ++ [last_r]))) in
    exists st' offsets,
      crawl_status fuel hdrs pdata status 0 st = (st', Ret tt)
      /\ cs_log st'
         = cs_log st ++ map (listing_request hdrs pdata status) offsets
      /\ offsets = listing_offsets (S (List.length full)) 0
      /\ Z.of_nat (List.length offsets) = N / _chunk_size_convers + 1
      /\ (N mod _chunk_size_convers <> 0 ->
          Z.of_nat (List.length offsets)
          = (N + _chunk_size_convers - 1) / _chunk_size_convers)
      /\ (N mod _chunk_size_convers = 0 ->
          Z.of_nat (List.length offsets)
          = (N + _chunk_size_convers - 1) / _chunk_size_convers + 1)
      /\ dict_keys (cs_convers st') = map JStr (ks ++ ids)
      /\ NoDup (dict_keys (cs_convers st'))
      /\ Z.of_nat (List.length (cs_convers st'))
         = Z.of_nat (List.length (cs_convers st)) + N.
Proof.
  intros hdrs pdata status full last_r fuel st ks ids
         Hsrv Hok Hfull Hshort HC Hids Hnd Hfuel N.
  pose proof (all_threads_length full last_r Hfull) as HN. fold N in HN.
  pose proof (after_pages_keys status (full ++ [last_r]) (cs_convers st)
                (cs_participants st) ks ids HC Hids Hnd) as Hkeys.
  eexists. exists (listing_offsets (S (List.length full)) 0).
  split;
    [apply (crawl_status_complete hdrs pdata status full last_r); assumption|].
  cbn [cs_log cs_convers].
  split; [reflexivity|]. split; [reflexivity|].
  rewrite listing_offsets_length.
  assert (Hlast : 0 <= Z.of_nat (List.length (threads_of last_r))) by lia.
  unfold _chunk_size_convers in HN, Hshort |- *.
  split; [|split; [|split; [|split; [|split]]]].
  - clear - HN Hshort Hlast. Z.div_mod_to_equations. lia.
  - intros Hmod. clear - HN Hshort Hlast Hmod. Z.div_mod_to_equations. lia.
  - intros Hmod. clear - HN Hshort Hlast Hmod. Z.div_mod_to_equations. lia.
  - exact Hkeys.
  - rewrite Hkeys. apply string_keys_nodup. exact Hnd.
  - assert (Hlen : List.length
                     (fst (after_pages status (full ++ [last_r])
                             (cs_convers st) (cs_participants st)))
                   = List.length (ks ++ ids)).
    { rewrite <- (length_map JStr (ks ++ ids)), <- Hkeys.
      unfold dict_keys. rewrite length_map. reflexivity. }
    rewrite Hlen, length_app.
    assert (Hks : List.length (cs_convers st) = List.length ks).
    { rewrite <- (length_map JStr ks), <- HC. unfold dict_keys.
      rewrite length_map. reflexivity. }
    assert (Hi : List.length ids
                 = List.length (all_threads (full ++ [last_r]))).
    { rewrite <- (length_map JStr ids), <- Hids. unfold thread_ids.
      rewrite length_map. reflexivity. }
    rewrite Hks, Hi. subst N. lia.
Qed.

(** *** Malformed pages *)

(** A computation without a loop of its own never runs out of fuel. *)
Definition halts {S A} (m : M S A) : Prop :=
  forall s, snd (m s) <> OutOfFuel.

Lemma halts_ret {S A} (a : A) : halts (@ret S A a).
Proof. intros s. discriminate. Qed.

Lemma halts_raise {S A} e : halts (@raise S A e).
Proof. intros s. discriminate. Qed.

Lemma halts_lift {S A} (r : result A) : halts (@lift S A r).
Proof. intros s. destruct r; discriminate. Qed.

Lemma halts_get {S} : halts (@get S).
Proof. intros s. discriminate. Qed.

Lemma halts_modify {S} (f : S -> S) : halts (modify f).
Proof. intros s. discriminate. Qed.

Lemma halts_bind {S A B} (m : M S A) (k : A -> M S B) :
  halts m -> (forall a, halts (k a)) -> halts (bind m k).
Proof.
  intros Hm Hk s. unfold bind. specialize (Hm s).
  destruct (m s) as [s' [a| e |]]; simpl in Hm |- *;
    [apply Hk | discriminate | congruence].
Qed.

Ltac halts_steps :=
  repeat first
    [ apply halts_ret | apply halts_raise | apply halts_lift
    | apply halts_get | apply halts_modify
    | apply halts_bind; [|intros ?]
    | match goal with
      | |- halts (if ?b then _ else _) => destruct b
      end ].

Lemma halts_merge_participant p : halts (merge_participant p).
Proof. unfold merge_participant, set_participants. halts_steps. Qed.

Lemma halts_merge_thread status c cur : halts (merge_thread status c cur).
Proof. unfold merge_thread, set_convers. halts_steps. Qed.

(** A loop raises when one of its turns always raises and the others
    always end. *)
Lemma for_each_raises {S A} (body : A -> M S unit) l :
  (forall x, halts (body x)) ->
  (exists x, In x l /\ forall s, exists s' e, body x s = (s', Exc e)) ->
  forall s, exists s' e, for_each l body s = (s', Exc e).
Proof.
  intros Hh. induction l as [|y l IH]; intros [x [Hin Hx]] s.
  - destruct Hin.
  - cbn [for_each]. unfold bind.
    destruct (body y s) as [s1 [[]| e |]] eqn:Hy.
    + destruct Hin as [->|Hin].
      * destruct (Hx s) as (s' & e & Hs). congruence.
      * apply IH. exists x. auto.
    + eauto.
    + exfalso. apply (Hh y s). rewrite Hy. reflexivity.
Qed.

Lemma for_fold_raises {S A L} (body : A -> L -> M S L) l :
  (forall x acc, halts (body x acc)) ->
  (exists x, In x l /\ forall acc s, exists s' e, body x acc s = (s', Exc e)) ->
  forall acc s, exists s' e, for_fold l body acc s = (s', Exc e).
Proof.
  intros Hh. induction l as [|y l IH]; intros [x [Hin Hx]] acc s.
  - destruct Hin.
  - cbn [for_fold]. unfold bind.
    destruct (body y acc s) as [s1 [acc'| e |]] eqn:Hy.
    + destruct Hin as [->|Hin].
      * destruct (Hx acc s) as (s' & e & Hs). congruence.
      * apply IH. exists x. auto.
    + eauto.
    + exfalso. apply (Hh y acc s). rewrite Hy. reflexivity.
Qed.

Ltac run_or_raise :=
  unfold bind, lift, ret, raise, get;
  repeat match goal with
         | |- context [getitem ?j ?k] =>
             let E := fresh "E" in destruct (getitem j k) eqn:E
         end.

Lemma participant_lacking_raises p :
  participant_lacks_field p = true ->
  forall st, exists st' e, merge_participant p st = (st', Exc e).
Proof.
  intros Hlack st. unfold participant_lacks_field, has_key in Hlack.
  destruct p; try discriminate.
  unfold merge_participant. run_or_raise; eauto.
  discriminate Hlack.
Qed.

Lemma thread_lacking_raises status c :
  thread_lacks_field c = true ->
  forall cur st, exists st' e, merge_thread status c cur st = (st', Exc e).
Proof.
  intros Hlack cur st.
  unfold thread_lacks_field, has_key, field in Hlack.
  destruct c; try discriminate.
  unfold merge_thread.
  unfold bind at 1. unfold lift at 1.
  destruct (getitem (JObj fields) "thread_type") as [tt|] eqn:Ett;
    [|cbn; eauto].
  cbn [ret]. unfold bind at 1.
  destruct (py_eq_int tt 2) eqn:E2.
  - run_or_raise; eauto; simpl in Hlack; discriminate Hlack.
  - destruct (py_eq_int tt 1) eqn:E1.
    + unfold bind at 1. unfold lift at 1.
      destruct (getitem (JObj fields) "other_user_fbid") as [o|] eqn:Eo;
        [|cbn; eauto].
      cbn [ret]. rewrite bind_get. unfold bind at 1.
      destruct (lift (dict_getitem (cs_participants st) o) st)
        as [s1 [n| e |]] eqn:Ed; [| eauto |].
      * unfold lift in Ed. destruct (dict_getitem _ o); inversion Ed; subst.
        run_or_raise; eauto; simpl in Hlack; discriminate Hlack.
      * unfold lift in Ed. destruct (dict_getitem _ o); inversion Ed.
    + run_or_raise; eauto; simpl in Hlack; discriminate Hlack.
Qed.

(** [m] leaves the component [f] of the state as it is, whatever its
    outcome. *)
Definition preserves {A X} (f : crawl_state -> X) (m : M crawl_state A)
  : Prop :=
  forall s s' o, m s = (s', o) -> f s' = f s.

Lemma preserves_ret {A X} (f : crawl_state -> X) (a : A) :
  preserves f (ret a).
Proof. intros s s' o H. inversion H. reflexivity. Qed.

Lemma preserves_lift {A X} (f : crawl_state -> X) (r : result A) :
  preserves f (lift r).
Proof. intros s s' o H. destruct r; inversion H; reflexivity. Qed.

Lemma preserves_get {X} (f : crawl_state -> X) : preserves f get.
Proof. intros s s' o H. inversion H. reflexivity. Qed.

Lemma preserves_bind {A B X} (f : crawl_state -> X)
      (m : M crawl_state A) (k : A -> M crawl_state B) :
  preserves f m -> (forall a, preserves f (k a)) -> preserves f (bind m k).
Proof.
  intros Hm Hk s s' o H. unfold bind in H.
  destruct (m s) as [s1 [a| e |]] eqn:Hs.
  - rewrite (Hk a _ _ _ H). exact (Hm _ _ _ Hs).
  - inversion H; subst. exact (Hm _ _ _ Hs).
  - inversion H; subst. exact (Hm _ _ _ Hs).
Qed.

Lemma preserves_for_each {A X} (f : crawl_state -> X) (l : list A) body :
  (forall x, preserves f (body x)) -> preserves f (for_each l body).
Proof.
  intros Hb. induction l as [|x l IH]; cbn [for_each].
  - apply preserves_ret.
  - apply preserves_bind; [apply Hb | intros _; exact IH].
Qed.

Lemma preserves_for_fold {A L X} (f : crawl_state -> X) (l : list A)
      (body : A -> L -> M crawl_state L) :
  (forall x acc, preserves f (body x acc)) ->
  forall acc, preserves f (for_fold l body acc).
Proof.
  intros Hb. induction l as [|x l IH]; intros acc; cbn [for_fold].
  - apply preserves_ret.
  - apply preserves_bind; [apply Hb | intros acc'; apply IH].
Qed.

Lemma set_participants_keeps_log p : preserves cs_log (set_participants p).
Proof. intros s s' o H. inversion H. reflexivity. Qed.

Lemma set_convers_keeps_log c : preserves cs_log (set_convers c).
Proof. intros s s' o H. inversion H. reflexivity. Qed.

Lemma set_convers_keeps_participants c :
  preserves cs_participants (set_convers c).
Proof. intros s s' o H. inversion H. reflexivity. Qed.

Ltac preserves_steps :=
  repeat first
    [ apply preserves_ret | apply preserves_lift | apply preserves_get
    | apply set_participants_keeps_log | apply set_convers_keeps_log
    | apply set_convers_keeps_participants
    | apply preserves_bind; [|intros ?]
    | match goal with
      | |- preserves _ (if ?b then _ else _) => destruct b
      end ].

(** The loop over the threads leaves the participant directory alone. *)
Lemma merge_thread_keeps_participants status c cur :
  preserves cs_participants (merge_thread status c cur).
Proof. unfold merge_thread. preserves_steps. Qed.

(** The processing of a page sends no request. *)
Lemma keeps_log_merge_page status r : preserves cs_log (merge_page status r).
Proof.
  unfold merge_page.
  do 5 (apply preserves_bind; [apply preserves_lift | intros ?]).
  apply preserves_bind.
  { apply preserves_for_each. intros p.
    unfold merge_participant. preserves_steps. }
  intros _. apply preserves_bind; [apply preserves_lift | intros ?].
  apply preserves_bind; [|intros ?; apply preserves_ret].
  apply preserves_for_fold. intros c acc.
  unfold merge_thread. preserves_steps.
Qed.

(** C6 (as amended).  A listing page in which a participant or a thread
    lacks a field that the crawl reads makes the processing of the page
    raise; the loop of the status then ends with that exception right
    after the request that fetched the page, and
    [get_all_convers_metadata] ends with the exception of whichever of
    its two loops raised, so that no index and no directory are returned
    at all. *)
Theorem malformed_page_aborts_the_crawl :
  forall status r,
    is_listing r = true ->
    page_malformed r = true ->
    (forall st, exists st' e, merge_page status r st = (st', Exc e))
    /\ (forall st,
           forallb participant_ok (participants_of r) = true ->
           exists st' e,
             merge_page status r st = (st', Exc e)
             /\ cs_participants st'
                = merged (cs_participants st) (participants_of r))
    /\ (forall fuel hdrs pdata offset st,
           respond (cs_log st) (listing_request hdrs pdata status offset)
           = Ok r ->
           exists st' e,
             crawl_status (S fuel) hdrs pdata status offset st = (st', Exc e)
             /\ cs_log st'
                = cs_log st ++ [listing_request hdrs pdata status offset])
    /\ (forall fuel hdrs pdata lg,
           (forall st e,
               crawl_status fuel hdrs pdata Inbox 0
                 {| cs_log := lg; cs_convers := []; cs_participants := [] |}
               = (st, Exc e) ->
               get_all_convers_metadata fuel hdrs pdata lg
               = (cs_log st, Exc e))
           /\ (forall st1 st2 e,
                  crawl_status fuel hdrs pdata Inbox 0
                    {| cs_log := lg; cs_convers := []; cs_participants := [] |}
                  = (st1, Ret tt) ->
                  crawl_status fuel hdrs pdata Archived 0 st1 = (st2, Exc e) ->
                  get_all_convers_metadata fuel hdrs pdata lg
                  = (cs_log st2, Exc e))).
Proof.
  intros status r Hl Hbad.
  assert (Hpage : forall st, exists st' e,
               merge_page status r st = (st', Exc e)).
  { intros st. pose proof (is_listing_view _ Hl) as Hv.
    apply listing_view_fields in Hv.
    destruct Hv as [_ (payload & Hpay & Hts & Hps)].
    unfold merge_page.
    rewrite (bind_lift_ok _ _ _ _ Hpay), (bind_lift_ok _ _ _ _ Hts).
    rewrite (bind_lift_ok _ _ _ _ Hpay), (bind_lift_ok _ _ _ _ Hps).
    erewrite bind_lift_ok by reflexivity.
    unfold page_malformed in Hbad. apply orb_prop in Hbad.
    unfold bind at 1.
    destruct (for_each (participants_of r) merge_participant st)
      as [s1 [[]| e |]] eqn:Hparts.
    - destruct Hbad as [Hbad|Hbad].
      + apply existsb_exists in Hbad. destruct Hbad as [p [Hin Hp]].
        destruct (for_each_raises merge_participant (participants_of r)
                    halts_merge_participant
                    (ex_intro _ p (conj Hin (participant_lacking_raises p Hp)))
                    st) as (s' & e & Hs).
        congruence.
      + apply existsb_exists in Hbad. destruct Hbad as [c [Hin Hc]].
        erewrite bind_lift_ok by reflexivity.
        destruct (for_fold_raises (merge_thread status) (threads_of r)
                    (halts_merge_thread status)
                    (ex_intro _ c (conj Hin (thread_lacking_raises status c Hc)))
                    empty_entry s1) as (s' & e & Hs).
        exists s', e. apply bind_exc. exact Hs.
    - eauto.
    - exfalso.
      assert (Hh : halts (for_each (participants_of r) merge_participant)).
      { clear. induction (participants_of r) as [|p l IH]; cbn [for_each].
        - apply halts_ret.
        - apply halts_bind; [apply halts_merge_participant|intros _; exact IH]. }
      apply (Hh st). rewrite Hparts. reflexivity. }
  split; [exact Hpage|]. split; [|split].
  - intros st Hparts. destruct (Hpage st) as (st' & e & Hrun).
    exists st', e. split; [exact Hrun|].
    pose proof (is_listing_view _ Hl) as Hv.
    apply listing_view_fields in Hv.
    destruct Hv as [_ (payload & Hpay & Hts & Hps)].
    unfold merge_page in Hrun.
    rewrite (bind_lift_ok _ _ _ _ Hpay), (bind_lift_ok _ _ _ _ Hts) in Hrun.
    rewrite (bind_lift_ok _ _ _ _ Hpay), (bind_lift_ok _ _ _ _ Hps) in Hrun.
    erewrite bind_lift_ok in Hrun by reflexivity.
    rewrite (bind_ret _ _ _ _ _ (merge_participants_accept _ st Hparts))
      in Hrun.
    erewrite bind_lift_ok in Hrun by reflexivity.
    assert (Hkeep : preserves cs_participants
              (for_fold (threads_of r) (merge_thread status) empty_entry ;;
               ret (JArr (threads_of r)))).
    { apply preserves_bind; [|intros ?; apply preserves_ret].
      apply preserves_for_fold. intros c acc.
      apply merge_thread_keeps_participants. }
    rewrite (Hkeep _ _ _ Hrun). reflexivity.
  - intros fuel hdrs pdata offset st Hr.
    cbn [crawl_status].
    pose proof (is_listing_view _ Hl) as Hv.
    apply listing_view_fields in Hv. destruct Hv as [He _].
    destruct (Hpage {| cs_log := cs_log st
                                 ++ [listing_request hdrs pdata status offset];
                       cs_convers := cs_convers st;
                       cs_participants := cs_participants st |})
      as (st' & e & Hrun).
    exists st', e. split.
    + erewrite bind_ret.
      2:{ unfold with_log, make_request.
          erewrite bind_ret.
          2:{ unfold post. fold (listing_request hdrs pdata status offset).
              rewrite Hr. reflexivity. }
          rewrite (bind_lift_ok _ _ _ _ He). reflexivity. }
      apply bind_exc. exact Hrun.
    + rewrite (keeps_log_merge_page status r _ _ _ Hrun). reflexivity.
  - intros fuel hdrs pdata lg. split.
    + intros st e Hin. unfold get_all_convers_metadata.
      rewrite (bind_exc _ _ _ _ _ Hin). reflexivity.
    + intros st1 st2 e Hin Har. unfold get_all_convers_metadata.
      rewrite (bind_ret _ _ _ _ _ Hin), Har. reflexivity.
Qed.

(** ** The parser: the message line *)

Lemma attachment_names_accepts atts :
  forallb attachment_named atts = true ->
  attachment_names atts = Ok (names_of atts).
Proof.
  induction atts as [|a atts IH]; intros H; [reflexivity|].
  cbn [forallb] in H. apply andb_prop in H. destruct H as [Ha Hrest].
  unfold attachment_named in Ha. apply andb_prop in Ha.
  destruct Ha as [Hty Hname].
  cbn [attachment_names]. rewrite (has_key_getitem _ _ Hty).
  unfold names_of. cbn [filter].
  destruct (py_eq_str (field a "attach_type") "error") eqn:He; cbn [negb].
  - apply IH. exact Hrest.
  - cbn [orb] in Hname. rewrite (has_key_getitem _ _ Hname).
    rewrite (IH Hrest). reflexivity.
Qed.

Lemma check_and_get_msg_accepts self msg atts author body t date :
  getitem msg "attachments" = Ok (JArr atts) ->
  forallb attachment_named atts = true ->
  getitem msg "author" = Ok (JStr author) ->
  getitem msg "body" = Ok body ->
  getitem msg "timestamp" = Ok t ->
  format_date t = Ok date ->
  check_and_get_msg msg self
  = (set_cnt_msgs (cnt_msgs self + 1)
       (set_msgs
          (msgs self
           +++ message_fmt (py_repr body)
                 (drop_last (String.concat "" (names_of atts)))
                 (username_of self (string_drop 5 author))
                 (string_drop 5 author) date)
          self),
     Ret tt).
Proof.
  intros Hatts Hnamed Hauthor Hbody Ht Hdate.
  unfold check_and_get_msg.
  rewrite (bind_lift_ok _ _ _ _ Hatts).
  erewrite bind_lift_ok by reflexivity.
  rewrite (bind_lift_ok _ _ _ _ (attachment_names_accepts _ Hnamed)).
  rewrite (bind_lift_ok _ _ _ _ Hauthor).
  erewrite bind_lift_ok by reflexivity.
  rewrite bind_get.
  erewrite bind_lift_ok by reflexivity.
  unfold username_of.
  destruct (dict_find (JStr (string_drop 5 author)) (parser_participants self))
    as [u|] eqn:Hu.
  - erewrite bind_ret.
    2:{ erewrite bind_lift_ok; [reflexivity|].
        unfold dict_getitem. cbn [hashable]. rewrite Hu. reflexivity. }
    rewrite (bind_lift_ok _ _ _ _ Hbody), (bind_lift_ok _ _ _ _ Ht).
    rewrite (bind_lift_ok _ _ _ _ Hdate). reflexivity.
  - erewrite bind_ret by reflexivity.
    rewrite (bind_lift_ok _ _ _ _ Hbody), (bind_lift_ok _ _ _ _ Ht).
    rewrite (bind_lift_ok _ _ _ _ Hdate). reflexivity.
Qed.

(** C10.  A user-generated message that has its attachments, each with
    its kind and name, a string as author, a body and a timestamp that
    can be formatted, always gets its line in the messages stream and is
    counted once: the check returns, [msgs] is what it was followed by
    the line, [cnt_msgs] is one more, and every other attribute of the
    parser is what it was.  The name in the line is the one the
    participant directory gives for the author identifier without its
    first 5 characters, and the empty string when the directory has no
    such key: the lookup is made only after the membership test. *)
Theorem message_line_needs_no_known_author :
  forall self msg atts author body t date,
    getitem msg "attachments" = Ok (JArr atts) ->
    forallb attachment_named atts = true ->
    getitem msg "author" = Ok (JStr author) ->
    getitem msg "body" = Ok body ->
    getitem msg "timestamp" = Ok t ->
    format_date t = Ok date ->
    let fbid := string_drop 5 author in
    let line username :=
      message_fmt (py_repr body)
                  (drop_last (String.concat "" (names_of atts)))
                  username fbid date in
    exists self',
      check_and_get_msg msg self = (self', Ret tt)
      /\ msgs self' = msgs self +++ line (username_of self fbid)
      /\ (dict_find (JStr fbid) (parser_participants self) = None ->
          msgs self' = msgs self +++ line "")
      /\ cnt_msgs self' = cnt_msgs self + 1
      /\ (mode self', data self', output_convers self',
          parser_participants self')
         = (mode self, data self, output_convers self,
            parser_participants self)
      /\ (pics self', gifs self', videos self', files self', links self')
         = (pics self, gifs self, videos self, files self, links self)
      /\ (cnt_pics self', cnt_gifs self', cnt_videos self', cnt_files self',
          cnt_links self')
         = (cnt_pics self, cnt_gifs self, cnt_videos self, cnt_files self,
            cnt_links self)
      /\ futures self' = futures self.
Proof.
  intros self msg atts author body t date Hatts Hnamed Hauthor Hbody Ht Hdate
         fbid line.
  eexists. split.
  - exact (check_and_get_msg_accepts self msg atts author body t date
             Hatts Hnamed Hauthor Hbody Ht Hdate).
  - cbn [msgs cnt_msgs mode data output_convers parser_participants pics gifs
         videos files links cnt_pics cnt_gifs cnt_videos cnt_files cnt_links
         futures set_msgs set_cnt_msgs].
    split; [reflexivity|]. split.
    + intros Habsent. unfold username_of. fold fbid. rewrite Habsent.
      reflexivity.
    + repeat split.
Qed.

(** ** The parser: pictures, gifs, videos and files *)

Lemma append_assoc a b c : (a +++ b) +++ c = a +++ (b +++ c).
Proof. induction a as [|x a IH]; simpl; [reflexivity | rewrite IH; reflexivity]. Qed.

Lemma append_nil_r a : a +++ "" = a.
Proof. induction a as [|x a IH]; simpl; [reflexivity | rewrite IH; reflexivity]. Qed.

(** One attachment in the loop of a media check. *)
Lemma check_media_attachment kind url_key folder add_line incr a rest s :
  media_ok kind url_key (mode s) a = true ->
  for_each (a :: rest) (media_step kind url_key folder add_line incr) s
  = for_each rest (media_step kind url_key folder add_line incr)
      (if eligible kind url_key a then
         let s1 := add_line (url_line url_key a) s in
         incr (if FBParserMode.eqb (mode s) FBParserMode.DL then
                 set_futures (futures s1 ++ [download_of url_key folder s a])
                             s1
               else s1)
       else s).
Proof.
  unfold media_ok, eligible. intros Hok.
  apply andb_prop in Hok. destruct Hok as [Hty Hok].
  cbn [for_each]. unfold media_step at 1.
  unfold bind at 1. unfold bind at 1.
  rewrite (has_key_getitem _ _ Hty). cbn [lift ret].
  destruct (py_eq_str (field a "attach_type") kind); [|reflexivity].
  apply andb_prop in Hok. destruct Hok as [Hurl Hok].
  unfold bind at 1. rewrite (has_key_getitem _ _ Hurl). cbn [lift ret].
  destruct (field a url_key) as [| | |u| |] eqn:Hu; cbn in Hok;
    try discriminate Hok; [reflexivity|].
  cbn [is_none negb andb]. rewrite bind_get.
  unfold url_line, download_of. rewrite Hu. cbn [text].
  destruct (mode s); cbn [FBParserMode.eqb orb].
  - reflexivity.
  - cbn in Hok. apply andb_prop in Hok. destruct Hok as [Hname Hstr].
    unfold bind at 1. unfold bind at 1. unfold bind at 1.
    cbn [lift add_str ret modify].
    unfold bind at 1. unfold bind at 1.
    rewrite (has_key_getitem _ _ Hname). cbn [lift ret].
    destruct (field a "name") as [| | |n| |]; try discriminate Hstr.
    reflexivity.
Qed.

Lemma media_check_unfold d :
  is_media d = true ->
  media_check d
  = check_media (media_kind d) (media_url_key d) d (media_add_line d)
                (media_incr d).
Proof. destruct d; try discriminate; reflexivity. Qed.

Lemma media_result_start d self : media_result d self "" 0 [] = self.
Proof.
  destruct self, d; unfold media_result; cbn;
    rewrite ?append_nil_r, ?app_nil_r, ?Z.add_0_r; reflexivity.
Qed.

Lemma media_result_mode d self lines n reqs :
  mode (media_result d self lines n reqs) = mode self.
Proof. destruct d; reflexivity. Qed.

Lemma media_result_output d self lines n reqs :
  output_convers (media_result d self lines n reqs) = output_convers self.
Proof. destruct d; reflexivity. Qed.

Lemma media_result_step d self lines n reqs line :
  is_media d = true ->
  media_incr d (media_add_line d line (media_result d self lines n reqs))
  = media_result d self (lines +++ line) (n + 1) reqs.
Proof.
  intros Hd. destruct d; try discriminate Hd;
    unfold media_result, media_incr, media_add_line; cbn;
    rewrite append_assoc, Z.add_assoc; reflexivity.
Qed.

Lemma media_result_step_dl d self lines n reqs line r :
  is_media d = true ->
  media_incr d
    (set_futures
       (futures (media_add_line d line (media_result d self lines n reqs))
          ++ [r])
       (media_add_line d line (media_result d self lines n reqs)))
  = media_result d self (lines +++ line) (n + 1) (reqs ++ [r]).
Proof.
  intros Hd. destruct d; try discriminate Hd;
    unfold media_result, media_incr, media_add_line; cbn;
    rewrite append_assoc, Z.add_assoc, <- app_assoc; reflexivity.
Qed.

Lemma download_of_result url_key d self lines n reqs a :
  download_of url_key d (media_result d self lines n reqs) a
  = download_of url_key d self a.
Proof. unfold download_of. rewrite media_result_output. reflexivity. Qed.

(** The loop of a media check, from any state it can be in. *)
Lemma check_media_loop d self atts :
  is_media d = true ->
  forallb (media_ok (media_kind d) (media_url_key d) (mode self)) atts = true ->
  forall lines n reqs,
    check_media (media_kind d) (media_url_key d) d (media_add_line d)
                (media_incr d) (JObj [("attachments", JArr atts)])
                (media_result d self lines n reqs)
    = (media_result d self
         (lines +++ lines_of (map (url_line (media_url_key d))
                                  (filter (eligible (media_kind d)
                                                    (media_url_key d)) atts)))
         (n + Z.of_nat (List.length
                          (filter (eligible (media_kind d) (media_url_key d))
                                  atts)))
         (reqs ++ if FBParserMode.eqb (mode self) FBParserMode.DL then
                    map (download_of (media_url_key d) d self)
                        (filter (eligible (media_kind d) (media_url_key d))
                                atts)
                  else []),
       Ret tt).
Proof.
  intros Hd Hok lines n reqs. unfold check_media.
  erewrite bind_lift_ok by reflexivity.
  erewrite bind_lift_ok by reflexivity.
  revert Hok lines n reqs.
  induction atts as [|a atts IH]; intros Hok lines n reqs.
  - cbn. rewrite append_nil_r, Z.add_0_r.
    destruct (FBParserMode.eqb (mode self) FBParserMode.DL);
      rewrite app_nil_r; reflexivity.
  - cbn [forallb] in Hok. apply andb_prop in Hok. destruct Hok as [Ha Hrest].
    rewrite check_media_attachment
      by (rewrite media_result_mode; exact Ha).
    specialize (IH Hrest).
    cbn [filter]. rewrite media_result_mode, download_of_result.
    destruct (eligible (media_kind d) (media_url_key d) a).
    + cbv zeta.
      destruct (FBParserMode.eqb (mode self) FBParserMode.DL) eqn:Hm.
      * rewrite (media_result_step_dl d self lines n reqs _ _ Hd).
        rewrite IH. cbn [map lines_of fold_right List.length].
        rewrite append_assoc, <- app_assoc. cbn [app].
        do 2 f_equal. lia.
      * rewrite (media_result_step d self lines n reqs _ Hd).
        rewrite IH. cbn [map lines_of fold_right List.length].
        rewrite append_assoc. do 2 f_equal. lia.
    + apply IH.
Qed.

(** A media check on a message it accepts, in terms of the assignments
    it makes. *)
Lemma media_check_runs d self msg atts :
  is_media d = true ->
  getitem msg "attachments" = Ok (JArr atts) ->
  forallb (media_ok (media_kind d) (media_url_key d) (mode self)) atts
  = true ->
  media_check d msg self
  = (media_result d self
       (lines_of (map (url_line (media_url_key d))
                      (filter (eligible (media_kind d) (media_url_key d))
                              atts)))
       (Z.of_nat (List.length
                    (filter (eligible (media_kind d) (media_url_key d))
                            atts)))
       (if FBParserMode.eqb (mode self) FBParserMode.DL then
          map (download_of (media_url_key d) d self)
              (filter (eligible (media_kind d) (media_url_key d)) atts)
        else []),
     Ret tt).
Proof.
  intros Hd Hatts Hok.
  rewrite (media_check_unfold d Hd).
  pose proof (check_media_loop d self atts Hd Hok "" 0 []) as Hloop.
  rewrite media_result_start in Hloop. cbn [app] in Hloop.
  rewrite Z.add_0_l in Hloop.
  change ("" +++ ?x) with x in Hloop.
  unfold check_media in Hloop |- *.
  rewrite (bind_lift_ok _ _ _ _ Hatts).
  erewrite bind_lift_ok in Hloop by reflexivity.
  exact Hloop.
Qed.

(** The attributes of the parser after [media_result]. *)
Lemma media_result_attributes d self lines n reqs :
  is_media d = true ->
  let self' := media_result d self lines n reqs in
  report_of d self' = report_of d self +++ lines
  /\ count_of d self' = count_of d self + n
  /\ futures self' = futures self ++ reqs
  /\ (forall d', d' <> d ->
                 report_of d' self' = report_of d' self
                 /\ count_of d' self' = count_of d' self)
  /\ (mode self', data self', output_convers self',
      parser_participants self')
     = (mode self, data self, output_convers self,
        parser_participants self).
Proof.
  intros Hd.
  destruct d; try discriminate Hd; cbn;
    (split; [reflexivity|]); (split; [reflexivity|]);
    (split; [reflexivity|]); (split; [|reflexivity]);
    intros d' Hd'; destruct d'; cbn;
    solve [split; reflexivity | exfalso; apply Hd'; reflexivity].
Qed.

(** C4.  For each of the four media categories and every message whose
    attachments the check accepts, the attachments that count are those
    whose kind is the one of the category and whose retrieval URL is not
    null.  The check returns, and in the parser it leaves the report of
    the category is what it was followed by one line with the URL of each
    of them, in order, its counter is their number more, and [futures]
    is what it was followed, in download mode only, by one download
    request for each of them, to the folder of the category under the
    name of the attachment.  The other attachments, those with a null
    URL among them, add nothing: the reports and the counters of the
    other kinds of data and the settings of the parser are what they
    were. *)
Theorem media_check_keeps_attachments_with_a_url :
  forall d self msg atts,
    is_media d = true ->
    getitem msg "attachments" = Ok (JArr atts) ->
    forallb (media_ok (media_kind d) (media_url_key d) (mode self)) atts
    = true ->
    let chosen := filter (eligible (media_kind d) (media_url_key d)) atts in
    (exists self',
        media_check d msg self = (self', Ret tt)
        /\ report_of d self'
           = report_of d self
             +++ lines_of (map (url_line (media_url_key d)) chosen)
        /\ count_of d self'
           = count_of d self + Z.of_nat (List.length chosen)
        /\ futures self'
           = futures self
             ++ (if FBParserMode.eqb (mode self) FBParserMode.DL then
                   map (download_of (media_url_key d) d self) chosen
                 else [])
        /\ (forall d', d' <> d ->
                       report_of d' self' = report_of d' self
                       /\ count_of d' self' = count_of d' self)
        /\ (mode self', data self', output_convers self',
            parser_participants self')
           = (mode self, data self, output_convers self,
              parser_participants self))
    /\ (forall a, In a chosen <->
                  In a atts
                  /\ py_eq_str (field a "attach_type") (media_kind d) = true
                  /\ is_none (field a (media_url_key d)) = false).
Proof.
  intros d self msg atts Hd Hatts Hok chosen. split.
  - eexists. split; [exact (media_check_runs d self msg atts Hd Hatts Hok)|].
    fold chosen. apply (media_result_attributes d self _ _ _ Hd).
  - intros a. unfold chosen. rewrite filter_In. unfold eligible.
    rewrite andb_true_iff, negb_true_iff.
    split; [intros [H1 [H2 H3]] | intros [H1 [H2 H3]]]; auto.
Qed.

(** ** The parser: links *)

Lemma links_result_start self : links_result self "" 0 = self.
Proof.
  destruct self. unfold links_result. cbn.
  rewrite append_nil_r, Z.add_0_r. reflexivity.
Qed.

Lemma links_result_step self lines n line :
  set_cnt_links
    (cnt_links (set_links (links (links_result self lines n) +++ line)
                          (links_result self lines n)) + 1)
    (set_links (links (links_result self lines n) +++ line)
               (links_result self lines n))
  = links_result self (lines +++ line) (n + 1).
Proof.
  unfold links_result. cbn. rewrite append_assoc, Z.add_assoc. reflexivity.
Qed.

Lemma share_step_accepts a self lines n :
  share_ok a = true ->
  share_step a (links_result self lines n)
  = (if is_share a then links_result self (lines +++ share_line a) (n + 1)
     else links_result self lines n, Ret tt).
Proof.
  unfold share_ok, is_share, share_line, share_uri. intros Hok.
  apply andb_prop in Hok. destruct Hok as [Hty Hok].
  unfold share_step.
  rewrite (bind_lift_ok _ _ _ _ (has_key_getitem _ _ Hty)).
  destruct (py_eq_str (field a "attach_type") "share"); [|reflexivity].
  apply andb_prop in Hok. destruct Hok as [Hok Huri].
  apply andb_prop in Hok. destruct Hok as [Hshare Hkey].
  rewrite (bind_lift_ok _ _ _ _ (has_key_getitem _ _ Hshare)).
  rewrite (bind_lift_ok _ _ _ _ (has_key_getitem _ _ Hkey)).
  destruct (field (field a "share") "uri") as [| | |u| |];
    cbn in Huri; try discriminate Huri; [reflexivity|].
  cbn [is_none negb andb text].
  erewrite bind_lift_ok by reflexivity.
  destruct (re_search_redirect u) as [inner|].
  - unfold bind, add_link, incr_cnt_links, modify.
    rewrite links_result_step. reflexivity.
  - unfold bind, add_link, incr_cnt_links, modify, lift, add_str, ret.
    rewrite links_result_step. reflexivity.
Qed.

Lemma share_loop self atts :
  forallb share_ok atts = true ->
  forall lines n,
    for_each atts share_step (links_result self lines n)
    = (links_result self
         (lines +++ lines_of (map share_line (filter is_share atts)))
         (n + Z.of_nat (List.length (filter is_share atts))),
       Ret tt).
Proof.
  induction atts as [|a atts IH]; intros Hok lines n.
  - cbn. rewrite append_nil_r, Z.add_0_r. reflexivity.
  - cbn [forallb] in Hok. apply andb_prop in Hok. destruct Hok as [Ha Hrest].
    cbn [for_each filter].
    rewrite (bind_ret _ _ _ _ _ (share_step_accepts a self lines n Ha)).
    destruct (is_share a).
    + rewrite (IH Hrest). cbn [map lines_of fold_right List.length].
      rewrite append_assoc. do 2 f_equal. lia.
    + apply (IH Hrest).
Qed.

Lemma range_step_accepts r self lines n :
  range_ok r = true ->
  range_step r (links_result self lines n)
  = (links_result self (lines +++ range_line r) (n + 1), Ret tt).
Proof.
  unfold range_ok, range_line, range_url. intros Hok.
  apply andb_prop in Hok. destruct Hok as [Hok Hstr].
  apply andb_prop in Hok. destruct Hok as [Hent Hurl].
  unfold range_step.
  rewrite (bind_lift_ok _ _ _ _ (has_key_getitem _ _ Hent)).
  rewrite (bind_lift_ok _ _ _ _ (has_key_getitem _ _ Hurl)).
  destruct (field (field r "entity") "url") as [| | |u| |];
    try discriminate Hstr.
  unfold bind, add_link, incr_cnt_links, modify, lift, add_str, ret.
  cbn [text]. rewrite links_result_step. reflexivity.
Qed.

Lemma range_loop self rs :
  forallb range_ok rs = true ->
  forall lines n,
    for_each rs range_step (links_result self lines n)
    = (links_result self (lines +++ lines_of (map range_line rs))
                    (n + Z.of_nat (List.length rs)), Ret tt).
Proof.
  induction rs as [|r rs IH]; intros Hok lines n.
  - cbn. rewrite append_nil_r, Z.add_0_r. reflexivity.
  - cbn [forallb] in Hok. apply andb_prop in Hok. destruct Hok as [Hr Hrest].
    cbn [for_each].
    rewrite (bind_ret _ _ _ _ _ (range_step_accepts r self lines n Hr)).
    rewrite (IH Hrest). cbn [map lines_of fold_right List.length].
    rewrite append_assoc. do 2 f_equal. lia.
Qed.

(** The links check on a message it accepts, in terms of the
    assignments it makes. *)
Lemma check_and_get_links_runs self msg atts rs :
  getitem msg "attachments" = Ok (JArr atts) ->
  forallb share_ok atts = true ->
  ranges_view msg = Some rs ->
  forallb range_ok rs = true ->
  check_and_get_links msg self
  = (links_result self
       (lines_of (map share_line (filter is_share atts))
        +++ lines_of (map range_line rs))
       (Z.of_nat (List.length (filter is_share atts) + List.length rs)),
     Ret 0).
Proof.
  intros Hatts Hshares Hranges Hrs.
  unfold check_and_get_links.
  rewrite (bind_lift_ok _ _ _ _ Hatts).
  erewrite bind_lift_ok by reflexivity.
  pose proof (share_loop self atts Hshares "" 0) as Hloop.
  rewrite links_result_start in Hloop.
  rewrite (bind_ret _ _ _ _ _ Hloop).
  change ("" +++ ?x) with x. rewrite Z.add_0_l.
  destruct msg as [| | | | |kv]; try discriminate Hatts.
  unfold ranges_view, has_key, field in Hranges.
  cbn [contains getitem] in Hranges |- *.
  destruct (assoc "ranges" kv) as [ranges|].
  - destruct ranges as [| | | |items|]; try discriminate Hranges.
    inversion Hranges; subst items.
    erewrite bind_lift_ok by reflexivity.
    erewrite bind_ret.
    2:{ erewrite bind_lift_ok by reflexivity.
        erewrite bind_lift_ok by reflexivity.
        apply (range_loop self rs Hrs). }
    rewrite Nat2Z.inj_add. reflexivity.
  - inversion Hranges; subst rs.
    erewrite bind_lift_ok by reflexivity.
    erewrite bind_ret by reflexivity.
    cbn [map lines_of fold_right List.length].
    rewrite append_nil_r, Nat.add_0_r. reflexivity.
Qed.

(** C5.  For a message whose attachments and inline ranges the links
    check accepts, every share attachment with a nested URI that is not
    null adds one line to the links stream: the percent-decoded inner
    target when the URI matches the redirect pattern, the URI itself when
    it does not.  Every inline range then adds its own URL.  The check
    returns, and in the parser it leaves [links] is what it was followed
    by the lines of the shares, in the order of the attachments, then
    those of the ranges, in their order; [cnt_links] is their number
    more, and every other attribute is what it was.  The wrapped form of
    [https://example.com/x] gives exactly that string, whenever the
    decoding of ASCII bytes leaves it as it is. *)
Theorem links_check_unwraps_shares_then_adds_ranges :
  forall self msg atts rs,
    getitem msg "attachments" = Ok (JArr atts) ->
    forallb share_ok atts = true ->
    ranges_view msg = Some rs ->
    forallb range_ok rs = true ->
    let shares := filter is_share atts in
    (exists self',
        check_and_get_links msg self = (self', Ret 0)
        /\ links self'
           = links self
             +++ (lines_of (map share_line shares)
                  +++ lines_of (map range_line rs))
        /\ cnt_links self'
           = cnt_links self + Z.of_nat (List.length shares + List.length rs)
        /\ (mode self', data self', output_convers self',
            parser_participants self')
           = (mode self, data self, output_convers self,
              parser_participants self)
        /\ (msgs self', pics self', gifs self', videos self', files self')
           = (msgs self, pics self, gifs self, videos self, files self)
        /\ (cnt_msgs self', cnt_pics self', cnt_gifs self',
            cnt_videos self', cnt_files self')
           = (cnt_msgs self, cnt_pics self, cnt_gifs self, cnt_videos self,
              cnt_files self)
        /\ futures self' = futures self)
    /\ (forall a inner,
           re_search_redirect (text (share_uri a)) = Some inner ->
           share_line a = unquote inner +++ nl)
    /\ (forall a,
           re_search_redirect (text (share_uri a)) = None ->
           share_line a = text (share_uri a) +++ nl)
    /\ (utf8_decode "https://example.com/x" = "https://example.com/x" ->
        share_line (share_attachment (JStr wrapped_example))
        = "https://example.com/x" +++ nl).
Proof.
  intros self msg atts rs Hatts Hshares Hranges Hrs shares.
  split; [|split; [|split]].
  - eexists. split.
    + exact (check_and_get_links_runs self msg atts rs Hatts Hshares Hranges
               Hrs).
    + fold shares. unfold links_result.
      cbn [msgs pics gifs videos files links cnt_msgs cnt_pics cnt_gifs
           cnt_videos cnt_files cnt_links mode data output_convers
           parser_participants futures set_links set_cnt_links].
      repeat split.
  - intros a inner H. unfold share_line. rewrite H. reflexivity.
  - intros a H. unfold share_line. rewrite H. reflexivity.
  - intros Hdecode. unfold share_line.
    replace (re_search_redirect
               (text (share_uri (share_attachment (JStr wrapped_example)))))
      with (Some "https%3A%2F%2Fexample.com%2Fx") by (vm_compute; reflexivity).
    unfold unquote.
    replace (is_substring "%" "https%3A%2F%2Fexample.com%2Fx") with true
      by (vm_compute; reflexivity).
    cbn [unquote_runs is_ascii negb append].
    unfold decode_run.
    replace (unquote_to_bytes "https%3A%2F%2Fexample.com%2Fx")
      with "https://example.com/x" by (vm_compute; reflexivity).
    rewrite Hdecode. reflexivity.
Qed.

(** ** The parser: waiting for the downloads *)

Lemma collect_outcome_reported verbose c out cnt :
  collect_outcome true verbose (JStr (fst c), snd c)
                  {| stdout := out; loading_cnt := cnt |}
  = ({| stdout := out ++ report_line verbose c; loading_cnt := cnt - 1 |},
     Ret tt).
Proof.
  destruct c as [url [|e reason]]; unfold collect_outcome, report_line;
    cbn [fst snd andb].
  - destruct verbose; cbn; rewrite ?app_nil_r; reflexivity.
  - cbn. reflexivity.
Qed.

Lemma collect_outcome_silent verbose c out cnt :
  collect_outcome false verbose (JStr (fst c), snd c)
                  {| stdout := out; loading_cnt := cnt |}
  = ({| stdout := out; loading_cnt := cnt - 1 |},
     match snd c with
     | Saved => Ret tt
     | Failed e _ => Exc e
     end).
Proof. destruct c as [url [|e reason]]; reflexivity. Qed.

Lemma report_loop verbose completed :
  forall out cnt,
    for_each (outcomes completed) (collect_outcome true verbose)
             {| stdout := out; loading_cnt := cnt |}
    = ({| stdout := out ++ flat_map (report_line verbose) completed;
          loading_cnt := cnt - Z.of_nat (List.length completed) |}, Ret tt).
Proof.
  induction completed as [|c completed IH]; intros out cnt.
  - cbn. rewrite app_nil_r, Z.sub_0_r. reflexivity.
  - cbn [outcomes map for_each].
    rewrite (bind_ret _ _ _ _ _ (collect_outcome_reported verbose c out cnt)).
    fold (outcomes completed). rewrite IH.
    cbn [flat_map]. rewrite <- app_assoc.
    change (List.length (c :: completed)) with (S (List.length completed)).
    replace (cnt - 1 - Z.of_nat (List.length completed))
      with (cnt - Z.of_nat (S (List.length completed))) by lia.
    reflexivity.
Qed.

Lemma silent_loop_saved verbose completed :
  forallb (fun c => is_saved (snd c)) completed = true ->
  forall out cnt,
    for_each (outcomes completed) (collect_outcome false verbose)
             {| stdout := out; loading_cnt := cnt |}
    = ({| stdout := out;
          loading_cnt := cnt - Z.of_nat (List.length completed) |}, Ret tt).
Proof.
  induction completed as [|c completed IH]; intros Hall out cnt.
  - cbn. rewrite Z.sub_0_r. reflexivity.
  - cbn [forallb] in Hall. apply andb_prop in Hall. destruct Hall as [Hc Hrest].
    cbn [outcomes map for_each].
    pose proof (collect_outcome_silent verbose c out cnt) as Hstep.
    destruct (snd c); [|discriminate Hc].
    rewrite (bind_ret _ _ _ _ _ Hstep).
    fold (outcomes completed). rewrite (IH Hrest).
    change (List.length (c :: completed)) with (S (List.length completed)).
    replace (cnt - 1 - Z.of_nat (List.length completed))
      with (cnt - Z.of_nat (S (List.length completed))) by lia.
    reflexivity.
Qed.

(** C8.  In download mode, with the traces asked for, every outcome of
    the batch is collected: the loop ends normally, a line with the URL
    and the text of the exception is printed for each failed request, and
    the counter of the loading thread has gone down by one per outcome.
    Without the traces, the exception of the first failed request in the
    order of completion is raised again: the counter has gone down by one
    for each outcome up to that one, nothing is printed and the later
    outcomes are not collected; when no request failed the loop ends
    normally. *)
Theorem download_failures_are_reported_or_raised :
  forall self verbose completed st,
    mode self = FBParserMode.DL ->
    let pending := Z.of_nat (List.length (futures self)) in
    wait_threads self true verbose (outcomes completed) st
    = ({| stdout := stdout st ++ waiting_line
                    :: flat_map (report_line verbose) completed;
          loading_cnt := pending - Z.of_nat (List.length completed) |},
       Ret tt)
    /\ (forall url e reason,
           In (url, Failed e reason) completed ->
           In (failure_line url reason)
              (flat_map (report_line verbose) completed))
    /\ (forall before url e reason after,
           completed = before ++ (url, Failed e reason) :: after ->
           forallb (fun c => is_saved (snd c)) before = true ->
           wait_threads self false verbose (outcomes completed) st
           = ({| stdout := stdout st;
                 loading_cnt := pending - Z.of_nat (List.length before) - 1 |},
              Exc e))
    /\ (forallb (fun c => is_saved (snd c)) completed = true ->
        wait_threads self false verbose (outcomes completed) st
        = ({| stdout := stdout st;
              loading_cnt := pending - Z.of_nat (List.length completed) |},
           Ret tt)).
Proof.
  intros self verbose completed st Hmode pending.
  unfold wait_threads. rewrite Hmode. cbn [FBParserMode.eqb].
  split; [|split; [|split]].
  - erewrite bind_ret by reflexivity.
    erewrite bind_ret by reflexivity.
    cbn [stdout loading_cnt]. rewrite report_loop.
    rewrite <- app_assoc. reflexivity.
  - intros url e reason Hin. apply in_flat_map.
    exists (url, Failed e reason). split; [exact Hin|].
    left. reflexivity.
  - intros before url e reason after -> Hbefore.
    erewrite bind_ret by reflexivity.
    erewrite bind_ret by reflexivity.
    cbn [stdout loading_cnt].
    unfold outcomes. rewrite map_app, for_each_app.
    fold (outcomes before).
    rewrite (bind_ret _ _ _ _ _ (silent_loop_saved verbose before Hbefore _ _)).
    cbn [map for_each].
    apply bind_exc.
    apply (collect_outcome_silent verbose (url, Failed e reason)).
  - intros Hall.
    erewrite bind_ret by reflexivity.
    erewrite bind_ret by reflexivity.
    cbn [stdout loading_cnt].
    apply silent_loop_saved. exact Hall.
Qed.

(** ** More on the dumper: requests *)

(** X1.  [make_request] sends exactly one request, whatever comes back.
    It never returns a document that carries an error report: what it
    returns is the response itself, without the key [error]; a response
    with that key raises [FBResponseError] with its summary, or [KeyError]
    when the summary is missing; an exception of the transport is raised as
    it is. *)
Theorem make_request_filters_error_reports :
  forall hdrs url form_data lg,
    let rq := {| req_url := url; req_headers := hdrs; req_data := form_data |} in
    fst (make_request hdrs url form_data lg) = lg ++ [rq]
    /\ (forall j,
           snd (make_request hdrs url form_data lg) = Ret j ->
           respond lg rq = Ok j /\ contains "error" j = Ok false)
    /\ (forall kv summary,
           respond lg rq = Ok (JObj kv) ->
           assoc "error" kv <> None ->
           assoc "errorSummary" kv = Some summary ->
           snd (make_request hdrs url form_data lg)
           = Exc (FBResponseError summary))
    /\ (forall kv,
           respond lg rq = Ok (JObj kv) ->
           assoc "error" kv <> None ->
           assoc "errorSummary" kv = None ->
           snd (make_request hdrs url form_data lg)
           = Exc (KeyError (JStr "errorSummary")))
    /\ (forall e,
           respond lg rq = Err e ->
           snd (make_request hdrs url form_data lg) = Exc e).
Proof.
  intros hdrs url form_data lg rq.
  unfold make_request, bind, post. fold rq.
  split; [|split; [|split; [|split]]].
  - destruct (respond lg rq) as [j|e]; [|reflexivity].
    unfold lift. destruct (contains "error" j) as [[|]|]; cbn; try reflexivity.
    destruct (getitem j "errorSummary"); reflexivity.
  - intros j. destruct (respond lg rq) as [j0|e]; [|discriminate].
    unfold lift. destruct (contains "error" j0) as [[|]|] eqn:Hc; cbn.
    + destruct (getitem j0 "errorSummary"); discriminate.
    + intros H. inversion H; subst. split; [reflexivity | exact Hc].
    + discriminate.
  - intros kv summary Hr Herr Hsum. rewrite Hr. cbn.
    destruct (assoc "error" kv); [|contradiction]. cbn.
    rewrite Hsum. reflexivity.
  - intros kv Hr Herr Hsum. rewrite Hr. cbn.
    destruct (assoc "error" kv); [|contradiction]. cbn.
    rewrite Hsum. reflexivity.
  - intros e Hr. rewrite Hr. reflexivity.
Qed.

(** *** Dictionaries with string keys *)

Lemma assoc_form_store k v d k' :
  assoc k' (form_store k v d) = if String.eqb k' k then Some v else assoc k' d.
Proof.
  induction d as [|[k0 v0] d IH]; cbn [form_store assoc].
  - rewrite String.eqb_sym. destruct (String.eqb k k'); reflexivity.
  - destruct (String.eqb k k0) eqn:Hk; cbn [assoc].
    + apply String.eqb_eq in Hk. subst k0.
      destruct (String.eqb k' k); reflexivity.
    + rewrite IH. destruct (String.eqb k' k0) eqn:Hk0; [|reflexivity].
      apply String.eqb_eq in Hk0. subst k0.
      rewrite String.eqb_sym, Hk. reflexivity.
Qed.

Lemma assoc_not_in {V} k (l : list (string * V)) :
  ~ In k (map fst l) -> assoc k l = None.
Proof.
  induction l as [|[k0 v0] l IH]; intros H; [reflexivity|].
  cbn [assoc]. destruct (String.eqb k k0) eqn:Hk.
  - apply String.eqb_eq in Hk. subst. exfalso. apply H. left. reflexivity.
  - apply IH. intros Hin. apply H. right. exact Hin.
Qed.

(** After [d.update(other)] a key of [other] has the value of [other], any
    other key the value it had in [d]. *)
Lemma assoc_form_update other :
  forall d k,
    NoDup (map fst other) ->
    assoc k (form_update d other)
    = match assoc k other with
      | Some v => Some v
      | None => assoc k d
      end.
Proof.
  unfold form_update.
  induction other as [|[k1 v1] other IH]; intros d k Hnd; [reflexivity|].
  cbn [map fst] in Hnd. inversion Hnd as [|? ? Hnot Hnd']; subst.
  cbn [fold_left fst snd assoc]. rewrite (IH _ _ Hnd').
  rewrite assoc_form_store.
  destruct (String.eqb k k1) eqn:Hk.
  - apply String.eqb_eq in Hk. subst k1.
    rewrite (assoc_not_in _ _ Hnot). reflexivity.
  - reflexivity.
Qed.

Lemma append_injective p a b : p +++ a = p +++ b -> a = b.
Proof.
  induction p as [|c p IH]; intros H; [exact H|].
  cbn in H. inversion H. auto.
Qed.

(** X2.  The form data that [build_data] builds for a string identifier
    carries every credential of [post_data] with its value, and, under the
    keys that the credentials do not use, the offset, the chunk size as
    limit, the timestamp and the client name.  An identifier that is not a
    string is a [TypeError]. *)
Theorem build_data_forwards_the_credentials :
  forall self cid ty offset timestamp,
    NoDup (map fst (post_data self)) ->
    let prefix := ("messages[" +++ _DICT_FB_TYPES ty +++ "][") +++ cid in
    exists f,
      build_data self (JStr cid) ty offset timestamp = Ok f
      /\ (forall k v, assoc k (post_data self) = Some v -> assoc k f = Some v)
      /\ (assoc (prefix +++ "][offset]") (post_data self) = None ->
          assoc (prefix +++ "][offset]") f = Some (JStr (str_of_Z offset)))
      /\ (assoc (prefix +++ "][limit]") (post_data self) = None ->
          assoc (prefix +++ "][limit]") f
          = Some (JStr (str_of_Z (chunk_size self))))
      /\ (assoc (prefix +++ "][timestamp]") (post_data self) = None ->
          assoc (prefix +++ "][timestamp]") f = Some timestamp)
      /\ (assoc "client" (post_data self) = None ->
          assoc "client" f = Some (JStr "web_messenger"))
      /\ forall c, is_str c = false ->
                   build_data self c ty offset timestamp = Err TypeError.
Proof.
  intros self cid ty offset timestamp Hnd prefix.
  exists (message_form self cid ty offset timestamp).
  split; [reflexivity|].
  assert (Hlit : NoDup (map fst
            [ (prefix +++ "][offset]", JStr (str_of_Z offset));
              (prefix +++ "][limit]", JStr (str_of_Z (chunk_size self)));
              (prefix +++ "][timestamp]", timestamp);
              ("client", JStr "web_messenger") ])).
  { assert (Hne : forall a b, a <> b -> prefix +++ a <> prefix +++ b).
    { intros a b Hab H. apply Hab. eapply append_injective. exact H. }
    assert (Hclient : forall a, prefix +++ a <> "client").
    { intros a. unfold prefix. cbn. discriminate. }
    cbn [map fst]. repeat constructor; cbn [In]; intros H;
      repeat match goal with
             | H : _ \/ _ |- _ => destruct H as [H|H]
             | H : False |- _ => destruct H
             end;
      try (apply Hne in H; [exact H | discriminate]);
      try (apply (Hclient _ H));
      try (symmetry in H; apply (Hclient _ H)). }
  assert (Hfield : forall k,
            assoc k (message_form self cid ty offset timestamp)
            = match assoc k (post_data self) with
              | Some v => Some v
              | None =>
                  assoc k
                    [ (prefix +++ "][offset]", JStr (str_of_Z offset));
                      (prefix +++ "][limit]",
                        JStr (str_of_Z (chunk_size self)));
                      (prefix +++ "][timestamp]", timestamp);
                      ("client", JStr "web_messenger") ]
              end).
  { intros k. unfold message_form. fold prefix.
    rewrite (assoc_form_update _ _ _ Hnd).
    destruct (assoc k (post_data self)); [reflexivity|].
    unfold form_literal. rewrite (assoc_form_update _ _ _ Hlit).
    match goal with |- match ?x with _ => _ end = _ => destruct x end;
      reflexivity. }
  assert (Hneq : forall a b, a <> b -> String.eqb (prefix +++ a) (prefix +++ b) = false).
  { intros a b Hab. apply String.eqb_neq. intros H. apply Hab.
    eapply append_injective. exact H. }
  assert (Hcl : forall a, String.eqb "client" (prefix +++ a) = false).
  { intros a. unfold prefix. reflexivity. }
  split; [|split; [|split; [|split; [|split]]]].
  - intros k v Hk. rewrite Hfield, Hk. reflexivity.
  - intros Hk. rewrite Hfield, Hk. cbn [assoc].
    rewrite String.eqb_refl. reflexivity.
  - intros Hk. rewrite Hfield, Hk. cbn [assoc].
    rewrite (Hneq "][limit]" "][offset]") by discriminate.
    rewrite String.eqb_refl. reflexivity.
  - intros Hk. rewrite Hfield, Hk. cbn [assoc].
    rewrite (Hneq "][timestamp]" "][offset]") by discriminate.
    rewrite (Hneq "][timestamp]" "][limit]") by discriminate.
    rewrite String.eqb_refl. reflexivity.
  - intros Hk. rewrite Hfield, Hk. cbn [assoc].
    rewrite !Hcl. reflexivity.
  - intros c Hc. unfold build_data, str_add.
    destruct c; try reflexivity. discriminate Hc.
Qed.

(** *** What a computation does to its state, whatever its outcome *)

(** Every run of [m] takes a state to one that is [R]-related to it. *)
Definition respects {S A} (R : S -> S -> Prop) (m : M S A) : Prop :=
  forall s s' o, m s = (s', o) -> R s s'.

Definition reflexive_on {S} (R : S -> S -> Prop) : Prop := forall s, R s s.

Definition transitive_on {S} (R : S -> S -> Prop) : Prop :=
  forall a b c, R a b -> R b c -> R a c.

Lemma respects_ret {S A} (R : S -> S -> Prop) (a : A) :
  reflexive_on R -> respects R (ret a).
Proof. intros Hr s s' o H. inversion H; subst. apply Hr. Qed.

Lemma respects_raise {S A} (R : S -> S -> Prop) e :
  reflexive_on R -> respects R (@raise S A e).
Proof. intros Hr s s' o H. inversion H; subst. apply Hr. Qed.

Lemma respects_out_of_fuel {S A} (R : S -> S -> Prop) :
  reflexive_on R -> respects R (@out_of_fuel S A).
Proof. intros Hr s s' o H. inversion H; subst. apply Hr. Qed.

Lemma respects_lift {S A} (R : S -> S -> Prop) (r : result A) :
  reflexive_on R -> respects R (lift r).
Proof. intros Hr s s' o H. destruct r; inversion H; subst; apply Hr. Qed.

Lemma respects_get {S} (R : S -> S -> Prop) :
  reflexive_on R -> respects R get.
Proof. intros Hr s s' o H. inversion H; subst. apply Hr. Qed.

Lemma respects_modify {S} (R : S -> S -> Prop) (f : S -> S) :
  (forall s, R s (f s)) -> respects R (modify f).
Proof. intros Hf s s' o H. inversion H; subst. apply Hf. Qed.

Lemma respects_bind {S A B} (R : S -> S -> Prop) (m : M S A) (k : A -> M S B) :
  transitive_on R ->
  respects R m -> (forall a, respects R (k a)) -> respects R (bind m k).
Proof.
  intros Ht Hm Hk s s' o H. unfold bind in H.
  destruct (m s) as [s1 [a| e |]] eqn:Hs.
  - eapply Ht; [exact (Hm _ _ _ Hs) | exact (Hk a _ _ _ H)].
  - inversion H; subst. exact (Hm _ _ _ Hs).
  - inversion H; subst. exact (Hm _ _ _ Hs).
Qed.

Lemma respects_for_each {S A} (R : S -> S -> Prop) (l : list A) body :
  reflexive_on R -> transitive_on R ->
  (forall x, In x l -> respects R (body x)) -> respects R (for_each l body).
Proof.
  intros Hr Ht. induction l as [|x l IH]; intros Hb; cbn [for_each].
  - apply respects_ret, Hr.
  - apply respects_bind; [exact Ht | apply Hb; left; reflexivity |].
    intros _. apply IH. intros y Hy. apply Hb. right. exact Hy.
Qed.

Lemma bind_returns {S A B} (m : M S A) (k : A -> M S B) s s' b :
  bind m k s = (s', Ret b) ->
  exists s1 a, m s = (s1, Ret a) /\ k a s1 = (s', Ret b).
Proof.
  unfold bind. destruct (m s) as [s1 [a| e |]]; intros H;
    [eauto | discriminate | discriminate].
Qed.

Ltac respects_steps Hr Ht :=
  repeat first
    [ apply respects_ret; exact Hr
    | apply respects_raise; exact Hr
    | apply respects_out_of_fuel; exact Hr
    | apply respects_lift; exact Hr
    | apply respects_get; exact Hr
    | apply respects_bind; [exact Ht | | intros ?]
    | match goal with
      | |- respects _ (if ?b then _ else _) => destruct b
      | |- respects _ (match ?x with _ => _ end) => destruct x
      end ].

(** *** Where the requests go *)

(** The log has grown by requests that all go to [url] with the headers
    [hdrs]. *)
Definition sent_to (url : string) (hdrs : headers_t) (lg lg' : list request)
  : Prop :=
  exists reqs,
    lg' = lg ++ reqs
    /\ Forall (fun rq => req_url rq = url /\ req_headers rq = hdrs) reqs.

Lemma sent_to_refl url hdrs : reflexive_on (sent_to url hdrs).
Proof. intros lg. exists []. rewrite app_nil_r. split; constructor. Qed.

Lemma sent_to_trans url hdrs : transitive_on (sent_to url hdrs).
Proof.
  intros a b c [r1 [-> H1]] [r2 [-> H2]]. exists (r1 ++ r2).
  rewrite app_assoc. split; [reflexivity | apply Forall_app; auto].
Qed.

Lemma make_request_sent hdrs url form_data :
  respects (sent_to url hdrs) (make_request hdrs url form_data).
Proof.
  intros lg lg' o H.
  exists [{| req_url := url; req_headers := hdrs; req_data := form_data |}].
  split; [|repeat constructor].
  unfold make_request, bind, post in H.
  destruct (respond lg _) as [j|e]; [|inversion H; reflexivity].
  unfold lift in H. destruct (contains "error" j) as [[|]|]; cbn in H.
  - destruct (getitem j "errorSummary"); inversion H; reflexivity.
  - inversion H; reflexivity.
  - inversion H; reflexivity.
Qed.

Definition listing_sent (hdrs : headers_t) (st st' : crawl_state) : Prop :=
  sent_to _url_convers_list hdrs (cs_log st) (cs_log st').

Lemma listing_sent_refl hdrs : reflexive_on (listing_sent hdrs).
Proof. intros st. apply sent_to_refl. Qed.

Lemma listing_sent_trans hdrs : transitive_on (listing_sent hdrs).
Proof. intros a b c. apply sent_to_trans. Qed.

Lemma crawl_status_sent fuel hdrs pdata status :
  forall offset, respects (listing_sent hdrs)
                          (crawl_status fuel hdrs pdata status offset).
Proof.
  pose proof (listing_sent_refl hdrs) as Hr.
  pose proof (listing_sent_trans hdrs) as Ht.
  induction fuel as [|fuel IH]; intros offset; cbn [crawl_status].
  - apply respects_out_of_fuel, Hr.
  - apply respects_bind; [exact Ht | |intros json_data].
    + intros st st' o H. unfold with_log in H.
      destruct (make_request hdrs _url_convers_list _ (cs_log st))
        as [lg r] eqn:Hm.
      inversion H; subst. unfold listing_sent. cbn [cs_log].
      exact (make_request_sent _ _ _ _ _ _ Hm).
    + apply respects_bind; [exact Ht | |intros json_threads].
      * intros st st' o H. unfold listing_sent.
        rewrite (keeps_log_merge_page status json_data _ _ _ H).
        apply sent_to_refl.
      * apply respects_bind; [exact Ht | apply respects_lift, Hr | intros n].
        destruct (n <? _chunk_size_convers);
          [apply respects_ret, Hr | apply IH].
Qed.

(** A loop of the directory crawl that ends has sent a request. *)
Lemma crawl_status_returns_after_a_request fuel hdrs pdata status :
  forall offset st st',
    crawl_status fuel hdrs pdata status offset st = (st', Ret tt) ->
    (List.length (cs_log st) < List.length (cs_log st'))%nat.
Proof.
  induction fuel as [|fuel IH]; intros offset st st' H; cbn [crawl_status] in H.
  - discriminate H.
  - apply bind_returns in H. destruct H as (s1 & json_data & Hreq & H).
    apply bind_returns in H. destruct H as (s2 & json_threads & Hpage & H).
    apply bind_returns in H. destruct H as (s3 & n & Hlen & H).
    assert (H1 : cs_log s1
                 = cs_log st ++ [listing_request hdrs pdata status offset]).
    { unfold with_log in Hreq.
      destruct (make_request hdrs _url_convers_list _ (cs_log st))
        as [lg r] eqn:Hm.
      inversion Hreq; subst. cbn [cs_log].
      destruct (make_request_sent _ _ _ _ _ _ Hm) as [reqs [Hlg _]].
      unfold make_request, bind, post in Hm.
      destruct (respond (cs_log st) _) as [j|e]; [|inversion Hm; reflexivity].
      unfold lift in Hm. destruct (contains "error" j) as [[|]|]; cbn in Hm.
      - destruct (getitem j "errorSummary"); inversion Hm; reflexivity.
      - inversion Hm; reflexivity.
      - inversion Hm; reflexivity. }
    pose proof (keeps_log_merge_page status json_data _ _ _ Hpage) as H2.
    assert (H3 : s3 = s2).
    { destruct (py_len json_threads); inversion Hlen; reflexivity. }
    subst s3.
    assert (Hgrow : (List.length (cs_log st) < List.length (cs_log s2))%nat).
    { rewrite H2, H1, length_app. cbn. lia. }
    destruct (n <? _chunk_size_convers).
    + inversion H; subst. exact Hgrow.
    + apply IH in H. lia.
Qed.

(** X3.  Whatever the service answers, [get_all_convers_metadata] sends
    its requests to the listing address only, each with the headers of the
    session; when it returns the two dictionaries it has sent at least two
    requests, one per status at least. *)
Theorem directory_crawl_only_asks_for_listings :
  forall fuel hdrs pdata lg,
    exists reqs,
      fst (get_all_convers_metadata fuel hdrs pdata lg) = lg ++ reqs
      /\ Forall (fun rq => req_url rq = _url_convers_list
                           /\ req_headers rq = hdrs) reqs
      /\ (forall cp,
             snd (get_all_convers_metadata fuel hdrs pdata lg) = Ret cp ->
             (2 <= List.length reqs)%nat).
Proof.
  intros fuel hdrs pdata lg. unfold get_all_convers_metadata.
  set (st0 := {| cs_log := lg; cs_convers := []; cs_participants := [] |}).
  assert (Hboth : respects (listing_sent hdrs)
            (crawl_status fuel hdrs pdata Inbox 0 ;;
             crawl_status fuel hdrs pdata Archived 0)).
  { apply respects_bind; [apply listing_sent_trans | |intros _];
      apply crawl_status_sent. }
  destruct ((crawl_status fuel hdrs pdata Inbox 0 ;;
             crawl_status fuel hdrs pdata Archived 0) st0)
    as [st [[]| e |]] eqn:Hrun;
    destruct (Hboth _ _ _ Hrun) as [reqs [Hlog Hall]];
    exists reqs; cbn [fst snd]; (split; [exact Hlog|]); (split; [exact Hall|]);
    intros cp Hcp; try discriminate Hcp.
  apply bind_returns in Hrun. destruct Hrun as (s1 & [] & Hin & Har).
  apply crawl_status_returns_after_a_request in Hin.
  apply crawl_status_returns_after_a_request in Har.
  rewrite Hlog, length_app in Har.
  unfold st0 in Hin, Har. cbn [cs_log] in Hin, Har. lia.
Qed.

Definition history_sent (self : FBDumper) (w w' : world) : Prop :=
  sent_to _url_convers (headers self) (w_log w) (w_log w').

Lemma history_sent_refl self : reflexive_on (history_sent self).
Proof. intros w. apply sent_to_refl. Qed.

Lemma history_sent_trans self : transitive_on (history_sent self).
Proof. intros a b c. apply sent_to_trans. Qed.

Lemma with_world_log_sent self form_data :
  respects (history_sent self)
    (with_world_log (make_request (headers self) _url_convers form_data)).
Proof.
  intros w w' o H. unfold with_world_log in H.
  destruct (make_request (headers self) _url_convers form_data (w_log w))
    as [lg r] eqn:Hm.
  inversion H; subst. unfold history_sent. cbn [w_log].
  exact (make_request_sent _ _ _ _ _ _ Hm).
Qed.

Lemma crawl_messages_sent fuel self :
  forall c cur messages offset timestamp json_data,
    respects (history_sent self)
      (crawl_messages fuel self c cur messages offset timestamp json_data).
Proof.
  pose proof (history_sent_refl self) as Hr.
  pose proof (history_sent_trans self) as Ht.
  induction fuel as [|fuel IH];
    intros c cur messages offset timestamp json_data;
    rewrite crawl_messages_eq.
  - respects_steps Hr Ht.
  - pose proof (with_world_log_sent self) as Hpost.
    respects_steps Hr Ht; [apply Hpost | apply IH].
Qed.

Lemma write_dump_to_file_keeps_log self messages filelocation mode_ base :
  respects (history_sent self)
           (write_dump_to_file messages filelocation mode_ base).
Proof.
  pose proof (history_sent_refl self) as Hr.
  pose proof (history_sent_trans self) as Ht.
  assert (Hw : forall f, respects (history_sent self) (write_file f)).
  { intros f. apply respects_modify. intros w. unfold history_sent.
    cbn [w_log]. apply sent_to_refl. }
  unfold write_dump_to_file.
  destruct ((mode_ <? 0) || (2 <? mode_)); [apply respects_raise, Hr|].
  apply respects_bind; [exact Ht | |intros _].
  - destruct ((mode_ =? 0) || (mode_ =? 2)); [apply Hw | apply respects_ret, Hr].
  - destruct ((mode_ =? 1) || (mode_ =? 2)); [apply Hw | apply respects_ret, Hr].
Qed.

Lemma dump_convers_sent fuel self to_stdout c :
  respects (history_sent self) (dump_convers fuel self to_stdout c).
Proof.
  pose proof (history_sent_refl self) as Hr.
  pose proof (history_sent_trans self) as Ht.
  pose proof (crawl_messages_sent fuel self) as Hcrawl.
  pose proof (write_dump_to_file_keeps_log self) as Hwrite.
  unfold dump_convers.
  apply respects_bind; [exact Ht | apply respects_lift, Hr | intros known].
  destruct (negb known); [apply respects_raise, Hr|].
  apply respects_bind; [exact Ht | |intros _].
  - destruct to_stdout; respects_steps Hr Ht.
  - apply respects_bind; [exact Ht | apply respects_lift, Hr | intros cur].
    apply respects_bind; [exact Ht | apply Hcrawl | intros messages].
    do 4 (apply respects_bind; [exact Ht | apply respects_lift, Hr | intros ?]).
    apply Hwrite.
Qed.

(** X4.  Whatever the service answers and whichever conversations are
    asked for, [dump] sends its requests to the message-history address
    only, each with the headers of the dumper. *)
Theorem dump_only_asks_for_histories :
  forall fuel self to_stdout w,
    exists reqs,
      w_log (fst (dump fuel self to_stdout w)) = w_log w ++ reqs
      /\ Forall (fun rq => req_url rq = _url_convers
                           /\ req_headers rq = headers self) reqs.
Proof.
  intros fuel self to_stdout w.
  assert (H : respects (history_sent self) (dump fuel self to_stdout)).
  { unfold dump. apply respects_for_each;
      [apply history_sent_refl | apply history_sent_trans |].
    intros c _. apply dump_convers_sent. }
  destruct (dump fuel self to_stdout w) as [w' o] eqn:Hrun.
  exact (H _ _ _ Hrun).
Qed.

(** *** The files of one conversation *)

Definition same_files (w w' : world) : Prop := w_files w' = w_files w.

Lemma same_files_refl : reflexive_on same_files.
Proof. intros w. reflexivity. Qed.

Lemma same_files_trans : transitive_on same_files.
Proof. intros a b c H1 H2. unfold same_files in *. congruence. Qed.

Lemma crawl_messages_writes_nothing fuel self :
  forall c cur messages offset timestamp json_data,
    respects same_files
      (crawl_messages fuel self c cur messages offset timestamp json_data).
Proof.
  pose proof same_files_refl as Hr. pose proof same_files_trans as Ht.
  assert (Hpost : forall form_data,
            respects same_files
              (with_world_log
                 (make_request (headers self) _url_convers form_data))).
  { intros form_data w w' o H. unfold with_world_log in H.
    destruct (make_request _ _ _ (w_log w)). inversion H; reflexivity. }
  induction fuel as [|fuel IH];
    intros c cur messages offset timestamp json_data;
    rewrite crawl_messages_eq.
  - respects_steps Hr Ht.
  - respects_steps Hr Ht; [apply Hpost | apply IH].
Qed.

(** X5.  One turn of the loop of [dump] either ends normally, and has then
    written exactly two files for the conversation, the raw one and then
    the pretty one, with the same messages, in the folder named after the
    identifier and the transliterated name; or it ends otherwise, and has
    then written nothing for the conversation. *)
Theorem dump_writes_both_files_or_none :
  forall fuel self to_stdout c w,
    (forall w',
        dump_convers fuel self to_stdout c w = (w', Ret tt) ->
        exists cid e name messages,
          c = JStr cid
          /\ dict_getitem (convers self) c = Ok e
          /\ ce_name e = Some (JStr name)
          /\ let folder :=
               (output self +++ cid) +++ " - " +++ unidecode name +++ os_sep in
             w_files w'
             = w_files w
               ++ [ {| wf_path := folder +++ "complete" +++ ".json";
                       wf_dump := messages; wf_indent := None |};
                    {| wf_path := folder +++ "complete" +++ ".pretty.json";
                       wf_dump := messages; wf_indent := Some 4 |} ])
    /\ (forall w' o,
           dump_convers fuel self to_stdout c w = (w', o) ->
           o <> Ret tt ->
           w_files w' = w_files w).
Proof.
  intros fuel self to_stdout c w.
  assert (Hpre : forall w1 (o : outcome unit),
             (if to_stdout then
                e <- lift (dict_getitem (convers self) c) ;;
                name <- lift (entry_name e) ;;
                _ <- lift (py_unidecode unidecode name) ;;
                ret tt
              else ret tt) w = (w1, o) -> w1 = w).
  { intros w1 o H. destruct to_stdout; [|inversion H; reflexivity].
    unfold bind, lift, ret, raise in H.
    destruct (dict_getitem (convers self) c) as [e|]; [|inversion H; reflexivity].
    destruct (entry_name e) as [n|]; [|inversion H; reflexivity].
    destruct (py_unidecode unidecode n); inversion H; reflexivity. }
  assert (Hall : forall w' o,
             dump_convers fuel self to_stdout c w = (w', o) ->
             (o <> Ret tt /\ w_files w' = w_files w)
             \/ (o = Ret tt
                 /\ exists cid e name messages,
                     c = JStr cid
                     /\ dict_getitem (convers self) c = Ok e
                     /\ ce_name e = Some (JStr name)
                     /\ w_files w'
                        = w_files w
                          ++ [ {| wf_path :=
                                    ((output self +++ cid) +++ " - "
                                       +++ unidecode name +++ os_sep)
                                      +++ "complete" +++ ".json";
                                  wf_dump := messages; wf_indent := None |};
                               {| wf_path :=
                                    ((output self +++ cid) +++ " - "
                                       +++ unidecode name +++ os_sep)
                                      +++ "complete" +++ ".pretty.json";
                                  wf_dump := messages;
                                  wf_indent := Some 4 |} ])).
  { intros w' o H. unfold dump_convers in H.
    unfold bind at 1 in H. unfold lift at 1 in H.
    destruct (dict_contains c (convers self)) as [known|e0];
      [|inversion H; subst; left; split; [discriminate | reflexivity]].
    cbn [ret] in H.
    destruct (negb known);
      [inversion H; subst; left; split; [discriminate | reflexivity]|].
    unfold bind at 1 in H.
    match type of H with
    | context [match ?m w with _ => _ end] => destruct (m w) as [w1 [[]|e1|]] eqn:Hp
    end;
      pose proof (Hpre _ _ eq_refl) as Hw1; subst w1;
      try (inversion H; subst; left; split; [discriminate | reflexivity]).
    unfold bind at 1 in H. unfold lift at 1 in H.
    destruct (dict_getitem (convers self) c) as [cur|e2] eqn:Hcur;
      [|inversion H; subst; left; split; [discriminate | reflexivity]].
    cbn [ret] in H. unfold bind at 1 in H.
    destruct (crawl_messages fuel self c cur [] 0 (JStr "0")
                (JObj [("payload", JObj [])]) w)
      as [w2 [messages|e3|]] eqn:Hcrawl;
      pose proof (crawl_messages_writes_nothing fuel self _ _ _ _ _ _ _ _ _
                    Hcrawl) as Hfiles; unfold same_files in Hfiles;
      try (inversion H; subst; left; split; [discriminate | exact Hfiles]).
    unfold bind at 1 in H. unfold lift at 1 in H.
    destruct c as [| | |cid| |]; cbn [str_add] in H;
      try (inversion H; subst; left; split; [discriminate | exact Hfiles]).
    cbn [ret] in H. unfold bind at 1 in H. unfold lift at 1 in H.
    cbn [ret] in H.
    unfold bind at 1 in H. unfold lift at 1 in H. unfold entry_name in H.
    destruct (ce_name cur) as [name|] eqn:Hname;
      [|inversion H; subst; left; split; [discriminate | exact Hfiles]].
    cbn [ret] in H. unfold bind at 1 in H. unfold lift at 1 in H.
    destruct name as [| | |name| |]; cbn [py_unidecode] in H;
      try (inversion H; subst; left; split; [discriminate | exact Hfiles]).
    cbn [ret] in H. cbn in H. inversion H; subst.
    right. split; [reflexivity|].
    exists cid, cur, name, messages.
    rewrite Hfiles. rewrite <- app_assoc. auto. }
  split.
  - intros w' H. destruct (Hall _ _ H) as [[Hne _]|[_ Hex]];
      [exfalso; apply Hne; reflexivity|].
    destruct Hex as (cid & e & name & messages & H1 & H2 & H3 & H4).
    exists cid, e, name, messages. auto.
  - intros w' o H Hne. destruct (Hall _ _ H) as [[_ Hf]|[Ho _]];
      [exact Hf | contradiction].
Qed.

(** ** More on the directory crawl *)

Lemma make_request_log hdrs url form_data lg :
  fst (make_request hdrs url form_data lg)
  = lg ++ [{| req_url := url; req_headers := hdrs; req_data := form_data |}].
Proof.
  unfold make_request, bind, post.
  destruct (respond lg _) as [j|e]; [|reflexivity].
  unfold lift. destruct (contains "error" j) as [[|]|]; cbn; try reflexivity.
  destruct (getitem j "errorSummary"); reflexivity.
Qed.

(** A turn of the loop starts with its request, whatever follows. *)
Lemma crawl_status_sends_first fuel hdrs pdata status offset st :
  exists reqs,
    cs_log (fst (crawl_status (S fuel) hdrs pdata status offset st))
    = cs_log st ++ listing_request hdrs pdata status offset :: reqs.
Proof.
  cbn [crawl_status].
  set (k := fun json_data : json =>
              json_threads <- merge_page status json_data ;;
              n <- lift (py_len json_threads) ;;
              if n <? _chunk_size_convers then ret tt
              else crawl_status fuel hdrs pdata status
                     (offset + _chunk_size_convers)).
  assert (Hk : forall j, respects (listing_sent hdrs) (k j)).
  { intros j. unfold k.
    apply respects_bind; [apply listing_sent_trans | |intros json_threads].
    - intros s s' o H. unfold listing_sent.
      rewrite (keeps_log_merge_page status j _ _ _ H). apply sent_to_refl.
    - apply respects_bind;
        [apply listing_sent_trans | apply respects_lift, listing_sent_refl |].
      intros n. destruct (n <? _chunk_size_convers);
        [apply respects_ret, listing_sent_refl | apply crawl_status_sent]. }
  change (exists reqs,
             cs_log (fst (bind (with_log
                                  (make_request hdrs _url_convers_list
                                     (form_update (listing_data status offset)
                                                  pdata))) k st))
             = cs_log st ++ listing_request hdrs pdata status offset :: reqs).
  unfold bind, with_log.
  pose proof (make_request_log hdrs _url_convers_list
                (form_update (listing_data status offset) pdata) (cs_log st))
    as Hlog.
  destruct (make_request hdrs _url_convers_list _ (cs_log st)) as [lg r].
  cbn [fst] in Hlog. subst lg.
  destruct r as [j| e |]; cbn [fst cs_log].
  - destruct (k j _) as [s' o] eqn:Hrun.
    destruct (Hk j _ _ _ Hrun) as [reqs [Hreqs _]]. cbn [cs_log] in Hreqs.
    exists reqs. cbn [fst]. rewrite Hreqs, <- app_assoc. reflexivity.
  - exists []. reflexivity.
  - exists []. reflexivity.
Qed.

(** X6.  As long as the pages it gets are accepted and hold 1000 threads
    each, the loop of one status goes on: after [n] such pages it has sent
    [n] requests, with the offsets 0, 1000, ..., and has not ended; given
    more fuel its next request, at offset [1000 * n], follows whatever the
    service then answers. *)
Theorem directory_crawl_goes_on_after_full_pages :
  forall hdrs pdata status rs st,
    serves (List.length (cs_log st)) rs ->
    pages_ok (cs_participants st) rs = true ->
    Forall (fun r => Z.of_nat (List.length (threads_of r))
                     = _chunk_size_convers) rs ->
    let sent := map (listing_request hdrs pdata status)
                    (listing_offsets (List.length rs) 0) in
    (exists st',
        crawl_status (List.length rs) hdrs pdata status 0 st = (st', OutOfFuel)
        /\ cs_log st' = cs_log st ++ sent)
    /\ (forall fuel,
           (List.length rs < fuel)%nat ->
           exists reqs,
             cs_log (fst (crawl_status fuel hdrs pdata status 0 st))
             = cs_log st ++ sent
                 ++ listing_request hdrs pdata status
                      (Z.of_nat (List.length rs) * _chunk_size_convers)
                 :: reqs).
Proof.
  intros hdrs pdata status rs st Hsrv Hok Hfull sent. split.
  - eexists.
    replace (List.length rs) with (List.length rs + 0)%nat at 1 by lia.
    rewrite (crawl_status_run hdrs pdata status rs 0 0 st Hsrv Hok Hfull).
    cbn [crawl_status]. split; reflexivity.
  - intros fuel Hfuel.
    replace fuel with (List.length rs + S (fuel - S (List.length rs)))%nat
      by lia.
    rewrite (crawl_status_run hdrs pdata status rs _ 0 st Hsrv Hok Hfull).
    destruct (crawl_status_sends_first (fuel - S (List.length rs)) hdrs pdata
                status (0 + Z.of_nat (List.length rs) * _chunk_size_convers)
                {| cs_log := cs_log st ++ sent;
                   cs_convers :=
                     fst (after_pages status rs (cs_convers st)
                            (cs_participants st));
                   cs_participants :=
                     snd (after_pages status rs (cs_convers st)
                            (cs_participants st)) |})
      as [reqs Hreqs].
    exists reqs. fold sent. rewrite Hreqs. cbn [cs_log].
    rewrite <- app_assoc. rewrite Z.add_0_l. reflexivity.
Qed.

(** *** Looking conversations up in the index *)

Lemma dict_find_store_string {V} a b (v : V) d :
  dict_find (JStr a) (dict_store (JStr b) v d)
  = if String.eqb a b then Some v else dict_find (JStr a) d.
Proof.
  induction d as [|[k0 v0] d IH].
  - cbn. destruct (String.eqb a b); reflexivity.
  - cbn [dict_store dict_find].
    destruct (key_eqb (JStr b) k0) eqn:Hb; cbn [dict_find].
    + destruct k0; try discriminate Hb. cbn [key_eqb] in Hb |- *.
      apply String.eqb_eq in Hb. subst b.
      destruct (String.eqb a s); reflexivity.
    + rewrite IH. destruct (key_eqb (JStr a) k0) eqn:Ha; [|reflexivity].
      destruct k0; try discriminate Ha. cbn [key_eqb] in Ha, Hb.
      apply String.eqb_eq in Ha. subst s. rewrite String.eqb_sym, Hb.
      reflexivity.
Qed.

Lemma stored_find_other status P threads :
  forall cur C id ids,
    thread_ids threads = map JStr ids ->
    ~ In id ids ->
    dict_find (JStr id) (stored status P threads cur C) = dict_find (JStr id) C.
Proof.
  induction threads as [|c threads IH]; intros cur C id ids Hids Hnot;
    [reflexivity|].
  destruct ids as [|id0 ids]; [discriminate|].
  cbn [thread_ids map] in Hids. inversion Hids as [[Hid Hrest]].
  cbn [stored]. rewrite (IH _ _ id ids Hrest).
  - rewrite Hid, dict_find_store_string.
    destruct (String.eqb id id0) eqn:He; [|reflexivity].
    apply String.eqb_eq in He. subst. exfalso. apply Hnot. left. reflexivity.
  - intros Hin. apply Hnot. right. exact Hin.
Qed.

Lemma stored_find_status status P threads :
  forall cur C id ids,
    thread_ids threads = map JStr ids ->
    NoDup ids ->
    In id ids ->
    exists e,
      dict_find (JStr id) (stored status P threads cur C) = Some e
      /\ ce_status e = Some (status_name status).
Proof.
  induction threads as [|c threads IH]; intros cur C id ids Hids Hnd Hin.
  - destruct ids; [destruct Hin | discriminate].
  - destruct ids as [|id0 ids]; [discriminate|].
    cbn [thread_ids map] in Hids. inversion Hids as [[Hid Hrest]].
    inversion Hnd as [|? ? Hnot Hnd']; subst.
    cbn [stored]. destruct (in_dec string_dec id ids) as [Hlater|Hlater].
    + apply (IH _ _ id ids Hrest Hnd' Hlater).
    + destruct Hin as [->|Hin]; [|contradiction].
      rewrite (stored_find_other status P threads _ _ id ids Hrest Hlater).
      rewrite Hid, dict_find_store_string, String.eqb_refl.
      eexists. split; reflexivity.
Qed.

Lemma after_pages_find_other status rs :
  forall C P id ids,
    thread_ids (all_threads rs) = map JStr ids ->
    ~ In id ids ->
    dict_find (JStr id) (fst (after_pages status rs C P))
    = dict_find (JStr id) C.
Proof.
  induction rs as [|r rs IH]; intros C P id ids Hids Hnot; [reflexivity|].
  cbn [all_threads flat_map] in Hids. unfold thread_ids in Hids.
  rewrite map_app in Hids. symmetry in Hids. apply map_eq_app in Hids.
  destruct Hids as (ids1 & ids2 & -> & H1 & H2).
  cbn [after_pages]. rewrite (IH _ _ id ids2).
  - apply (stored_find_other status _ _ _ _ id ids1); [symmetry; exact H1|].
    intros Hin. apply Hnot. apply in_or_app. left. exact Hin.
  - symmetry. exact H2.
  - intros Hin. apply Hnot. apply in_or_app. right. exact Hin.
Qed.

Lemma after_pages_find_status status rs :
  forall C P id ids,
    thread_ids (all_threads rs) = map JStr ids ->
    NoDup ids ->
    In id ids ->
    exists e,
      dict_find (JStr id) (fst (after_pages status rs C P)) = Some e
      /\ ce_status e = Some (status_name status).
Proof.
  induction rs as [|r rs IH]; intros C P id ids Hids Hnd Hin.
  - destruct ids; [destruct Hin | discriminate].
  - cbn [all_threads flat_map] in Hids. unfold thread_ids in Hids.
    rewrite map_app in Hids. symmetry in Hids. apply map_eq_app in Hids.
    destruct Hids as (ids1 & ids2 & -> & H1 & H2).
    cbn [after_pages].
    destruct (in_dec string_dec id ids2) as [Hlater|Hlater].
    + apply (IH _ _ id ids2); [symmetry; exact H2 | | exact Hlater].
      apply NoDup_app_remove_l in Hnd. exact Hnd.
    + rewrite (after_pages_find_other status rs _ _ id ids2);
        [|symmetry; exact H2 | exact Hlater].
      apply in_app_or in Hin. destruct Hin as [Hin|Hin]; [|contradiction].
      apply (stored_find_status status _ _ _ _ id ids1);
        [symmetry; exact H1 | | exact Hin].
      apply NoDup_app_remove_r in Hnd. exact Hnd.
Qed.

(** X7.  The directory is crawled status by status: the inbox to its short
    page, then the archive from offset 0 again.  When every page is
    accepted and the threads have string identifiers that are all
    different, the index lists the inbox conversations first and the
    archived ones after them, each recorded with the status under which it
    was listed. *)
Theorem directory_crawl_covers_inbox_then_archive :
  forall fuel hdrs pdata lg full1 last1 full2 last2 ids1 ids2,
    serves (List.length lg) ((full1 ++ [last1]) ++ (full2 ++ [last2])) ->
    pages_ok [] ((full1 ++ [last1]) ++ (full2 ++ [last2])) = true ->
    Forall (fun r => Z.of_nat (List.length (threads_of r))
                     = _chunk_size_convers) (full1 ++ full2) ->
    Z.of_nat (List.length (threads_of last1)) < _chunk_size_convers ->
    Z.of_nat (List.length (threads_of last2)) < _chunk_size_convers ->
    thread_ids (all_threads (full1 ++ [last1])) = map JStr ids1 ->
    thread_ids (all_threads (full2 ++ [last2])) = map JStr ids2 ->
    NoDup (ids1 ++ ids2) ->
    (List.length full1 < fuel)%nat ->
    (List.length full2 < fuel)%nat ->
    exists C P,
      get_all_convers_metadata fuel hdrs pdata lg
      = (lg ++ map (listing_request hdrs pdata Inbox)
                   (listing_offsets (S (List.length full1)) 0)
            ++ map (listing_request hdrs pdata Archived)
                   (listing_offsets (S (List.length full2)) 0),
         Ret (C, P))
      /\ dict_keys C = map JStr (ids1 ++ ids2)
      /\ (forall id, In id ids1 ->
            exists e, dict_find (JStr id) C = Some e
                      /\ ce_status e = Some (status_name Inbox))
      /\ (forall id, In id ids2 ->
            exists e, dict_find (JStr id) C = Some e
                      /\ ce_status e = Some (status_name Archived)).
Proof.
  intros fuel hdrs pdata lg full1 last1 full2 last2 ids1 ids2
         Hsrv Hok Hfull Hshort1 Hshort2 Hids1 Hids2 Hnd Hfuel1 Hfuel2.
  apply Forall_app in Hfull. destruct Hfull as [Hfull1 Hfull2].
  apply serves_app in Hsrv. destruct Hsrv as [Hsrv1 Hsrv2].
  apply pages_ok_app in Hok. destruct Hok as [Hok1 Hok2].
  set (st0 := {| cs_log := lg; cs_convers := []; cs_participants := [] |}).
  pose proof (crawl_status_complete hdrs pdata Inbox full1 last1 fuel st0
                Hsrv1 Hok1 Hfull1 Hshort1 Hfuel1) as Hrun1.
  set (C1 := fst (after_pages Inbox (full1 ++ [last1]) [] [])) in *.
  set (P1 := snd (after_pages Inbox (full1 ++ [last1]) [] [])) in *.
  cbn [cs_log cs_convers cs_participants st0] in Hrun1.
  fold C1 P1 in Hrun1.
  set (st1 := {| cs_log := lg ++ map (listing_request hdrs pdata Inbox)
                                     (listing_offsets (S (List.length full1)) 0);
                 cs_convers := C1; cs_participants := P1 |}) in *.
  assert (Hsrv2' : serves (List.length (cs_log st1)) (full2 ++ [last2])).
  { unfold st1. cbn [cs_log].
    rewrite length_app, length_map, listing_offsets_length.
    rewrite length_app in Hsrv2. cbn [List.length] in Hsrv2.
    replace (List.length lg + S (List.length full1))%nat
      with (List.length lg + (List.length full1 + 1))%nat by lia.
    exact Hsrv2. }
  pose proof (crawl_status_complete hdrs pdata Archived full2 last2 fuel st1
                Hsrv2' Hok2 Hfull2 Hshort2 Hfuel2) as Hrun2.
  cbn [cs_log cs_convers cs_participants st1] in Hrun2.
  set (C2 := fst (after_pages Archived (full2 ++ [last2]) C1 P1)) in *.
  set (P2 := snd (after_pages Archived (full2 ++ [last2]) C1 P1)) in *.
  exists C2, P2. split; [|split; [|split]].
  - unfold get_all_convers_metadata. fold st0.
    unfold bind at 1. rewrite Hrun1. fold st1. rewrite Hrun2.
    cbn [cs_log cs_convers cs_participants]. rewrite <- app_assoc.
    reflexivity.
  - assert (HC1 : dict_keys C1 = map JStr ([] ++ ids1)).
    { apply (after_pages_keys Inbox (full1 ++ [last1]) [] [] [] ids1);
        [reflexivity | exact Hids1 |].
      apply NoDup_app_remove_r in Hnd. exact Hnd. }
    apply (after_pages_keys Archived (full2 ++ [last2]) C1 P1 ids1 ids2);
      [exact HC1 | exact Hids2 | exact Hnd].
  - intros id Hin.
    assert (Hnot : ~ In id ids2).
    { intros Hin2. revert Hnd Hin Hin2. clear. revert ids2.
      induction ids1 as [|a ids1 IH]; intros ids2 Hnd Hin Hin2;
        [destruct Hin|].
      cbn [app] in Hnd. inversion Hnd as [|? ? Hna Hnd']; subst.
      destruct Hin as [->|Hin].
      - apply Hna. apply in_or_app. right. exact Hin2.
      - apply (IH ids2 Hnd' Hin Hin2). }
    unfold C2.
    rewrite (after_pages_find_other Archived (full2 ++ [last2]) C1 P1 id ids2
               Hids2 Hnot).
    apply (after_pages_find_status Inbox (full1 ++ [last1]) [] [] id ids1
             Hids1); [|exact Hin].
    apply NoDup_app_remove_r in Hnd. exact Hnd.
  - intros id Hin.
    apply (after_pages_find_status Archived (full2 ++ [last2]) C1 P1 id ids2
             Hids2); [|exact Hin].
    apply NoDup_app_remove_l in Hnd. exact Hnd.
Qed.

(** ** Which identifiers [dump] can refuse *)

Definition keys_hashable {V} (d : pydict V) : Prop :=
  Forall (fun k => hashable k = true) (dict_keys d).

Definition index_stays_hashable (st st' : crawl_state) : Prop :=
  keys_hashable (cs_convers st) -> keys_hashable (cs_convers st').

Lemma index_stays_hashable_refl : reflexive_on index_stays_hashable.
Proof. intros st H. exact H. Qed.

Lemma index_stays_hashable_trans : transitive_on index_stays_hashable.
Proof. intros a b c H1 H2 H. apply H2, H1, H. Qed.

Lemma key_eqb_refl k : hashable k = true -> key_eqb k k = true.
Proof.
  destruct k as [|b|n|s|l|o]; cbn; intros H; try discriminate H.
  - reflexivity.
  - destruct b; reflexivity.
  - apply Z.eqb_refl.
  - apply String.eqb_refl.
Qed.

Lemma dict_store_hashable {V} k (v : V) d :
  hashable k = true -> keys_hashable d -> keys_hashable (dict_store k v d).
Proof.
  intros Hk. unfold keys_hashable, dict_keys.
  induction d as [|[k0 v0] d IH]; intros H; cbn [dict_store].
  - constructor; [exact Hk | constructor].
  - inversion H as [|? ? Hk0 Hd]; subst.
    destruct (key_eqb k k0); cbn [map fst]; constructor; auto.
Qed.

Lemma dict_find_key {V} k (d : pydict V) :
  hashable k = true -> In k (dict_keys d) -> dict_find k d <> None.
Proof.
  intros Hk. induction d as [|[k0 v0] d IH]; intros Hin; [destruct Hin|].
  cbn [dict_find]. destruct (key_eqb k k0) eqn:He; [discriminate|].
  destruct Hin as [Hin|Hin]; [|exact (IH Hin)].
  cbn [fst] in Hin. subst k0. rewrite (key_eqb_refl k Hk) in He. discriminate.
Qed.

Lemma respects_bind_get {S B} (R : S -> S -> Prop) (k : S -> M S B) :
  (forall s s' o, k s s = (s', o) -> R s s') -> respects R (bind get k).
Proof. intros Hk s s' o H. apply (Hk s s' o). exact H. Qed.

Lemma merge_participant_keeps_index participant :
  respects index_stays_hashable (merge_participant participant).
Proof.
  pose proof index_stays_hashable_refl as Hr.
  pose proof index_stays_hashable_trans as Ht.
  unfold merge_participant.
  apply respects_bind; [exact Ht | apply respects_lift, Hr | intros name].
  apply respects_bind; [exact Ht | apply respects_lift, Hr | intros fbid].
  apply respects_bind_get. intros s s' o H.
  unfold bind, lift, dict_setitem, set_participants, modify in H.
  destruct (hashable fbid); inversion H; subst; intros Hk; exact Hk.
Qed.

Lemma merge_thread_keeps_index status c cur :
  respects index_stays_hashable (merge_thread status c cur).
Proof.
  pose proof index_stays_hashable_refl as Hr.
  pose proof index_stays_hashable_trans as Ht.
  unfold merge_thread.
  apply respects_bind; [exact Ht | apply respects_lift, Hr | intros ty].
  apply respects_bind; [exact Ht | respects_steps Hr Ht | intros cur1].
  apply respects_bind; [exact Ht | apply respects_lift, Hr | intros parts].
  apply respects_bind; [exact Ht | apply respects_lift, Hr | intros last].
  apply respects_bind; [exact Ht | apply respects_lift, Hr | intros fbid].
  apply respects_bind_get. intros s s' o H.
  unfold bind, lift, dict_setitem, set_convers, modify, ret in H.
  destruct (hashable fbid) eqn:Hh; inversion H; subst; intros Hk;
    [|exact Hk].
  cbn [cs_convers]. apply dict_store_hashable; assumption.
Qed.

Lemma respects_for_fold {S A L} (R : S -> S -> Prop) (l : list A)
  (body : A -> L -> M S L) :
  reflexive_on R -> transitive_on R ->
  (forall x acc, respects R (body x acc)) ->
  forall acc, respects R (for_fold l body acc).
Proof.
  intros Hr Ht Hb. induction l as [|x l IH]; intros acc; cbn [for_fold].
  - apply respects_ret, Hr.
  - apply respects_bind; [exact Ht | apply Hb | intros acc'; apply IH].
Qed.

Lemma merge_page_keeps_index status json_data :
  respects index_stays_hashable (merge_page status json_data).
Proof.
  pose proof index_stays_hashable_refl as Hr.
  pose proof index_stays_hashable_trans as Ht.
  unfold merge_page.
  repeat first
    [ apply respects_lift; exact Hr
    | apply respects_ret; exact Hr
    | apply respects_for_each;
        [exact Hr | exact Ht | intros ? _; apply merge_participant_keeps_index]
    | apply respects_for_fold;
        [exact Hr | exact Ht | intros ? ?; apply merge_thread_keeps_index]
    | apply respects_bind; [exact Ht | | intros ?] ].
Qed.

Lemma crawl_status_keeps_index fuel hdrs pdata status :
  forall offset, respects index_stays_hashable
                          (crawl_status fuel hdrs pdata status offset).
Proof.
  pose proof index_stays_hashable_refl as Hr.
  pose proof index_stays_hashable_trans as Ht.
  induction fuel as [|fuel IH]; intros offset; cbn [crawl_status].
  - apply respects_out_of_fuel, Hr.
  - apply respects_bind; [exact Ht | |intros json_data].
    + intros st st' o H. unfold with_log in H.
      destruct (make_request hdrs _url_convers_list _ (cs_log st)) as [lg r].
      inversion H; subst. intros Hk. exact Hk.
    + apply respects_bind;
        [exact Ht | apply merge_page_keeps_index | intros json_threads].
      apply respects_bind; [exact Ht | apply respects_lift, Hr | intros n].
      destruct (n <? _chunk_size_convers);
        [apply respects_ret, Hr | apply IH].
Qed.

(** The index that the constructor stores has keys that can be looked up. *)
Lemma constructed_index_is_hashable fuel ids raw infile chunk delay out
  lg lg' self :
  FBDumper_init fuel ids raw infile chunk delay out lg = (lg', Ret self) ->
  keys_hashable (convers self) /\ convers_ids self = ids.
Proof.
  intros H. unfold FBDumper_init in H.
  apply bind_returns in H. destruct H as (lg1 & raw' & _ & H).
  destruct (chunk <=? 0); [discriminate H|].
  destruct (delay <? 0); [discriminate H|].
  apply bind_returns in H. destruct H as (lg2 & hp & _ & H).
  apply bind_returns in H. destruct H as (lg3 & cp & Hcrawl & H).
  inversion H; subst. cbn [convers convers_ids]. split; [|reflexivity].
  unfold get_all_convers_metadata in Hcrawl.
  match type of Hcrawl with
  | context [bind ?m ?k ?s] =>
      destruct (bind m k s) as [st o] eqn:Hrun;
      assert (Hk : index_stays_hashable s st)
  end.
  { revert Hrun. apply respects_bind;
      [exact index_stays_hashable_trans | apply crawl_status_keeps_index |].
    intros _. apply crawl_status_keeps_index. }
  destruct o; inversion Hcrawl; subst. cbn [fst].
  apply Hk. constructor.
Qed.

Lemma for_each_raised_by {S A} (l : list A) (body : A -> M S unit) :
  forall s e,
    snd (for_each l body s) = Exc e ->
    exists x s1, In x l /\ snd (body x s1) = Exc e.
Proof.
  induction l as [|x l IH]; intros s e H; cbn [for_each] in H.
  - discriminate H.
  - unfold bind in H. destruct (body x s) as [s1 [[]| e1 |]] eqn:Hx.
    + destruct (IH _ _ H) as (y & s2 & Hin & Hy).
      exists y, s2. split; [right; exact Hin | exact Hy].
    + exists x, s. split; [left; reflexivity|]. rewrite Hx. exact H.
    + discriminate H.
Qed.

(** What it takes for one turn of the loop of [dump] to raise the
    dumper's own exception. *)
Lemma dump_convers_refuses fuel self to_stdout c w e :
  transport_is_foreign ->
  snd (dump_convers fuel self to_stdout c w) = Exc e ->
  is_unknown_convers e = true ->
  e = FBUnknownConvers c /\ hashable c = true
  /\ dict_find c (convers self) = None.
Proof.
  intros Hr Hexc Hunknown.
  destruct (dict_contains c (convers self)) as [known|e0] eqn:Hc;
    unfold dump_convers in Hexc.
  - rewrite (bind_lift_ok _ _ _ _ Hc) in Hexc.
    unfold dict_contains in Hc.
    destruct (hashable c) eqn:Hh; [|discriminate Hc].
    destruct known; cbn [negb] in Hexc.
    + exfalso.
      match type of Hexc with
      | snd (?m w) = _ => assert (Hq : quiet m)
      end.
      { pose proof (quiet_crawl_messages fuel Hr) as Hcrawl.
        pose proof quiet_write_dump_to_file as Hwrite.
        quiet_steps. }
      specialize (Hq w). rewrite Hexc in Hq. cbn in Hq. congruence.
    + cbn in Hexc. inversion Hexc; subst.
      split; [reflexivity|]. split; [reflexivity|].
      destruct (dict_find c (convers self)); [discriminate Hc | reflexivity].
  - exfalso. rewrite (bind_lift_err _ _ _ _ Hc) in Hexc.
    cbn [snd] in Hexc. inversion Hexc; subst.
    unfold dict_contains in Hc.
    destruct (hashable c); [discriminate Hc|].
    inversion Hc; subst. discriminate Hunknown.
Qed.

(** X8.  [dump] on a dumper that the constructor returned raises
    [FBUnknownConvers] only for an identifier of the filter given to the
    constructor that is not in the index: without a filter, or with an
    empty one, every key of the index is dumped and the exception cannot
    occur, as long as the transport does not raise it. *)
Theorem only_a_requested_id_can_be_unknown :
  forall fuel ids raw infile chunk delay out lg lg' self,
    FBDumper_init fuel ids raw infile chunk delay out lg = (lg', Ret self) ->
    transport_is_foreign ->
    forall fuel' to_stdout w e,
      snd (dump fuel' self to_stdout w) = Exc e ->
      is_unknown_convers e = true ->
      exists id l,
        ids = Some l /\ In id l /\ e = FBUnknownConvers (JStr id)
        /\ dict_find (JStr id) (convers self) = None.
Proof.
  intros fuel ids raw infile chunk delay out lg lg' self Hinit Hr
         fuel' to_stdout w e Hexc Hunknown.
  destruct (constructed_index_is_hashable _ _ _ _ _ _ _ _ _ _ Hinit)
    as [Hkeys Hids].
  unfold dump in Hexc.
  destruct (for_each_raised_by _ _ _ _ Hexc) as (c & w1 & Hin & Hc).
  destruct (dump_convers_refuses _ _ _ _ _ _ Hr Hc Hunknown)
    as (He & Hh & Hfind).
  assert (Hall : In c (dict_keys (convers self)) -> False).
  { intros Hkey. exact (dict_find_key c (convers self) Hh Hkey Hfind). }
  unfold ids_to_dump in Hin. rewrite Hids in Hin.
  destruct ids as [[|x rest]|]; try (exfalso; exact (Hall Hin)).
  apply in_map_iff in Hin. destruct Hin as (id & Hid & Hin). subst c.
  exists id, (x :: rest). repeat split; assumption.
Qed.

(** ** What the directory crawl records for a thread *)

Lemma key_eqb_sym a b : key_eqb a b = key_eqb b a.
Proof.
  destruct a as [|x|m|s|l|o], b as [|y|n|t|l'|o']; cbn; try reflexivity.
  - destruct x, y; reflexivity.
  - apply Z.eqb_sym.
  - apply Z.eqb_sym.
  - apply Z.eqb_sym.
  - apply String.eqb_sym.
Qed.

Lemma bool_as_int_eqb (x y : bool) :
  ((if x then 1 else 0) =? (if y then 1 else 0)) = Bool.eqb x y.
Proof. destruct x, y; reflexivity. Qed.

Lemma key_eqb_congr a b c :
  key_eqb a b = true -> key_eqb a c = key_eqb b c.
Proof.
  destruct a as [|x|m|s|l|o], b as [|y|n|t|l'|o']; cbn; intros H;
    try discriminate H; try reflexivity.
  - apply Bool.eqb_prop in H. subst y. reflexivity.
  - apply Z.eqb_eq in H. subst n. destruct c; cbn; try reflexivity.
    symmetry. apply bool_as_int_eqb.
  - apply Z.eqb_eq in H. subst m. destruct c; cbn; try reflexivity.
    apply bool_as_int_eqb.
  - apply Z.eqb_eq in H. subst n. reflexivity.
  - apply String.eqb_eq in H. subst t. reflexivity.
Qed.

Lemma dict_find_store_same {V} k' k (v : V) d :
  key_eqb k' k = true -> dict_find k' (dict_store k v d) = Some v.
Proof.
  intros H. induction d as [|[k0 v0] d IH]; cbn [dict_store dict_find].
  - rewrite H. reflexivity.
  - pose proof (key_eqb_congr k' k k0 H) as Hc.
    destruct (key_eqb k k0); cbn [dict_find]; rewrite Hc;
      [reflexivity | exact IH].
Qed.

Lemma dict_find_store_other {V} k' k (v : V) d :
  key_eqb k' k = false -> dict_find k' (dict_store k v d) = dict_find k' d.
Proof.
  intros H. induction d as [|[k0 v0] d IH]; cbn [dict_store dict_find].
  - rewrite H. reflexivity.
  - destruct (key_eqb k k0) eqn:Hk; cbn [dict_find].
    + assert (Hne : key_eqb k' k0 = false).
      { rewrite key_eqb_sym, <- (key_eqb_congr k k0 k' Hk), key_eqb_sym.
        exact H. }
      rewrite Hne. reflexivity.
    + rewrite IH. reflexivity.
Qed.

Lemma merged_app P l1 l2 : merged P (l1 ++ l2) = merged (merged P l1) l2.
Proof. unfold merged. apply fold_left_app. Qed.

Lemma merged_find_other parts :
  forall P k,
    forallb (fun q => negb (key_eqb k (field q "fbid"))) parts = true ->
    dict_find k (merged P parts) = dict_find k P.
Proof.
  induction parts as [|q parts IH]; intros P k H; [reflexivity|].
  cbn [forallb] in H. apply andb_prop in H. destruct H as [Hq Hrest].
  apply negb_true_iff in Hq.
  change (merged P (q :: parts))
    with (merged (dict_store (field q "fbid") (field q "name") P) parts).
  rewrite (IH _ k Hrest). apply dict_find_store_other. exact Hq.
Qed.

Lemma merged_find_last P pre p post k :
  key_eqb k (field p "fbid") = true ->
  forallb (fun q => negb (key_eqb k (field q "fbid"))) post = true ->
  dict_find k (merged P (pre ++ p :: post)) = Some (field p "name").
Proof.
  intros Hp Hpost. rewrite merged_app.
  change (merged (merged P pre) (p :: post))
    with (merged (dict_store (field p "fbid") (field p "name") (merged P pre))
                 post).
  rewrite (merged_find_other post _ k Hpost).
  apply dict_find_store_same. exact Hp.
Qed.

(** X9.  The loop over the participants of a page overwrites: after it,
    an identifier gives the name of the last participant record of the
    page that carries it, whatever name the directory had for it before,
    and an identifier that no record of the page carries keeps what it
    had.  The requests and the conversation index are not touched. *)
Theorem participant_directory_keeps_the_last_name :
  forall parts st,
    forallb participant_ok parts = true ->
    exists st',
      for_each parts merge_participant st = (st', Ret tt)
      /\ cs_log st' = cs_log st
      /\ cs_convers st' = cs_convers st
      /\ (forall pre p post,
             parts = pre ++ p :: post ->
             forallb (fun q => negb (key_eqb (field p "fbid") (field q "fbid")))
                     post = true ->
             dict_getitem (cs_participants st') (field p "fbid")
             = Ok (field p "name"))
      /\ (forall k,
             forallb (fun q => negb (key_eqb k (field q "fbid"))) parts = true ->
             dict_find k (cs_participants st')
             = dict_find k (cs_participants st)).
Proof.
  intros parts st Hok. eexists.
  split; [apply merge_participants_accept; exact Hok|].
  cbn [cs_log cs_convers cs_participants].
  split; [reflexivity|]. split; [reflexivity|]. split.
  - intros pre p post Hparts Hpost. subst parts.
    assert (Hp : participant_ok p = true).
    { rewrite forallb_forall in Hok. apply Hok.
      apply in_or_app. right. left. reflexivity. }
    unfold participant_ok in Hp. apply andb_prop in Hp.
    destruct Hp as [_ Hh].
    unfold dict_getitem. rewrite Hh.
    rewrite (merged_find_last _ pre p post _ (key_eqb_refl _ Hh) Hpost).
    reflexivity.
  - intros k Hk. apply merged_find_other. exact Hk.
Qed.

Lemma stored_app status P pre :
  forall post cur C,
    stored status P (pre ++ post) cur C
    = stored status P post
        (fold_left (fun e c => entry_of status P c e) pre cur)
        (stored status P pre cur C).
Proof.
  induction pre as [|c pre IH]; intros post cur C; [reflexivity|].
  cbn [app stored fold_left]. apply IH.
Qed.

(** The entry of a thread whose identifier no later thread of the page
    carries. *)
Lemma stored_find_entry status P pre c post cur C id ids_post :
  field c "thread_fbid" = JStr id ->
  thread_ids post = map JStr ids_post ->
  ~ In id ids_post ->
  dict_find (JStr id) (stored status P (pre ++ c :: post) cur C)
  = Some (entry_of status P c
            (fold_left (fun e c => entry_of status P c e) pre cur)).
Proof.
  intros Hid Hpost Hnot. rewrite stored_app. cbn [stored].
  rewrite (stored_find_other status P post _ _ id ids_post Hpost Hnot).
  rewrite Hid, dict_find_store_string, String.eqb_refl. reflexivity.
Qed.

Lemma fold_left_snoc {A B} (f : A -> B -> A) l x a :
  fold_left f (l ++ [x]) a = f (fold_left f l a) x.
Proof. rewrite fold_left_app. reflexivity. Qed.

Lemma entry_of_untyped status P c cur :
  py_eq_int (field c "thread_type") 2 = false ->
  py_eq_int (field c "thread_type") 1 = false ->
  ce_type (entry_of status P c cur) = ce_type cur
  /\ ce_name (entry_of status P c cur) = ce_name cur.
Proof. intros H2 H1. unfold entry_of. rewrite H2, H1. split; reflexivity. Qed.

(** X10.  [current_convers] is one dictionary for all the threads of a
    page, and only a thread of type 1 or 2 assigns its type and name.  So
    in an accepted page whose threads have distinct string identifiers, a
    thread of another type is recorded with the type and the name of the
    thread just before it in the page, and with neither when it is the
    first of the page. *)
Theorem untyped_thread_inherits_from_the_thread_before :
  forall status r st pre c post ids_pre id ids_post,
    is_listing r = true ->
    forallb participant_ok (participants_of r) = true ->
    forallb (thread_ok (merged (cs_participants st) (participants_of r)))
            (threads_of r) = true ->
    threads_of r = pre ++ c :: post ->
    thread_ids pre = map JStr ids_pre ->
    field c "thread_fbid" = JStr id ->
    thread_ids post = map JStr ids_post ->
    NoDup (ids_pre ++ id :: ids_post) ->
    py_eq_int (field c "thread_type") 2 = false ->
    py_eq_int (field c "thread_type") 1 = false ->
    exists st' e,
      merge_page status r st = (st', Ret (JArr (threads_of r)))
      /\ dict_find (JStr id) (cs_convers st') = Some e
      /\ match rev ids_pre with
         | [] => ce_type e = None /\ ce_name e = None
         | id_before :: _ =>
             exists e_before,
               dict_find (JStr id_before) (cs_convers st') = Some e_before
               /\ ce_type e = ce_type e_before
               /\ ce_name e = ce_name e_before
         end.
Proof.
  intros status r st pre c post ids_pre id ids_post
         Hl Hp Ht Hsplit Hpre Hid Hpost Hnd H2 H1.
  pose proof (merge_page_accepts status r st Hl Hp Ht) as Hrun.
  set (P := merged (cs_participants st) (participants_of r)) in Hrun.
  assert (Hnot : ~ In id ids_post).
  { apply NoDup_app_remove_l in Hnd. inversion Hnd; assumption. }
  eexists. eexists. split; [exact Hrun|]. cbn [cs_convers].
  rewrite Hsplit.
  split; [apply (stored_find_entry status P pre c post _ _ id ids_post
                   Hid Hpost Hnot)|].
  destruct ids_pre as [|a l _] using rev_ind.
  - destruct pre; [|discriminate Hpre].
    cbn [rev fold_left].
    destruct (entry_of_untyped status P c empty_entry H2 H1) as [-> ->].
    split; reflexivity.
  - rewrite rev_app_distr. cbn [rev app].
    unfold thread_ids in Hpre. rewrite map_app in Hpre.
    apply map_eq_app in Hpre.
    destruct Hpre as (pre' & last_one & -> & Hpre' & Hlast).
    destruct last_one as [|p [|]]; try discriminate Hlast.
    cbn [map] in Hlast. injection Hlast as Hp_id.
    exists (entry_of status P p
              (fold_left (fun e c => entry_of status P c e) pre' empty_entry)).
    split.
    + rewrite <- app_assoc. cbn [app].
      apply (stored_find_entry status P pre' p (c :: post) _ _ a
               (id :: ids_post) Hp_id).
      * cbn [thread_ids map]. rewrite Hid. f_equal. exact Hpost.
      * intros Hin. rewrite <- app_assoc in Hnd. cbn [app] in Hnd.
        apply NoDup_app_remove_l in Hnd. inversion Hnd; contradiction.
    + rewrite fold_left_snoc.
      apply (entry_of_untyped status P c _ H2 H1).
Qed.

(** X11.  A conversation that was recorded without a type cannot be
    dumped: its turn of the loop of [dump] raises [KeyError] for ["type"]
    when the first request is built, so that nothing is sent and nothing
    is written; with [to_stdout] the announcement comes first, and raises
    [KeyError] for ["name"] when the name is missing as well. *)
Theorem untyped_conversation_cannot_be_dumped :
  forall fuel self to_stdout c e w,
    hashable c = true ->
    dict_find c (convers self) = Some e ->
    ce_type e = None ->
    (to_stdout = true -> ce_name e = None ->
     dump_convers (S fuel) self to_stdout c w
     = (w, Exc (KeyError (JStr "name"))))
    /\ (to_stdout = false \/ (exists n, ce_name e = Some (JStr n)) ->
        dump_convers (S fuel) self to_stdout c w
        = (w, Exc (KeyError (JStr "type")))).
Proof.
  intros fuel self to_stdout c e w Hh Hfind Htype.
  assert (Hknown : dict_contains c (convers self) = Ok true).
  { unfold dict_contains. rewrite Hh, Hfind. reflexivity. }
  assert (Hget : dict_getitem (convers self) c = Ok e).
  { unfold dict_getitem. rewrite Hh, Hfind. reflexivity. }
  assert (Hcrawl : forall k : list json -> M world unit,
             bind (crawl_messages (S fuel) self c e [] 0 (JStr "0")
                     (JObj [("payload", JObj [])])) k w
             = (w, Exc (KeyError (JStr "type")))).
  { intros k. apply bind_exc. rewrite crawl_messages_eq.
    erewrite bind_lift_ok by reflexivity.
    erewrite bind_lift_ok by reflexivity. cbv beta iota.
    apply bind_lift_err. unfold entry_type. rewrite Htype. reflexivity. }
  split.
  - intros -> Hname. unfold dump_convers.
    rewrite (bind_lift_ok _ _ _ _ Hknown). cbn [negb].
    apply bind_exc. rewrite (bind_lift_ok _ _ _ _ Hget).
    apply bind_lift_err. unfold entry_name. rewrite Hname. reflexivity.
  - intros Hcase. unfold dump_convers.
    rewrite (bind_lift_ok _ _ _ _ Hknown). cbn [negb].
    destruct Hcase as [->|[n Hname]].
    + erewrite bind_ret by reflexivity.
      rewrite (bind_lift_ok _ _ _ _ Hget). apply Hcrawl.
    + destruct to_stdout.
      * erewrite bind_ret.
        2:{ rewrite (bind_lift_ok _ _ _ _ Hget).
            erewrite bind_lift_ok
              by (unfold entry_name; rewrite Hname; reflexivity).
            erewrite bind_lift_ok by reflexivity. reflexivity. }
        rewrite (bind_lift_ok _ _ _ _ Hget). apply Hcrawl.
      * erewrite bind_ret by reflexivity.
        rewrite (bind_lift_ok _ _ _ _ Hget). apply Hcrawl.
Qed.

(** X12.  The participants of a page are merged before its threads are
    read.  So a one-to-one thread is named after the participant record of
    its own page that carries the identifier of the other party, the last
    such record when there are several, whatever the directory said
    before the page. *)
Theorem direct_conversation_is_named_after_its_participant :
  forall status r st pre c post id ids_post parts_before p parts_after,
    is_listing r = true ->
    forallb participant_ok (participants_of r) = true ->
    forallb (thread_ok (merged (cs_participants st) (participants_of r)))
            (threads_of r) = true ->
    threads_of r = pre ++ c :: post ->
    field c "thread_fbid" = JStr id ->
    thread_ids post = map JStr ids_post ->
    ~ In id ids_post ->
    py_eq_int (field c "thread_type") 2 = false ->
    py_eq_int (field c "thread_type") 1 = true ->
    participants_of r = parts_before ++ p :: parts_after ->
    key_eqb (field c "other_user_fbid") (field p "fbid") = true ->
    forallb (fun q => negb (key_eqb (field c "other_user_fbid")
                                    (field q "fbid")))
            parts_after = true ->
    exists st' e,
      merge_page status r st = (st', Ret (JArr (threads_of r)))
      /\ dict_find (JStr id) (cs_convers st') = Some e
      /\ ce_type e = Some FBConversType.USER
      /\ ce_name e = Some (field p "name").
Proof.
  intros status r st pre c post id ids_post parts_before p parts_after
         Hl Hp Ht Hsplit Hid Hpost Hnot H2 H1 Hparts Hkey Hafter.
  pose proof (merge_page_accepts status r st Hl Hp Ht) as Hrun.
  assert (Hc : thread_ok (merged (cs_participants st) (participants_of r)) c
               = true).
  { rewrite forallb_forall in Ht. apply Ht. rewrite Hsplit.
    apply in_or_app. right. left. reflexivity. }
  set (P := merged (cs_participants st) (participants_of r)) in Hrun, Hc.
  assert (Hname : dict_getitem P (field c "other_user_fbid")
                  = Ok (field p "name")).
  { unfold dict_getitem.
    assert (Hfind : dict_find (field c "other_user_fbid") P
                    = Some (field p "name")).
    { unfold P. rewrite Hparts.
      apply merged_find_last; [exact Hkey | exact Hafter]. }
    rewrite Hfind.
    destruct (hashable (field c "other_user_fbid")) eqn:Hh; [reflexivity|].
    exfalso. unfold thread_ok in Hc. rewrite H2, H1 in Hc.
    unfold dict_getitem in Hc. rewrite Hh in Hc.
    rewrite !andb_false_r in Hc. cbn in Hc. discriminate Hc. }
  eexists. eexists. split; [exact Hrun|]. cbn [cs_convers].
  rewrite Hsplit.
  split; [apply (stored_find_entry status P pre c post _ _ id ids_post
                   Hid Hpost Hnot)|].
  unfold entry_of. rewrite H2, H1, Hname. split; reflexivity.
Qed.

(** ** The parser: the loop over the messages *)

Lemma common_checks_user_generated msg :
  has_key msg "action_type" = true ->
  common_checks msg = Ok (user_generated msg).
Proof.
  intros H. unfold common_checks, user_generated.
  rewrite (has_key_getitem _ _ H). reflexivity.
Qed.

Lemma bind_same_start {S A B} (m m' : M S A) (k : A -> M S B) s :
  m s = m' s -> bind m k s = bind m' k s.
Proof. intros H. unfold bind. rewrite H. reflexivity. Qed.

Lemma bind_same_rest {S A B} (m : M S A) (k k' : A -> M S B) s :
  (forall a s', k a s' = k' a s') -> bind m k s = bind m k' s.
Proof.
  intros H. unfold bind. destruct (m s) as [s' [a| e |]]; auto.
Qed.

(** X13.  [process_msgs] hands a message to the checks only when
    [common_checks] finds it written by a user: as long as every record
    carries its [action_type], the result is the one of processing the
    user-generated messages alone, whatever the other records hold.  A
    record without [action_type] stops the loop with its error, after the
    messages before it have been processed. *)
Theorem process_msgs_skips_what_no_user_wrote :
  forall fs msgs self,
    forallb (fun m => has_key m "action_type") msgs = true ->
    process_msgs fs msgs self
    = process_msgs fs (filter user_generated msgs) self
    /\ (forall bad rest e self',
           getitem bad "action_type" = Err e ->
           process_msgs fs msgs self = (self', Ret tt) ->
           process_msgs fs (msgs ++ bad :: rest) self = (self', Exc e)).
Proof.
  intros fs msgs self Hall. split.
  - revert self Hall. unfold process_msgs.
    set (body := fun msg : json =>
                   user_msg <- lift (common_checks msg) ;;
                   if (user_msg : bool) then for_each fs (fun f => f msg)
                   else ret tt).
    assert (Hbody : forall msg s,
               has_key msg "action_type" = true ->
               body msg s
               = (if user_generated msg then for_each fs (fun f => f msg)
                  else ret tt) s).
    { intros msg s H. unfold body.
      rewrite (bind_lift_ok _ _ _ _ (common_checks_user_generated msg H)).
      reflexivity. }
    induction msgs as [|msg msgs IH]; intros self Hall; [reflexivity|].
    cbn [forallb] in Hall. apply andb_prop in Hall.
    destruct Hall as [Hmsg Hrest].
    cbn [filter for_each].
    rewrite (bind_same_start _ _ _ _ (Hbody msg self Hmsg)).
    destruct (user_generated msg) eqn:Hu.
    + cbn [for_each].
      rewrite (bind_same_start (body msg) _ _ _ (Hbody msg self Hmsg)).
      rewrite Hu. apply bind_same_rest. intros _ s'. apply IH. exact Hrest.
    + unfold bind at 1. cbn [ret]. apply IH. exact Hrest.
  - intros bad rest e self' Hbad Hrun. unfold process_msgs in Hrun |- *.
    rewrite for_each_app. rewrite (bind_ret _ _ _ _ _ Hrun).
    cbn [for_each]. apply bind_exc. apply bind_lift_err.
    unfold common_checks. rewrite Hbad. reflexivity.
Qed.

(** *** Which checks [parse] selects *)





(** *** What the checks leave alone *)

Definition str_extends (a b : string) : Prop := exists suffix, b = a +++ suffix.

Lemma str_extends_refl a : str_extends a a.
Proof. exists "". symmetry. apply append_nil_r. Qed.

Lemma str_extends_app a line : str_extends a (a +++ line).
Proof. exists line. reflexivity. Qed.

Lemma str_extends_trans a b c :
  str_extends a b -> str_extends b c -> str_extends a c.
Proof.
  intros [x ->] [y ->]. exists (x +++ y). apply append_assoc.
Qed.

(** The settings of the parser stay as they are. *)
Definition same_setup (s s' : FBParser) : Prop :=
  mode s' = mode s /\ data s' = data s
  /\ output_convers s' = output_convers s
  /\ parser_participants s' = parser_participants s.

(** The six reports are only appended to, and no counter goes down. *)
Definition reports_grow (s s' : FBParser) : Prop :=
  (str_extends (msgs s) (msgs s') /\ str_extends (pics s) (pics s')
   /\ str_extends (gifs s) (gifs s') /\ str_extends (videos s) (videos s')
   /\ str_extends (files s) (files s') /\ str_extends (links s) (links s'))
  /\ (cnt_msgs s <= cnt_msgs s' /\ cnt_pics s <= cnt_pics s'
      /\ cnt_gifs s <= cnt_gifs s' /\ cnt_videos s <= cnt_videos s'
      /\ cnt_files s <= cnt_files s' /\ cnt_links s <= cnt_links s').

(** A download request as a media check submits it from the folder [o]:
    the URL is the one kept under the future, and the file goes into the
    folder of one of the four kinds, under a name taken from the
    attachment. *)
Definition submitted_from (o : string) (x : download * json) : Prop :=
  fst (fst x) = snd x
  /\ exists folder name,
      In folder media_folders
      /\ snd (fst x) = (o +++ FBDataTypes.value folder +++ os_sep) +++ name.

(** The download requests are only added to, and only when files are
    downloaded. *)
Definition downloads_grow (m : FBParserMode.t) (o : string)
  (s s' : FBParser) : Prop :=
  exists added,
    futures s' = futures s ++ added
    /\ (m = FBParserMode.REPORT -> added = [])
    /\ Forall (submitted_from o) added.

Definition parser_grows (m : FBParserMode.t) (o : string) (s s' : FBParser)
  : Prop :=
  mode s = m -> output_convers s = o ->
  same_setup s s' /\ reports_grow s s' /\ downloads_grow m o s s'.

Lemma same_setup_refl s : same_setup s s.
Proof. repeat split. Qed.

Lemma reports_grow_refl s : reports_grow s s.
Proof. repeat split; try apply str_extends_refl; apply Z.le_refl. Qed.

Lemma downloads_grow_refl m o s : downloads_grow m o s s.
Proof.
  exists []. rewrite app_nil_r. split; [reflexivity|]. split; [auto|constructor].
Qed.

Lemma parser_grows_refl m o : reflexive_on (parser_grows m o).
Proof.
  intros s _ _.
  split; [apply same_setup_refl|].
  split; [apply reports_grow_refl | apply downloads_grow_refl].
Qed.

Lemma parser_grows_trans m o : transitive_on (parser_grows m o).
Proof.
  intros a b c Hab Hbc Hm Ho.
  destruct (Hab Hm Ho) as (Hs1 & Hr1 & Hd1).
  assert (Hmb : mode b = m) by (destruct Hs1 as [H _]; congruence).
  assert (Hob : output_convers b = o)
    by (destruct Hs1 as (_ & _ & H & _); congruence).
  destruct (Hbc Hmb Hob) as (Hs2 & Hr2 & Hd2).
  split; [|split].
  - destruct Hs1 as (A1 & A2 & A3 & A4), Hs2 as (B1 & B2 & B3 & B4).
    repeat split; congruence.
  - destruct Hr1 as [(A1 & A2 & A3 & A4 & A5 & A6) (C1 & C2 & C3 & C4 & C5 & C6)].
    destruct Hr2 as [(B1 & B2 & B3 & B4 & B5 & B6) (D1 & D2 & D3 & D4 & D5 & D6)].
    split; repeat split;
      first [ eapply str_extends_trans; eassumption
            | eapply Z.le_trans; eassumption ].
  - destruct Hd1 as (x & Hx & Hxr & Hxs), Hd2 as (y & Hy & Hyr & Hys).
    exists (x ++ y). split; [rewrite Hy, Hx, app_assoc; reflexivity|].
    split; [|apply Forall_app; auto].
    intros Hrep. rewrite (Hxr Hrep), (Hyr Hrep). reflexivity.
Qed.

(** A step that writes one report or one counter. *)
Ltac grows_report :=
  intros ? ?;
  split; [unfold same_setup; cbn; repeat split; reflexivity|];
  split;
    [ unfold reports_grow; cbn; split; repeat split;
        first [ apply str_extends_refl | apply str_extends_app | lia ]
    | exists []; cbn; rewrite app_nil_r;
        split; [reflexivity|]; split; [auto|constructor] ].

Lemma grows_set_msgs m o line s :
  parser_grows m o s (set_msgs (msgs s +++ line) s).
Proof. grows_report. Qed.

Lemma grows_set_pics m o line s :
  parser_grows m o s (set_pics (pics s +++ line) s).
Proof. grows_report. Qed.

Lemma grows_set_gifs m o line s :
  parser_grows m o s (set_gifs (gifs s +++ line) s).
Proof. grows_report. Qed.

Lemma grows_set_videos m o line s :
  parser_grows m o s (set_videos (videos s +++ line) s).
Proof. grows_report. Qed.

Lemma grows_set_files m o line s :
  parser_grows m o s (set_files (files s +++ line) s).
Proof. grows_report. Qed.

Lemma grows_set_links m o line s :
  parser_grows m o s (set_links (links s +++ line) s).
Proof. grows_report. Qed.

Lemma grows_set_cnt_msgs m o s :
  parser_grows m o s (set_cnt_msgs (cnt_msgs s + 1) s).
Proof. grows_report. Qed.

Lemma grows_set_cnt_pics m o s :
  parser_grows m o s (set_cnt_pics (cnt_pics s + 1) s).
Proof. grows_report. Qed.

Lemma grows_set_cnt_gifs m o s :
  parser_grows m o s (set_cnt_gifs (cnt_gifs s + 1) s).
Proof. grows_report. Qed.

Lemma grows_set_cnt_videos m o s :
  parser_grows m o s (set_cnt_videos (cnt_videos s + 1) s).
Proof. grows_report. Qed.

Lemma grows_set_cnt_files m o s :
  parser_grows m o s (set_cnt_files (cnt_files s + 1) s).
Proof. grows_report. Qed.

Lemma grows_set_cnt_links m o s :
  parser_grows m o s (set_cnt_links (cnt_links s + 1) s).
Proof. grows_report. Qed.

Lemma grows_submit o folder url name s :
  In folder media_folders ->
  parser_grows FBParserMode.DL o s
    (set_futures
       (futures s
        ++ [((url, (o +++ FBDataTypes.value folder +++ os_sep) +++ name), url)])
       s).
Proof.
  intros Hin _ _.
  split; [unfold same_setup; cbn; repeat split; reflexivity|].
  split;
    [unfold reports_grow; cbn; split; repeat split;
       first [apply str_extends_refl | lia]|].
  eexists. cbn [futures set_futures]. split; [reflexivity|].
  split; [discriminate|].
  constructor; [|constructor].
  split; [reflexivity|]. exists folder, name. split; [exact Hin|reflexivity].
Qed.

Create HintDb grows.

#[local] Hint Resolve grows_set_msgs grows_set_pics grows_set_gifs
  grows_set_videos grows_set_files grows_set_links grows_set_cnt_msgs
  grows_set_cnt_pics grows_set_cnt_gifs grows_set_cnt_videos
  grows_set_cnt_files grows_set_cnt_links : grows.

Ltac grows_steps Hr Ht :=
  repeat first
    [ apply respects_ret; exact Hr
    | apply respects_raise; exact Hr
    | apply respects_lift; exact Hr
    | apply respects_get; exact Hr
    | apply respects_modify; intros ?; solve [auto with grows]
    | apply respects_for_each; [exact Hr | exact Ht | intros ? _]
    | apply respects_bind; [exact Ht | | intros ?]
    | match goal with
      | |- respects _ (if ?b then _ else _) => destruct b
      | |- respects _ (match ?x with _ => _ end) => destruct x
      end ].

Lemma check_and_get_msg_grows m o msg :
  respects (parser_grows m o) (check_and_get_msg msg).
Proof.
  pose proof (parser_grows_refl m o) as Hr.
  pose proof (parser_grows_trans m o) as Ht.
  unfold check_and_get_msg. grows_steps Hr Ht.
Qed.

Lemma respects_bind_lift {S A B} (R : S -> S -> Prop) (r : result A)
  (k : A -> M S B) :
  reflexive_on R ->
  (forall a, r = Ok a -> respects R (k a)) -> respects R (bind (lift r) k).
Proof.
  intros Hr Hk s s' o H. destruct r as [a|e].
  - apply (Hk a eq_refl s s' o). exact H.
  - inversion H; subst. apply Hr.
Qed.

Lemma media_step_grows m o kind url_key folder add_line incr attachment :
  In folder media_folders ->
  (forall line s, parser_grows m o s (add_line line s)) ->
  (forall s, parser_grows m o s (incr s)) ->
  respects (parser_grows m o)
           (media_step kind url_key folder add_line incr attachment).
Proof.
  intros Hfolder Hadd Hincr.
  pose proof (parser_grows_refl m o) as Hr.
  pose proof (parser_grows_trans m o) as Ht.
  unfold media_step.
  apply respects_bind; [exact Ht | apply respects_lift, Hr | intros ty].
  destruct (py_eq_str ty kind); [|apply respects_ret, Hr].
  apply respects_bind; [exact Ht | apply respects_lift, Hr | intros url].
  destruct (negb (is_none url)); [|apply respects_ret, Hr].
  apply respects_bind_get. intros s s' out Hrun Hm Ho.
  cbv beta in Hrun.
  match type of Hrun with
  | ?body s = _ => assert (Hk : respects (parser_grows m o) body)
  end.
  { rewrite Hm, Ho. destruct m; cbn [FBParserMode.eqb orb].
    - grows_steps Hr Ht.
    - apply respects_bind; [exact Ht | grows_steps Hr Ht | intros _].
      apply respects_bind; [exact Ht | | intros _; grows_steps Hr Ht].
      apply respects_bind; [exact Ht | apply respects_lift, Hr | intros name].
      apply respects_bind_lift; [exact Hr|]. intros dl_path Hpath.
      destruct name; try discriminate Hpath. cbn in Hpath.
      inversion Hpath; subst dl_path.
      apply respects_modify. intros s1. apply grows_submit. exact Hfolder. }
  exact (Hk s s' out Hrun Hm Ho).
Qed.

Lemma check_media_grows m o kind url_key folder add_line incr msg :
  In folder media_folders ->
  (forall line s, parser_grows m o s (add_line line s)) ->
  (forall s, parser_grows m o s (incr s)) ->
  respects (parser_grows m o)
           (check_media kind url_key folder add_line incr msg).
Proof.
  intros Hfolder Hadd Hincr.
  pose proof (parser_grows_refl m o) as Hr.
  pose proof (parser_grows_trans m o) as Ht.
  unfold check_media.
  apply respects_bind; [exact Ht | apply respects_lift, Hr | intros atts].
  apply respects_bind; [exact Ht | apply respects_lift, Hr | intros l].
  apply respects_for_each; [exact Hr | exact Ht |].
  intros a _. apply media_step_grows; assumption.
Qed.

Lemma check_and_get_links_grows m o msg :
  respects (parser_grows m o) (check_and_get_links msg).
Proof.
  pose proof (parser_grows_refl m o) as Hr.
  pose proof (parser_grows_trans m o) as Ht.
  unfold check_and_get_links, share_step, range_step, add_link,
    incr_cnt_links.
  grows_steps Hr Ht.
Qed.

(** Every check that [parse] can select. *)
Lemma selected_check_grows m o data f msg :
  In f (functions data) -> respects (parser_grows m o) (f msg).
Proof.
  pose proof (parser_grows_refl m o) as Hr.
  pose proof (parser_grows_trans m o) as Ht.
  assert (Hmsg : respects (parser_grows m o) (check_and_get_msg msg))
    by apply check_and_get_msg_grows.
  assert (Hpics : respects (parser_grows m o) (check_and_get_pics msg)).
  { apply check_media_grows; [cbn; auto | intros; auto with grows..]. }
  assert (Hgifs : respects (parser_grows m o) (check_and_get_gifs msg)).
  { apply check_media_grows; [cbn; auto | intros; auto with grows..]. }
  assert (Hvideos : respects (parser_grows m o) (check_and_get_videos msg)).
  { apply check_media_grows; [cbn; auto | intros; auto with grows..]. }
  assert (Hfiles : respects (parser_grows m o) (check_and_get_files msg)).
  { apply check_media_grows; [cbn; auto 6 | intros; auto with grows..]. }
  assert (Hlinks : respects (parser_grows m o)
                            (check_and_get_links msg ;; ret tt)).
  { apply respects_bind;
      [exact Ht | apply check_and_get_links_grows | intros _].
    apply respects_ret, Hr. }
  unfold functions.
  repeat match goal with
         | |- context [if ?b then _ else _] => destruct b
         end;
    cbn [app In]; intros Hin;
    repeat (destruct Hin as [<-|Hin]; [assumption|]); destruct Hin.
Qed.

Lemma process_msgs_grows m o data msgs :
  respects (parser_grows m o) (process_msgs (functions data) msgs).
Proof.
  pose proof (parser_grows_refl m o) as Hr.
  pose proof (parser_grows_trans m o) as Ht.
  unfold process_msgs.
  apply respects_for_each; [exact Hr | exact Ht | intros msg _].
  apply respects_bind; [exact Ht | apply respects_lift, Hr | intros user_msg].
  destruct user_msg; [|apply respects_ret, Hr].
  apply respects_for_each; [exact Hr | exact Ht | intros f Hf].
  apply (selected_check_grows m o data f msg Hf).
Qed.

(** X15.  Whatever the messages hold, and whether or not a check fails on
    one of them, processing them leaves the mode, the categories, the
    folder of the conversation and the participant directory as they
    were, and only adds to the download requests.  In [REPORT] mode none
    is added.  Each request that is added keeps under its future the URL
    it downloads, and saves it in the folder of the conversation, in the
    folder of pictures, gifs, videos or files, under the name of the
    attachment. *)
Theorem processing_only_submits_downloads_in_dl_mode :
  forall data msgs self,
    let self' := fst (process_msgs (functions data) msgs self) in
    same_setup self self'
    /\ exists added,
        futures self' = futures self ++ added
        /\ (mode self = FBParserMode.REPORT -> added = [])
        /\ Forall (submitted_from (output_convers self)) added.
Proof.
  intros data msgs self self'.
  destruct (process_msgs (functions data) msgs self) as [s' out] eqn:Hrun.
  destruct (process_msgs_grows (mode self) (output_convers self) data msgs
              _ _ _ Hrun eq_refl eq_refl) as (Hsetup & _ & Hdl).
  subst self'. cbn [fst]. split; [exact Hsetup | exact Hdl].
Qed.

(** X16.  Whatever the messages hold, and whether or not a check fails on
    one of them, each of the six reports after processing is the report
    before it with text appended, and no counter has gone down. *)
Theorem processing_only_appends_to_the_reports :
  forall data msgs self,
    reports_grow self (fst (process_msgs (functions data) msgs self)).
Proof.
  intros data msgs self.
  destruct (process_msgs (functions data) msgs self) as [s' out] eqn:Hrun.
  destruct (process_msgs_grows (mode self) (output_convers self) data msgs
              _ _ _ Hrun eq_refl eq_refl) as (_ & Hrep & _).
  exact Hrep.
Qed.

(** *** The attachments of a message line *)

Lemma drop_last_app a b :
  b <> "" -> drop_last (a +++ b) = a +++ drop_last b.
Proof.
  intros Hb. induction a as [|c a IH]; [reflexivity|].
  cbn [String.append]. cbn [drop_last]. rewrite IH.
  destruct (a +++ b) eqn:Hab; [|reflexivity].
  destruct a; cbn in Hab; [contradiction | discriminate Hab].
Qed.

Lemma names_of_plain atts :
  names_of atts = map (fun n => n +++ " ") (plain_names atts).
Proof. unfold names_of, plain_names. rewrite map_map. reflexivity. Qed.

Lemma spaced_names_joined l :
  drop_last (String.concat "" (map (fun n => n +++ " ") l))
  = String.concat " " l.
Proof.
  induction l as [|x l IH]; [reflexivity|].
  destruct l as [|y l].
  - cbn [map String.concat]. rewrite drop_last_app by discriminate.
    apply append_nil_r.
  - change (String.concat "" (map (fun n => n +++ " ") (x :: y :: l)))
      with ((x +++ " ") +++ ""
            +++ String.concat "" (map (fun n => n +++ " ") (y :: l))).
    change (String.concat " " (x :: y :: l))
      with (x +++ " " +++ String.concat " " (y :: l)).
    rewrite <- IH. cbn [String.append].
    rewrite append_assoc. rewrite !drop_last_app.
    + reflexivity.
    + cbn [map String.concat]. destruct l; destruct y; discriminate.
    + destruct (String.concat "" (map (fun n => n +++ " ") (y :: l))) eqn:Hc;
        [|discriminate].
      cbn [map String.concat] in Hc. destruct l; destruct y; discriminate Hc.
Qed.

(** X17.  In the line of a message the attachments are the names of its
    attachments that are not of the kind [error], in their order and
    separated by single spaces: the space that the code puts after every
    name is cut off after the last one, and nothing is cut off when there
    is no name. *)
Theorem message_line_joins_the_attachment_names :
  forall self msg atts author body t date,
    getitem msg "attachments" = Ok (JArr atts) ->
    forallb attachment_named atts = true ->
    getitem msg "author" = Ok (JStr author) ->
    getitem msg "body" = Ok body ->
    getitem msg "timestamp" = Ok t ->
    format_date t = Ok date ->
    exists self',
      check_and_get_msg msg self = (self', Ret tt)
      /\ msgs self'
         = msgs self
           +++ message_fmt (py_repr body)
                 (String.concat " " (plain_names atts))
                 (username_of self (string_drop 5 author))
                 (string_drop 5 author) date.
Proof.
  intros self msg atts author body t date Hatts Hnamed Hauthor Hbody Ht Hdate.
  eexists. split.
  - apply (check_and_get_msg_accepts self msg atts author body t date);
      assumption.
  - cbn [msgs set_cnt_msgs set_msgs].
    rewrite names_of_plain, spaced_names_joined. reflexivity.
Qed.

(** ** lib.py: the formatting functions *)

Lemma length_append_sum a b :
  String.length (a +++ b) = (String.length a + String.length b)%nat.
Proof. induction a as [|c a IH]; cbn; [reflexivity | rewrite IH; reflexivity]. Qed.

Lemma substring_append a b : substring 0 (String.length a) (a +++ b) = a.
Proof.
  induction a as [|c a IH]; cbn.
  - destruct b; reflexivity.
  - rewrite IH. reflexivity.
Qed.

Lemma drop_last_n_app a b : drop_last_n (String.length b) (a +++ b) = a.
Proof.
  unfold drop_last_n. rewrite length_append_sum.
  replace (String.length a + String.length b - String.length b)%nat
    with (String.length a) by lia.
  apply substring_append.
Qed.

Lemma concat_with_trailing sep x l :
  String.concat "" (map (fun n => n +++ sep) (x :: l))
  = String.concat sep (x :: l) +++ sep.
Proof.
  revert x. induction l as [|y l IH]; intros x.
  - reflexivity.
  - change (String.concat "" (map (fun n => n +++ sep) (x :: y :: l)))
      with ((x +++ sep) +++ ""
            +++ String.concat "" (map (fun n => n +++ sep) (y :: l))).
    change (String.concat sep (x :: y :: l))
      with (x +++ sep +++ String.concat sep (y :: l)).
    rewrite IH. cbn [String.append]. rewrite !append_assoc. reflexivity.
Qed.

(** Cutting the last separator off: the items are joined. *)
Lemma joined_by sep l :
  drop_last_n (String.length sep)
              (String.concat "" (map (fun n => n +++ sep) l))
  = String.concat sep l.
Proof.
  destruct l as [|x l]; [reflexivity|].
  rewrite concat_with_trailing. apply drop_last_n_app.
Qed.

Lemma fold_left_append {E} (g : E -> string) l :
  forall acc,
    fold_left (fun formatted e => formatted +++ g e) l acc
    = acc +++ String.concat "" (map g l).
Proof.
  induction l as [|x l IH]; intros acc; cbn [fold_left map].
  - symmetry. apply append_nil_r.
  - rewrite IH. destruct l as [|y l].
    + cbn. rewrite append_nil_r. reflexivity.
    + change (String.concat "" (g x :: map g (y :: l)))
        with (g x +++ "" +++ String.concat "" (map g (y :: l))).
      cbn [String.append]. apply append_assoc.
Qed.

(** X18.  [build_fmt_str_from_enum] shows the values in lower case, each
    between quotes, separated by a comma and a space, between brackets.
    The two characters that it cuts off before the closing bracket are
    the last separator when there is a value, and the opening bracket when
    there is none: the empty list gives a lone closing bracket. *)
Theorem enum_values_are_listed_between_brackets :
  forall (E : Type) (value : E -> string) (enums : list E),
    build_fmt_str_from_enum value enums
    = match enums with
      | [] => "]"
      | _ :: _ =>
          "[" +++ String.concat ", "
                    (map (fun e => "'" +++ py_lower (value e) +++ "'") enums)
              +++ "]"
      end.
Proof.
  intros E value enums. unfold build_fmt_str_from_enum.
  rewrite fold_left_append.
  destruct enums as [|e enums]; [reflexivity|].
  set (quoted := fun e0 : E => "'" +++ py_lower (value e0) +++ "'").
  replace (map (fun e0 => ("'" +++ py_lower (value e0)) +++ "', ") (e :: enums))
    with (map (fun n => n +++ ", ") (quoted e :: map quoted enums)).
  2:{ change (quoted e :: map quoted enums) with (map quoted (e :: enums)).
      rewrite map_map. apply map_ext. intros a. unfold quoted.
      rewrite !append_assoc. reflexivity. }
  rewrite concat_with_trailing.
  change (map quoted (e :: enums)) with (quoted e :: map quoted enums).
  rewrite <- append_assoc with (a := "[").
  rewrite drop_last_n_app. apply append_assoc.
Qed.

(** ** parser.py: the identifier of a dumped conversation *)


(** ** lib.py: the metadata of the conversations *)

Lemma user_names_known participants us names :
  Forall2 (fun u name =>
             exists w, u = JStr w
                       /\ dict_find (JStr (string_drop 5 w)) participants
                          = Some (JStr name)) us names ->
  user_names participants us = Ok (map (fun n => n +++ " | ") names).
Proof.
  induction 1 as [|u name us names (w & -> & Hw) _ IH]; [reflexivity|].
  cbn [user_names slice_from_5 and_then].
  unfold dict_getitem. cbn [hashable]. rewrite Hw. cbn [and_then add_str].
  rewrite IH. reflexivity.
Qed.

Lemma user_names_unknown participants before u after :
  (forall v, In v before ->
             exists w name,
               v = JStr w
               /\ dict_find (JStr (string_drop 5 w)) participants
                  = Some (JStr name)) ->
  dict_find (JStr (string_drop 5 u)) participants = None ->
  user_names participants (before ++ JStr u :: after)
  = Err (KeyError (JStr (string_drop 5 u))).
Proof.
  intros Hbefore Hu. induction before as [|v before IH].
  - cbn [app user_names slice_from_5 and_then].
    unfold dict_getitem. cbn [hashable]. rewrite Hu. reflexivity.
  - destruct (Hbefore v (or_introl eq_refl)) as (w & name & -> & Hw).
    cbn [app user_names slice_from_5 and_then].
    unfold dict_getitem. cbn [hashable]. rewrite Hw. cbn [and_then add_str].
    rewrite IH; [reflexivity|].
    intros v Hv. apply Hbefore. right. exact Hv.
Qed.

Lemma format_lines_fails convers participants keys :
  forall acc c e,
    In c keys ->
    format_convers convers participants c = Err e ->
    exists e', format_lines convers participants keys acc = Err e'.
Proof.
  induction keys as [|k keys IH]; intros acc c e Hin Hc; [destruct Hin|].
  cbn [format_lines].
  destruct (format_convers convers participants k) as [line|e1] eqn:Hk;
    cbn [and_then].
  - destruct Hin as [->|Hin]; [congruence|].
    apply (IH _ c e Hin Hc).
  - exists e1. reflexivity.
Qed.

Lemma format_lines_succeeds convers participants keys lines :
  Forall2 (fun c line => format_convers convers participants c = Ok line)
          keys lines ->
  forall acc,
    format_lines convers participants keys acc
    = Ok (acc +++ String.concat "" lines).
Proof.
  induction 1 as [|c line keys lines Hc _ IH]; intros acc.
  - cbn. rewrite append_nil_r. reflexivity.
  - cbn [format_lines]. rewrite Hc. cbn [and_then]. rewrite IH.
    destruct lines as [|l2 lines].
    + cbn. rewrite !append_nil_r. reflexivity.
    + change (String.concat "" (line :: l2 :: lines))
        with (line +++ "" +++ String.concat "" (l2 :: lines)).
      cbn [String.append]. rewrite append_assoc. reflexivity.
Qed.

(** X20.  [format_convers_metadata] looks every participant of a
    conversation up in the directory without a test: one participant that
    the directory does not hold raises [KeyError] for its identifier, the
    text after the first 5 characters, and then the function gives no
    text at all, whatever the other conversations are. *)
Theorem metadata_needs_every_participant_in_the_directory :
  forall convers participants c e before u after,
    dict_getitem convers c = Ok e ->
    ce_participants e = Some (JArr (before ++ JStr u :: after)) ->
    (forall v, In v before ->
               exists w name,
                 v = JStr w
                 /\ dict_find (JStr (string_drop 5 w)) participants
                    = Some (JStr name)) ->
    dict_find (JStr (string_drop 5 u)) participants = None ->
    format_convers convers participants c
    = Err (KeyError (JStr (string_drop 5 u)))
    /\ (In c (dict_keys convers) ->
        exists e', format_convers_metadata convers participants = Err e').
Proof.
  intros convers participants c e before u after Hc Hparts Hbefore Hu.
  assert (Hone : format_convers convers participants c
                 = Err (KeyError (JStr (string_drop 5 u)))).
  { unfold format_convers. rewrite Hc. cbn [and_then].
    rewrite Hparts. cbn [entry_field and_then py_iter].
    rewrite (user_names_unknown participants before u after Hbefore Hu).
    reflexivity. }
  split; [exact Hone|].
  intros Hin. unfold format_convers_metadata.
  destruct (format_lines_fails convers participants (dict_keys convers) ""
              c _ Hin Hone) as [e' He'].
  exists e'. rewrite He'. reflexivity.
Qed.

(** X21.  When every conversation of the index can be formatted, the
    metadata are the lines of the conversations in the order of the
    index, put end to end and stripped at the end.  The line of a
    conversation whose participants are all in the directory shows their
    names separated by [" | "], the separator cut off after the last. *)
Theorem metadata_lines_follow_the_index :
  forall convers participants,
    (forall lines,
        Forall2 (fun c line => format_convers convers participants c = Ok line)
                (dict_keys convers) lines ->
        format_convers_metadata convers participants
        = Ok (py_rstrip (String.concat "" lines)))
    /\ (forall c e us names t n date name type status,
           dict_getitem convers c = Ok e ->
           ce_participants e = Some (JArr us) ->
           Forall2 (fun u shown =>
                      exists w, u = JStr w
                                /\ dict_find (JStr (string_drop 5 w))
                                             participants
                                   = Some (JStr shown)) us names ->
           ce_last_message_timestamp e = Some t ->
           as_number t = Ok n ->
           format_timestamp n = Ok date ->
           ce_name e = Some name ->
           ce_type e = Some type ->
           ce_status e = Some status ->
           format_convers convers participants c
           = Ok (metadata_fmt (py_str c) (py_str name) date
                              (FBConversType.value type) status
                              (String.concat " | " names))).
Proof.
  intros convers participants. split.
  - intros lines Hlines. unfold format_convers_metadata.
    rewrite (format_lines_succeeds _ _ _ _ Hlines ""). reflexivity.
  - intros c e us names t n date name type status
           Hc Hparts Hus Ht Hn Hdate Hname Htype Hstatus.
    unfold format_convers. rewrite Hc. cbn [and_then].
    rewrite Hparts. cbn [entry_field and_then py_iter].
    rewrite (user_names_known participants us names Hus). cbn [and_then].
    rewrite Ht. cbn [entry_field and_then]. rewrite Hn. cbn [and_then].
    unfold entry_name. rewrite Hname. cbn [and_then].
    rewrite Hdate. cbn [and_then].
    unfold entry_type. rewrite Htype. cbn [and_then].
    rewrite Hstatus. cbn [entry_field and_then].
    rewrite (joined_by " | " names). reflexivity.
Qed.

(** ** __main__.py: the dumper tool *)


Lemma respects_weaken {S A} (R R' : S -> S -> Prop) (m : M S A) :
  (forall s s', R s s' -> R' s s') -> respects R m -> respects R' m.
Proof. intros Hw Hm s s' o H. apply Hw. exact (Hm _ _ _ H). Qed.

(** The log has grown by requests for the conversation list. *)
Definition asked_listings (lg lg' : list request) : Prop :=
  exists reqs,
    lg' = lg ++ reqs
    /\ Forall (fun rq => req_url rq = _url_convers_list) reqs.

Lemma asked_listings_refl : reflexive_on asked_listings.
Proof. intros lg. exists []. rewrite app_nil_r. split; constructor. Qed.

Lemma asked_listings_trans : transitive_on asked_listings.
Proof.
  intros a b c [r1 [-> H1]] [r2 [-> H2]]. exists (r1 ++ r2).
  rewrite app_assoc. split; [reflexivity | apply Forall_app; auto].
Qed.

Lemma get_all_convers_metadata_asks_listings fuel hdrs pdata :
  respects asked_listings (get_all_convers_metadata fuel hdrs pdata).
Proof.
  intros lg lg' o H. unfold get_all_convers_metadata in H.
  assert (Hboth : respects (listing_sent hdrs)
            (crawl_status fuel hdrs pdata Inbox 0 ;;
             crawl_status fuel hdrs pdata Archived 0)).
  { apply respects_bind; [apply listing_sent_trans | |intros _];
      apply crawl_status_sent. }
  destruct ((crawl_status fuel hdrs pdata Inbox 0 ;;
             crawl_status fuel hdrs pdata Archived 0)
              {| cs_log := lg; cs_convers := []; cs_participants := [] |})
    as [st [[]| e |]] eqn:Hrun;
    destruct (Hboth _ _ _ Hrun) as [reqs [Hlog Hall]];
    inversion H; subst; exists reqs; cbn [cs_log] in Hlog;
    (split; [exact Hlog|]);
    (eapply Forall_impl; [|exact Hall]); intros rq [Hurl _]; exact Hurl.
Qed.

Lemma FBDumper_init_asks_listings fuel ids raw infile chunk delay out :
  respects asked_listings (FBDumper_init fuel ids raw infile chunk delay out).
Proof.
  pose proof asked_listings_refl as Hr.
  pose proof asked_listings_trans as Ht.
  unfold FBDumper_init.
  apply respects_bind; [exact Ht | respects_steps Hr Ht | intros raw'].
  destruct (chunk <=? 0); [apply respects_raise, Hr|].
  destruct (delay <? 0); [apply respects_raise, Hr|].
  apply respects_bind; [exact Ht | apply respects_lift, Hr | intros hp].
  apply respects_bind;
    [exact Ht | apply get_all_convers_metadata_asks_listings | intros cp].
  apply respects_ret, Hr.
Qed.





(** X23.  An error that Facebook reports is fatal for the dumper tool
    while the constructor crawls the conversation list, and is not while
    the conversations are dumped: the tool then returns 0 with what was
    sent and written so far.  A [KeyError] makes the tool return 1
    wherever it was raised; every other exception of the constructor or
    of [dump] leaves the tool as it is. *)
Theorem dumper_tool_outlives_an_error_report_of_dump :
  forall fuel args w,
    let init :=
      FBDumper_init fuel (a_convers_id args) (Some (a_cookie args)) None
                    (a_size args) (a_timer args) (a_output args) (w_log w) in
    let after lg := {| w_log := lg; w_files := w_files w |} in
    let run := main_with (dumper_tool_main fuel args) w in
    (forall lg e,
        init = (lg, Exc e) ->
        run = (after lg, match e with
                         | KeyError _ => Ret 1
                         | _ => Exc e
                         end))
    /\ (forall lg self w' o,
           init = (lg, Ret self) ->
           a_metadata args = false ->
           dump fuel self true (after lg) = (w', o) ->
           run = (w', match o with
                      | Ret _ => Ret 0
                      | Exc (FBResponseError _) => Ret 0
                      | Exc (KeyError _) => Ret 1
                      | Exc e => Exc e
                      | OutOfFuel => OutOfFuel
                      end)).
Proof.
  intros fuel args w init after run. subst run init. split.
  - intros lg e Hinit.
    assert (Htool : dumper_tool_main fuel args w = (after lg, Exc e)).
    { unfold dumper_tool_main. apply bind_exc. unfold with_world_log.
      rewrite Hinit. reflexivity. }
    unfold main_with, try_except. rewrite Htool. destruct e; reflexivity.
  - intros lg self w' o Hinit Hmeta Hdump.
    assert (Hstart : with_world_log
                       (FBDumper_init fuel (a_convers_id args)
                          (Some (a_cookie args)) None (a_size args)
                          (a_timer args) (a_output args)) w
                     = (after lg, Ret self)).
    { unfold with_world_log. rewrite Hinit. reflexivity. }
    unfold main_with, try_except, dumper_tool_main.
    rewrite (bind_ret _ _ _ _ _ Hstart). rewrite Hmeta.
    unfold bind, try_except. rewrite Hdump.
    destruct o as [[]| e |]; [reflexivity | destruct e; reflexivity
                             | reflexivity].
Qed.

(** X24.  What the argument parser accepts and the constructor refuses:
    a size of 0 passes [check_positive_int], and an empty cookie file is
    read without complaint; with either the tool ends with the
    [ValueError] of the constructor, which [main] does not catch, before
    any request is sent. *)
Theorem size_zero_passes_the_parser_and_stops_the_tool :
  forall fuel args w,
    check_positive_int 0 = Some 0
    /\ (a_cookie args = "" \/ a_size args = 0 ->
        main_with (dumper_tool_main fuel args) w = (w, Exc ValueError)).
Proof.
  intros fuel args w. split; [reflexivity|]. intros Hcase.
  assert (Hinit : FBDumper_init fuel (a_convers_id args)
                    (Some (a_cookie args)) None (a_size args) (a_timer args)
                    (a_output args) (w_log w)
                  = (w_log w, Exc ValueError)).
  { unfold FBDumper_init.
    destruct (a_cookie args) as [|c rest] eqn:Hcookie.
    - reflexivity.
    - destruct Hcase as [Hc|Hsize]; [discriminate Hc|].
      cbn [truthy xorb]. erewrite bind_ret by reflexivity.
      rewrite Hsize. reflexivity. }
  assert (Htool : dumper_tool_main fuel args w = (w, Exc ValueError)).
  { unfold dumper_tool_main. apply bind_exc. unfold with_world_log.
    rewrite Hinit. destruct w; reflexivity. }
  unfold main_with, try_except. rewrite Htool. reflexivity.
Qed.

(** ** parser.py: the parser object and [parse] *)

(** X25.  A parser built from messages given in memory cannot parse
    them: [__init__] leaves [infile_json] unset, and [parse] reads that
    attribute before anything else but the choice of the checks.  It
    raises [AttributeError], or [TypeError] when [data] was left at its
    default, which is not a list; nothing is printed, read or written. *)
Theorem parse_cannot_use_messages_given_in_memory :
  forall fuel raw j infile_json mode data threads out lg lg' self,
    FBParser_init fuel raw (Some j) infile_json mode data threads out lg
    = (lg', Ret self) ->
    json_truthy j = true ->
    p_json_msgs self = Some j
    /\ p_infile_json self = None
    /\ forall to_stdout verbose schedule printed reports,
        let ps := {| ps_self := self; ps_stdout := printed;
                     ps_reports := reports |} in
        parse to_stdout verbose schedule ps
        = (ps, Exc (match data with
                    | None => TypeError
                    | Some _ => AttributeError
                    end)).
Proof.
  intros fuel raw j infile_json mode data threads out lg lg' self Hinit Hj.
  unfold FBParser_init in Hinit. rewrite Hj in Hinit.
  destruct (xorb true _); [|discriminate Hinit].
  cbv zeta in Hinit.
  apply bind_returns in Hinit. destruct Hinit as (lg0 & u & _ & Hinit).
  destruct (threads <=? 0); [discriminate Hinit|].
  apply bind_returns in Hinit. destruct Hinit as (lg1 & d & _ & Hret).
  inversion Hret; subst. cbn [p_json_msgs p_infile_json].
  split; [reflexivity|]. split; [reflexivity|].
  intros to_stdout verbose schedule printed reports.
  unfold parse. rewrite bind_get. cbn [ps_self p_data p_infile_json].
  destruct data; reflexivity.
Qed.

(** X26.  [FBParser.__init__] sends nothing before it has checked its
    arguments and created its output folder.  Messages and files given
    together, or neither, raise [ValueError] first.  With one source
    given, an exception of [os.makedirs] on the output folder is the one
    raised, whatever [threads] is; once the folder is there, a number of
    threads that is not positive raises [ValueError].  None of the three
    sends a request.  Whatever happens afterwards, the requests it sends
    all ask for the conversation list. *)
Theorem parser_constructor_validates_before_any_request :
  forall fuel raw json_msgs infile_json mode data threads out lg,
    let given_msgs := match json_msgs with
                      | Some j => json_truthy j
                      | None => false
                      end in
    let given_files := match as_infile infile_json with
                       | Some _ => true
                       | None => false
                       end in
    let run := FBParser_init fuel raw json_msgs infile_json mode data threads
                             out lg in
    (given_msgs = given_files -> run = (lg, Exc ValueError))
    /\ (forall e,
           given_msgs <> given_files ->
           makedirs (path_join_empty out) = Err e ->
           run = (lg, Exc e))
    /\ (threads <= 0 ->
        makedirs (path_join_empty out) = Ok tt ->
        run = (lg, Exc ValueError))
    /\ (exists reqs,
           fst run = lg ++ reqs
           /\ Forall (fun rq => req_url rq = _url_convers_list) reqs)
    /\ (forall self,
           snd run = Ret self ->
           given_msgs <> given_files
           /\ makedirs (path_join_empty out) = Ok tt
           /\ 0 < threads
           /\ p_output self = path_join_empty out
           /\ p_current self = None /\ p_convers_id self = None).
Proof.
  intros fuel raw json_msgs infile_json mode data threads out lg
         given_msgs given_files run.
  assert (Hsent : respects asked_listings
            (FBParser_init fuel raw json_msgs infile_json mode data threads
                           out)).
  { pose proof asked_listings_refl as Hr.
    pose proof asked_listings_trans as Ht.
    unfold FBParser_init. fold given_msgs given_files.
    destruct (xorb given_msgs given_files); [|apply respects_raise, Hr].
    cbv zeta.
    apply respects_bind; [exact Ht | apply respects_lift, Hr | intros u].
    destruct (threads <=? 0); [apply respects_raise, Hr|].
    apply respects_bind;
      [exact Ht | apply FBDumper_init_asks_listings | intros d].
    apply respects_ret, Hr. }
  split; [|split; [|split; [|split]]].
  - intros Hsame. subst run. unfold FBParser_init.
    fold given_msgs given_files. rewrite Hsame.
    destruct given_files; reflexivity.
  - intros e Hdiff Hdir. subst run. unfold FBParser_init.
    fold given_msgs given_files.
    destruct (xorb given_msgs given_files) eqn:Hx.
    + cbv zeta. apply (bind_lift_err _ _ _ _ Hdir).
    + exfalso. apply Hdiff.
      destruct given_msgs, given_files; try reflexivity; discriminate Hx.
  - intros Hthreads Hdir. subst run. unfold FBParser_init.
    fold given_msgs given_files.
    destruct (xorb given_msgs given_files); [|reflexivity].
    cbv zeta. rewrite (bind_lift_ok _ _ _ _ Hdir).
    apply Z.leb_le in Hthreads. rewrite Hthreads. reflexivity.
  - subst run.
    destruct (FBParser_init fuel raw json_msgs infile_json mode data threads
                            out lg) as [lg' o] eqn:Hrun.
    exact (Hsent _ _ _ Hrun).
  - intros self Hself. subst run. unfold FBParser_init in Hself.
    fold given_msgs given_files in Hself.
    destruct (xorb given_msgs given_files) eqn:Hx; [|discriminate Hself].
    cbv zeta in Hself.
    destruct (makedirs (path_join_empty out)) as [[]|e] eqn:Hdir.
    2:{ erewrite bind_lift_err in Hself by reflexivity.
        discriminate Hself. }
    erewrite bind_lift_ok in Hself by reflexivity.
    destruct (threads <=? 0) eqn:Hth; [discriminate Hself|].
    apply Z.leb_gt in Hth.
    unfold bind in Hself.
    destruct (FBDumper_init fuel None raw None 2000 1 out lg)
      as [lg1 [d| e |]]; try discriminate Hself.
    cbn in Hself. inversion Hself; subst. cbn.
    split; [|auto].
    intros Heq. rewrite Heq in Hx. destruct given_files; discriminate Hx.
Qed.

(** The object once a file has been loaded and identified, with the
    attributes [current] for its conversation. *)
Definition parsed_self (self : FBParserSelf) (json_msgs convers_id : json)
  (current : FBParser) : FBParserSelf :=
  {| p_json_msgs := Some json_msgs; p_infile_json := p_infile_json self;
     p_mode := p_mode self; p_data := p_data self;
     p_output := p_output self; p_threads := p_threads self;
     p_convers := p_convers self; p_participants := p_participants self;
     p_convers_id := Some convers_id; p_current := Some current |}.

Definition printed (lines : list string) (ps : parse_state) : parse_state :=
  {| ps_self := ps_self ps; ps_stdout := ps_stdout ps ++ lines;
     ps_reports := ps_reports ps |}.

Lemma bind_say {B} to_stdout line (k : unit -> M parse_state B) ps :
  bind (say to_stdout line) k ps
  = k tt (printed (if to_stdout then [line] else []) ps).
Proof.
  destruct to_stdout; [reflexivity|].
  unfold printed. rewrite app_nil_r. destruct ps; reflexivity.
Qed.

(** The folder of a conversation below the output folder. *)
Definition folder_of (self : FBParserSelf) (id name : string) : string :=
  path_join_empty
    (path_join (p_output self) ((id +++ " - ") +++ unidecode name)).

Lemma init_parser_for_next_accepts file ps json_msgs id e name :
  load_json file = Ok json_msgs ->
  get_conversation_id json_msgs = Ok (JStr id) ->
  dict_find (JStr id) (p_convers (ps_self ps)) = Some e ->
  ce_name e = Some (JStr name) ->
  let current := fresh_parser (ps_self ps) (folder_of (ps_self ps) id name) in
  init_parser_for_next file ps
  = ({| ps_self := parsed_self (ps_self ps) json_msgs (JStr id) current;
        ps_stdout := ps_stdout ps; ps_reports := ps_reports ps |},
     Ret current).
Proof.
  intros Hload Hid He Hname current. unfold init_parser_for_next.
  rewrite (bind_lift_ok _ _ _ _ Hload).
  unfold set_self at 1. unfold bind at 1, modify at 1.
  rewrite (bind_lift_ok _ _ _ _ Hid).
  unfold set_self at 1. unfold bind at 1, modify at 1.
  rewrite bind_get. cbn [ps_self p_convers p_output].
  erewrite bind_lift_ok by reflexivity.
  erewrite bind_lift_ok
    by (unfold dict_getitem; cbn [hashable]; rewrite He; reflexivity).
  erewrite bind_lift_ok by (unfold entry_name; rewrite Hname; reflexivity).
  erewrite bind_lift_ok by reflexivity.
  reflexivity.
Qed.

Lemma on_current_runs {A} current (m : M FBParser A) current' a self
  json_msgs id current0 out reports :
  m current = (current', Ret a) ->
  on_current current m
    {| ps_self := parsed_self self json_msgs id current0; ps_stdout := out;
       ps_reports := reports |}
  = ({| ps_self := parsed_self self json_msgs id current'; ps_stdout := out;
        ps_reports := reports |},
     Ret (current', a)).
Proof. intros H. unfold on_current. rewrite H. reflexivity. Qed.



(** What a file goes through before its reports are written: it is
    loaded and identified, and its messages are processed from fresh
    reports. *)
Lemma parse_file_processes data to_stdout verbose schedule file ps json_msgs
  msgs_list id e name done :
  load_json file = Ok json_msgs ->
  py_iter json_msgs = Ok msgs_list ->
  get_conversation_id json_msgs = Ok (JStr id) ->
  dict_find (JStr id) (p_convers (ps_self ps)) = Some e ->
  ce_name e = Some (JStr name) ->
  process_msgs (functions data) msgs_list
    (fresh_parser (ps_self ps) (folder_of (ps_self ps) id name))
  = (done, Ret tt) ->
  parse_file data to_stdout verbose schedule file ps
  = (current <-
       (if selects_messages data then
          header <-
            lift (format_convers_metadata [(JStr id, e)]
                    (p_participants (ps_self ps))) ;;
          updated <-
            on_current done
              (modify (set_msgs (header +++ nl +++ repeat_string 79 "-"
                                   +++ nl +++ nl +++ msgs done))) ;;
          ret (fst updated)
        else ret done) ;;
     write_reports_to_file current ;;
     waiting current to_stdout verbose (schedule (futures current)))
      {| ps_self := parsed_self (ps_self ps) json_msgs (JStr id) done;
         ps_stdout :=
           ps_stdout ps
           ++ (if to_stdout then
                 [ "[+] - Loading JSON from file '" +++ file +++ "'";
                   "[+]     - JSON parsed succesfully, saving results "
                     +++ "inside folder '" +++ p_output (ps_self ps) +++ "'";
                   summary_report done ]
               else []);
         ps_reports := ps_reports ps |}.
Proof.
  intros Hload Hiter Hid He Hname Hdone.
  unfold parse_file.
  rewrite bind_say.
  erewrite bind_ret
    by (apply (init_parser_for_next_accepts file _ json_msgs id e name);
        assumption).
  rewrite bind_get.
  cbn [printed ps_self ps_stdout ps_reports parsed_self p_json_msgs
         p_convers_id p_convers p_participants p_output attribute].
  erewrite bind_ret by reflexivity.
  rewrite (bind_lift_ok _ _ _ _ Hiter).
  erewrite bind_ret by (apply on_current_runs; exact Hdone).
  cbn [fst].
  rewrite !bind_say.
  cbn [printed ps_self ps_stdout ps_reports].
  assert (Hout : forall a b c : string,
             (if to_stdout then [a] else [])
               ++ (if to_stdout then [b] else [])
               ++ (if to_stdout then [c] else [])
             = if to_stdout then [a; b; c] else []).
  { intros a b c. destruct to_stdout; reflexivity. }
  unfold printed. cbn [ps_self ps_stdout ps_reports].
  rewrite <- !app_assoc. rewrite Hout.
  destruct (selects_messages data); [|reflexivity].
  apply bind_same_start.
  erewrite bind_ret by reflexivity.
  erewrite bind_lift_ok
    by (unfold dict_getitem; cbn [hashable]; rewrite He; reflexivity).
  reflexivity.
Qed.



(** X28.  The metadata of the conversation are formatted after its
    messages have been processed and before any report is written.  When
    the messages are among the categories and the formatting fails, as it
    does for a participant that the directory does not hold, the file
    ends with that error and none of its six reports is written, although
    all its messages were processed and its downloads submitted. *)
Theorem unformattable_metadata_loses_the_reports :
  forall data to_stdout verbose schedule file ps json_msgs msgs_list id e
         name done err,
    load_json file = Ok json_msgs ->
    py_iter json_msgs = Ok msgs_list ->
    get_conversation_id json_msgs = Ok (JStr id) ->
    dict_find (JStr id) (p_convers (ps_self ps)) = Some e ->
    ce_name e = Some (JStr name) ->
    process_msgs (functions data) msgs_list
      (fresh_parser (ps_self ps) (folder_of (ps_self ps) id name))
    = (done, Ret tt) ->
    selects_messages data = true ->
    format_convers_metadata [(JStr id, e)] (p_participants (ps_self ps))
    = Err err ->
    exists ps1,
      parse_file data to_stdout verbose schedule file ps = (ps1, Exc err)
      /\ ps_reports ps1 = ps_reports ps
      /\ p_current (ps_self ps1) = Some done.
Proof.
  intros data to_stdout verbose schedule file ps json_msgs msgs_list id e
         name done err Hload Hiter Hid He Hname Hdone Hsel Hmeta.
  rewrite (parse_file_processes data to_stdout verbose schedule file ps
             json_msgs msgs_list id e name done Hload Hiter Hid He Hname
             Hdone).
  rewrite Hsel.
  eexists. split.
  - apply bind_exc. apply bind_lift_err. exact Hmeta.
  - split; reflexivity.
Qed.

(** ** dumper.py: the credentials in the raw data *)

Lemma prefix_split a : forall s,
  String.prefix a s = true -> exists rest, s = a +++ rest.
Proof.
  induction a as [|c a IH]; intros s H.
  - exists s. reflexivity.
  - destruct s as [|d s]; [discriminate H|]. cbn [String.prefix] in H.
    destruct (Ascii.ascii_dec c d) as [->|Hne]; [|discriminate H].
    destruct (IH s H) as [rest ->]. exists rest. reflexivity.
Qed.

Lemma prefix_append a rest : String.prefix a (a +++ rest) = true.
Proof.
  induction a as [|c a IH]; cbn [String.append String.prefix];
    [destruct rest; reflexivity|].
  destruct (Ascii.ascii_dec c c) as [_|Hne]; [exact IH | contradiction].
Qed.

Lemma string_drop_append a rest :
  string_drop (String.length a) (a +++ rest) = rest.
Proof. induction a as [|c a IH]; [reflexivity | exact IH]. Qed.

Lemma prefix_nl_cons c s :
  String.prefix nl (String c s) = is_newline c.
Proof.
  unfold nl, is_newline. cbn [String.prefix].
  destruct (Ascii.ascii_dec "010"%char c) as [<-|Hne].
  - destruct s; reflexivity.
  - symmetry. apply Ascii.eqb_neq. intros Heq. apply Hne. symmetry.
    exact Heq.
Qed.

Lemma lazy_group_cons c s :
  lazy_group nl (String c s)
  = if is_newline c then Some EmptyString
    else match lazy_group nl s with
         | Some g => Some (String c g)
         | None => None
         end.
Proof.
  cbn [lazy_group]. rewrite prefix_nl_cons.
  destruct (is_newline c); reflexivity.
Qed.

Lemma lazy_group_newline_sound s :
  forall g,
    lazy_group nl s = Some g ->
    one_line g = true /\ exists rest, s = g +++ nl +++ rest.
Proof.
  induction s as [|c s IH]; intros g H.
  - cbn in H. discriminate H.
  - rewrite lazy_group_cons in H.
    destruct (is_newline c) eqn:Hc.
    + inversion H; subst. split; [reflexivity|].
      exists s. unfold is_newline in Hc. apply Ascii.eqb_eq in Hc. subst c.
      reflexivity.
    + destruct (lazy_group nl s) as [g'|] eqn:Hg; [|discriminate H].
      inversion H; subst. destruct (IH g' eq_refl) as [Hone [rest ->]].
      split; [cbn [one_line]; rewrite Hc, Hone; reflexivity|].
      exists rest. reflexivity.
Qed.

Lemma lazy_group_newline_complete g rest :
  one_line g = true -> lazy_group nl (g +++ nl +++ rest) = Some g.
Proof.
  induction g as [|c g IH]; intros H.
  - change ("" +++ nl +++ rest) with (String "010"%char rest).
    rewrite lazy_group_cons. reflexivity.
  - cbn [one_line] in H. apply andb_prop in H. destruct H as [Hc Hg].
    apply negb_true_iff in Hc.
    change (String c g +++ nl +++ rest) with (String c (g +++ nl +++ rest)).
    rewrite lazy_group_cons, Hc, (IH Hg). reflexivity.
Qed.

Lemma greedy_upto_short s :
  forall k, (k < dot_run s)%nat -> greedy_upto k s = None.
Proof.
  assert (Hno : forall s k, (k < dot_run s)%nat ->
                            String.prefix nl (string_drop k s) = false).
  { clear. induction s as [|c s IH]; intros k H; [cbn in H; lia|].
    cbn [dot_run] in H. destruct (is_newline c) eqn:Hc; [lia|].
    destruct k as [|k].
    - cbn [string_drop]. rewrite prefix_nl_cons. exact Hc.
    - cbn [string_drop]. apply IH. lia. }
  intros k. induction k as [|k IH]; intros H; cbn [greedy_upto];
    rewrite (Hno s _ H); [reflexivity|].
  apply IH. lia.
Qed.

Lemma lazy_group_by_run s :
  lazy_group nl s
  = if String.prefix nl (string_drop (dot_run s) s)
    then Some (substring 0 (dot_run s) s) else None.
Proof.
  induction s as [|c s IH].
  - reflexivity.
  - rewrite lazy_group_cons. cbn [dot_run].
    destruct (is_newline c) eqn:Hc.
    + cbn [string_drop]. rewrite prefix_nl_cons, Hc. reflexivity.
    + cbn [string_drop substring]. rewrite IH.
      destruct (String.prefix nl (string_drop (dot_run s) s)); reflexivity.
Qed.

Lemma greedy_is_lazy s : greedy_group s = lazy_group nl s.
Proof.
  rewrite lazy_group_by_run. unfold greedy_group.
  destruct (dot_run s) as [|k] eqn:Hk; cbn [greedy_upto].
  - destruct (String.prefix nl (string_drop 0 s)); reflexivity.
  - destruct (String.prefix nl (string_drop (S k) s)); [reflexivity|].
    apply greedy_upto_short. lia.
Qed.

Lemma search_field_sound name s :
  forall g,
    search_field (lazy_group nl) name s = Some g -> field_line name g s.
Proof.
  induction s as [|c s IH]; intros g H.
  - exfalso. cbn [search_field] in H. unfold match_field_here in H.
    destruct name; cbn in H; discriminate H.
  - cbn [search_field] in H.
    destruct (match_field_here (lazy_group nl) name (String c s))
      as [g'|] eqn:Hm.
    + inversion H; subst. unfold match_field_here in Hm.
      destruct (String.prefix (name +++ ":") (String c s)) eqn:Hp;
        [|discriminate Hm].
      destruct (prefix_split _ _ Hp) as [rest Hrest].
      rewrite Hrest, string_drop_append in Hm.
      destruct (lazy_group_newline_sound _ _ Hm) as [Hone [after ->]].
      split; [exact Hone|]. exists "", after. exact Hrest.
    + destruct (IH g H) as [Hone (before & after & ->)].
      split; [exact Hone|]. exists (String c before), after. reflexivity.
Qed.

Lemma search_field_complete name value after :
  one_line value = true ->
  forall before,
    exists g,
      search_field (lazy_group nl) name
        (before +++ (name +++ ":") +++ value +++ nl +++ after)
      = Some g.
Proof.
  intros Hone.
  set (tail := (name +++ ":") +++ value +++ nl +++ after).
  assert (Hhere : match_field_here (lazy_group nl) name tail = Some value).
  { unfold match_field_here, tail. rewrite prefix_append, string_drop_append.
    apply lazy_group_newline_complete. exact Hone. }
  induction before as [|c before IH].
  - exists value. change ("" +++ tail) with tail.
    destruct tail; cbn [search_field]; rewrite Hhere; reflexivity.
  - change (String c before +++ tail) with (String c (before +++ tail)).
    cbn [search_field].
    destruct (match_field_here (lazy_group nl) name
                (String c (before +++ tail))) as [g|];
      [exists g; reflexivity | exact IH].
Qed.

Lemma search_field_greedy name s :
  search_field greedy_group name s = search_field (lazy_group nl) name s.
Proof.
  assert (Hhere : forall t, match_field_here greedy_group name t
                            = match_field_here (lazy_group nl) name t).
  { intros t. unfold match_field_here.
    destruct (String.prefix (name +++ ":") t); [apply greedy_is_lazy|].
    reflexivity. }
  induction s as [|c s IH]; cbn [search_field]; rewrite Hhere;
    [reflexivity|].
  rewrite IH. reflexivity.
Qed.

Lemma search_field_needs_a_newline name s :
  one_line s = true -> search_field (lazy_group nl) name s = None.
Proof.
  intros Hone.
  destruct (search_field (lazy_group nl) name s) as [g|] eqn:H;
    [|reflexivity].
  exfalso. destruct (search_field_sound _ _ _ H) as [_ (before & after & ->)].
  revert Hone. clear.
  generalize (name +++ ":"). intros key.
  assert (Hnl : forall a b, one_line (a +++ nl +++ b) = false).
  { induction a as [|c a IH]; intros b; [reflexivity|].
    cbn [String.append one_line]. rewrite IH. apply andb_false_r. }
  assert (Happ : forall a b, one_line b = false -> one_line (a +++ b) = false).
  { induction a as [|c a IH]; intros b Hb; [exact Hb|].
    cbn [String.append one_line]. rewrite (IH b Hb). apply andb_false_r. }
  intros Hone. rewrite (Happ before) in Hone;
    [discriminate Hone | apply Happ, Hnl].
Qed.

Lemma read_credentials_keys names raw :
  forall f, read_credentials names raw = Ok f ->
            map fst f = names
            /\ forall name v, assoc name f = Some v ->
                              exists value, v = JStr value
                                            /\ field_line name value raw.
Proof.
  induction names as [|n names IH]; intros f H.
  - inversion H; subst. split; [reflexivity|]. intros name v Hv.
    discriminate Hv.
  - cbn [read_credentials] in H.
    destruct (search_field greedy_group n raw) as [value|] eqn:Hs;
      [|discriminate H].
    cbn [group1 and_then] in H.
    destruct (read_credentials names raw) as [others|] eqn:Ho;
      [|discriminate H].
    cbn [and_then] in H. inversion H; subst.
    destruct (IH others eq_refl) as [Hkeys Hvals].
    split; [cbn; rewrite Hkeys; reflexivity|].
    intros name v Hv. cbn [assoc] in Hv.
    destruct (String.eqb name n) eqn:Hn.
    + apply String.eqb_eq in Hn. subst n. inversion Hv; subst.
      exists value. split; [reflexivity|].
      apply search_field_sound. rewrite <- search_field_greedy. exact Hs.
    + apply (Hvals name v Hv).
Qed.

(** X29.  [get_post_data] takes, for the cookie and for each of the six
    fields, the text that follows the name and a colon up to the end of
    the line, on a line that ends with a newline; the lazy group of the
    cookie and the greedy group of the fields stop at the same place.  It
    returns the basic headers with the cookie added, and the fields under
    their six names, all different.  It succeeds as soon as each name has
    such a line, and fails with [AttributeError] and nothing else when
    one has not: raw data without a newline always fail. *)
Theorem credentials_are_the_rests_of_their_lines :
  forall raw,
    (forall s, greedy_group s = lazy_group nl s)
    /\ (forall hp,
           FBDumper_get_post_data raw = Ok hp ->
           (exists cookie,
               fst hp = _basic_headers ++ [("cookie", cookie)]
               /\ field_line "cookie" cookie raw)
           /\ map fst (snd hp) = credential_names
           /\ NoDup (map fst (snd hp))
           /\ forall name v,
               assoc name (snd hp) = Some v ->
               exists value, v = JStr value /\ field_line name value raw)
    /\ (forall e, FBDumper_get_post_data raw = Err e -> e = AttributeError)
    /\ (one_line raw = true ->
        FBDumper_get_post_data raw = Err AttributeError)
    /\ ((forall name, In name ("cookie" :: credential_names) ->
                      exists value, field_line name value raw) ->
        exists hp, FBDumper_get_post_data raw = Ok hp).
Proof.
  intros raw. split; [exact greedy_is_lazy|].
  split; [|split; [|split]].
  - intros hp H. unfold FBDumper_get_post_data in H.
    destruct (search_field (lazy_group nl) "cookie" raw) as [cookie|] eqn:Hc;
      [|discriminate H].
    cbn [group1 and_then] in H.
    destruct (read_credentials credential_names raw) as [f|] eqn:Hf;
      [|discriminate H].
    cbn [and_then] in H. inversion H; subst. cbn [fst snd].
    destruct (read_credentials_keys _ _ _ Hf) as [Hkeys Hvals].
    split; [exists cookie; split;
            [reflexivity | apply search_field_sound; exact Hc]|].
    split; [exact Hkeys|]. split; [|exact Hvals].
    rewrite Hkeys. unfold credential_names.
    repeat constructor; cbn [In]; intros Hin;
      repeat (destruct Hin as [Hin|Hin]; [discriminate Hin|]);
      destruct Hin.
  - intros e H. unfold FBDumper_get_post_data in H.
    destruct (search_field (lazy_group nl) "cookie" raw);
      [|inversion H; reflexivity].
    cbn [group1 and_then] in H.
    assert (Hread : forall names e', read_credentials names raw = Err e' ->
                                     e' = AttributeError).
    { clear. induction names as [|n names IH]; intros e' H;
        [discriminate H|].
      cbn [read_credentials] in H.
      destruct (search_field greedy_group n raw);
        [|inversion H; reflexivity].
      cbn [group1 and_then] in H.
      destruct (read_credentials names raw) as [o|e0] eqn:Ho;
        [discriminate H|].
      cbn [and_then] in H. inversion H; subst. apply IH. reflexivity. }
    destruct (read_credentials credential_names raw) as [f|e0] eqn:Hf;
      [discriminate H|].
    cbn [and_then] in H. inversion H; subst. apply (Hread _ _ Hf).
  - intros Hone. unfold FBDumper_get_post_data.
    rewrite (search_field_needs_a_newline "cookie" raw Hone). reflexivity.
  - intros Hall. unfold FBDumper_get_post_data.
    assert (Hfound : forall name,
               In name ("cookie" :: credential_names) ->
               exists g, search_field (lazy_group nl) name raw = Some g).
    { intros name Hin.
      destruct (Hall name Hin) as [value [Hone (before & after & ->)]].
      apply search_field_complete. exact Hone. }
    destruct (Hfound "cookie" (or_introl eq_refl)) as [cookie Hc].
    rewrite Hc. cbn [group1 and_then].
    assert (Hread : forall names,
               (forall n, In n names -> In n ("cookie" :: credential_names)) ->
               exists f, read_credentials names raw = Ok f).
    { induction names as [|n names IH]; intros Hsub;
        [exists []; reflexivity|].
      cbn [read_credentials]. rewrite search_field_greedy.
      destruct (Hfound n (Hsub n (or_introl eq_refl))) as [g Hg].
      rewrite Hg. cbn [group1 and_then].
      destruct IH as [f Hf]; [intros m Hm; apply Hsub; right; exact Hm|].
      rewrite Hf. eexists. reflexivity. }
    destruct (Hread credential_names) as [f Hf];
      [intros n Hn; right; exact Hn|].
    rewrite Hf. eexists. reflexivity.
Qed.

(** X30.  [parse] goes through the files in turn and stops at the first
    one that cannot be loaded: the files before it have been parsed and
    keep their reports, it has been announced when [to_stdout] is set,
    its error ends [parse], and the files after it are not looked at.  A
    single string given as [infile_json] is gone through character by
    character, so that the first file looked for is named by its first
    character. *)
Theorem parse_stops_at_the_first_file_that_fails :
  forall data to_stdout verbose schedule files ps before bad after e ps',
    p_data (ps_self ps) = Some data ->
    p_infile_json (ps_self ps) = Some files ->
    infile_iter files = before ++ bad :: after ->
    for_each before (parse_file data to_stdout verbose schedule) ps
    = (ps', Ret tt) ->
    load_json bad = Err e ->
    parse to_stdout verbose schedule ps
    = (printed (if to_stdout
                then ["[+] - Loading JSON from file '" +++ bad +++ "'"]
                else []) ps',
       Exc e)
    /\ forall c rest,
        files = InString c rest ->
        infile_iter files = String c "" :: string_chars rest.
Proof.
  intros data to_stdout verbose schedule files ps before bad after e ps'
         Hdata Hfiles Hiter Hbefore Hload.
  split.
  - unfold parse. rewrite bind_get, Hdata, Hfiles, Hiter, for_each_app.
    rewrite (bind_ret _ _ _ _ _ Hbefore). cbn [for_each].
    apply bind_exc. unfold parse_file. rewrite bind_say.
    apply bind_exc. unfold init_parser_for_next.
    apply bind_lift_err. exact Hload.
  - intros c rest ->. reflexivity.
Qed.

End Model.

(** * Closed instances of the properties *)

Lemma scripted_serves pre rs post :
  serves (scripted (pre ++ rs ++ post)) (List.length pre) rs.
Proof.
  intros i r lg rq Hn Hl. unfold scripted. rewrite Hl.
  rewrite nth_error_app2 by lia.
  replace (List.length pre + i - List.length pre)%nat with i by lia.
  rewrite nth_error_app1 by (apply nth_error_Some; rewrite Hn; discriminate).
  rewrite Hn. reflexivity.
Qed.

Lemma scripted_serves_all rs : serves (scripted rs) 0 rs.
Proof.
  pose proof (scripted_serves [] rs []) as H. simpl in H.
  rewrite app_nil_r in H. exact H.
Qed.

Ltac show_older :=
  do 2 eexists; split; [reflexivity | split; [reflexivity | lia]].

Ltac show_sorted :=
  repeat (first [ apply SSorted_nil | apply SSorted_cons
                | apply Forall_nil | apply Forall_cons | show_older ]).

(** Two chunks, each oldest first, the second one older than the first:
    the end flag comes with the second. *)
Lemma history_is_assembled_by_prepending_witness :
  exists reqs messages,
    crawl_messages
      (scripted [history_page [sample_message 3; sample_message 4] false;
                 history_page [sample_message 1; sample_message 2] true])
      5 sample_dumper (JStr "42") sample_entry [] 0 (JStr "0")
      initial_json_data empty_world
    = ({| w_log := reqs; w_files := [] |}, Ret messages)
    /\ messages = [sample_message 1; sample_message 2;
                   sample_message 3; sample_message 4]
    /\ ascending messages
    /\ nth_error reqs 1
       = Some (message_request sample_dumper "42" FBConversType.USER 2 (JNum 3)).
Proof.
  destruct (history_is_assembled_by_prepending
              (scripted
                 [history_page [sample_message 3; sample_message 4] false;
                  history_page [sample_message 1; sample_message 2] true])
              sample_dumper "42" sample_entry FBConversType.USER empty_world
              [history_page [sample_message 3; sample_message 4] false]
              (history_page [sample_message 1; sample_message 2] true) 5%nat)
    as (reqs & messages & Hrun & Hmsgs & Hasc & Hcur).
  - reflexivity.
  - repeat constructor.
  - reflexivity.
  - apply scripted_serves_all.
  - simpl. lia.
  - exists reqs, messages. split; [exact Hrun|]. split; [exact Hmsgs|]. split.
    + apply Hasc.
      * repeat constructor; show_sorted.
      * repeat constructor.
        intros a b [<-|[<-|[]]] [<-|[<-|[]]]; show_older.
    + apply (Hcur 0%nat (history_page [sample_message 3; sample_message 4] false));
        [reflexivity | simpl; lia].
Defined.

(** Against C1 as stated: with chunks that are each newest first, and a
    second chunk strictly older than the first, the list that [dump] writes
    is not ascending: each chunk keeps its own order. *)
Lemma newest_first_chunks_stay_newest_first :
  let chunks := [[sample_message 4; sample_message 3];
                 [sample_message 2; sample_message 1]] in
  let respond :=
    scripted [history_page [sample_message 4; sample_message 3] false;
              history_page [sample_message 2; sample_message 1] true] in
  let messages := [sample_message 2; sample_message 1;
                   sample_message 4; sample_message 3] in
  Forall descending chunks
  /\ successively_older chunks
  /\ crawl_messages respond 5 sample_dumper (JStr "42") sample_entry [] 0
       (JStr "0") initial_json_data empty_world
     = ({| w_log :=
             [message_request sample_dumper "42" FBConversType.USER 0 (JStr "0");
              message_request sample_dumper "42" FBConversType.USER 2 (JNum 4)];
           w_files := [] |}, Ret messages)
  /\ (exists w, dump respond (fun s => s) 5 sample_dumper false empty_world
                = (w, Ret tt)
                /\ map wf_dump (w_files w) = [messages; messages])
  /\ ~ ascending messages.
Proof.
  cbv zeta. split; [|split; [|split; [|split]]].
  - repeat constructor; unfold descending; show_sorted.
  - repeat constructor. intros a b [<-|[<-|[]]] [<-|[<-|[]]]; show_older.
  - vm_compute. reflexivity.
  - eexists. split; vm_compute; reflexivity.
  - intros H. inversion H as [|? ? _ Hall]; subst.
    inversion Hall as [|? ? Hold _]; subst.
    destruct Hold as (ta & tb & Ha & Hb & Hlt).
    vm_compute in Ha, Hb. inversion Ha; inversion Hb; subst. lia.
Qed.

(** Two responses without the end flag, then a third one with it. *)
Lemma history_crawl_ends_at_the_end_flag_witness :
  let r1 := history_page [sample_message 5; sample_message 6] false in
  let r2 := history_page [] false in
  let r3 := history_page [sample_message 1] true in
  (exists reqs,
      List.length reqs = 1%nat
      /\ crawl_messages (scripted [r1; r2]) 1 sample_dumper (JStr "42")
           sample_entry [] 0 (JStr "0") initial_json_data empty_world
         = ({| w_log := reqs; w_files := [] |}, OutOfFuel))
  /\ (exists reqs messages,
         List.length reqs = 2%nat
         /\ crawl_messages (scripted [r1; r3]) 7 sample_dumper (JStr "42")
              sample_entry [] 0 (JStr "0") initial_json_data empty_world
            = ({| w_log := reqs; w_files := [] |}, Ret messages)).
Proof.
  cbv zeta. split.
  - destruct (history_crawl_ends_at_the_end_flag
                (scripted
                   [history_page [sample_message 5; sample_message 6] false;
                    history_page [] false])
                sample_dumper "42" sample_entry FBConversType.USER empty_world
                [history_page [sample_message 5; sample_message 6] false])
      as [Hgoes _]; [reflexivity | repeat constructor |].
    apply Hgoes. apply (scripted_serves [] [_] [_]).
  - destruct (history_crawl_ends_at_the_end_flag
                (scripted
                   [history_page [sample_message 5; sample_message 6] false;
                    history_page [sample_message 1] true])
                sample_dumper "42" sample_entry FBConversType.USER empty_world
                [history_page [sample_message 5; sample_message 6] false])
      as [_ [Hstops _]]; [reflexivity | repeat constructor |].
    apply (Hstops (history_page [sample_message 1] true) 7%nat).
    + reflexivity.
    + apply scripted_serves_all.
    + simpl. lia.
Defined.

(** Against C3 as stated: a response without the end flag whose chunk is
    empty ends the crawl with an [IndexError]; no request follows it,
    whatever the bound. *)
Lemma empty_page_stops_the_history_crawl :
  let rs := [history_page [] false;
             history_page [sample_message 1; sample_message 2] false] in
  Forall (fun r => sentinel_in r = Ok false) rs
  /\ forall fuel,
       crawl_messages (scripted rs) (S fuel) sample_dumper (JStr "42")
         sample_entry [] 0 (JStr "0") initial_json_data empty_world
       = ({| w_log :=
               [message_request sample_dumper "42" FBConversType.USER 0
                  (JStr "0")];
             w_files := [] |}, Exc IndexError).
Proof.
  cbv zeta. split.
  - repeat constructor.
  - intros fuel. rewrite crawl_messages_eq. vm_compute. reflexivity.
Qed.

Lemma scripted_is_foreign rs : transport_is_foreign (scripted rs).
Proof.
  intros lg rq. unfold scripted.
  destruct (nth_error rs (List.length lg)); simpl; auto.
Qed.

(** ["42"] is dumped with one request; ["99"] is refused after it. *)
Lemma unknown_conversation_is_rejected_before_any_request_witness :
  let respond := scripted [history_page [sample_message 1] true] in
  (exists w,
      dump respond (fun s => s) 5 sample_dumper_two_ids false empty_world
      = (w, Exc (FBUnknownConvers (JStr "99")))
      /\ List.length (w_log w) = 1%nat)
  /\ (forall e,
         snd (dump_convers respond (fun s => s) 5 sample_dumper_two_ids false
                (JStr "42") empty_world) = Exc e ->
         is_unknown_convers e = false).
Proof.
  cbv zeta. split.
  - eexists. split.
    + destruct (unknown_conversation_is_rejected_before_any_request
                  (scripted [history_page [sample_message 1] true])
                  (fun s => s) 5 sample_dumper_two_ids false (JStr "99"))
        as [Habsent _].
      destruct (Habsent eq_refl) as [_ Hdump].
      eapply (Hdump [JStr "42"] []); [reflexivity|].
      vm_compute. reflexivity.
    + reflexivity.
  - destruct (unknown_conversation_is_rejected_before_any_request
                (scripted [history_page [sample_message 1] true])
                (fun s => s) 5 sample_dumper_two_ids false (JStr "42"))
      as [_ Hknown].
    exact (Hknown eq_refl (scripted_is_foreign _) empty_world).
Defined.

(** A file that cannot be read, a raw string with a file, and a chunk
    size of 0. *)
Lemma dumper_constructor_validates_its_arguments_witness :
  FBDumper_init (scripted []) no_file no_post_data 3 None (Some "raw") (Some "f")
    2000 1 "output" []
  = ([], Exc ValueError)
  /\ FBDumper_init (scripted []) no_file no_post_data 3 None (Some "raw") None
       0 1 "output" []
     = ([], Exc ValueError)
  /\ FBDumper_init (scripted []) no_file no_post_data 3 None None (Some "f")
       2000 1 "output" []
     = ([], Exc OSError).
Proof.
  pose proof (dumper_constructor_validates_its_arguments
                (scripted []) no_file no_post_data 3 None (Some "raw")
                (Some "f") 2000 1 "output" []) as [H1 _].
  pose proof (dumper_constructor_validates_its_arguments
                (scripted []) no_file no_post_data 3 None (Some "raw")
                None 0 1 "output" []) as [_ [H2 _]].
  pose proof (dumper_constructor_validates_its_arguments
                (scripted []) no_file no_post_data 3 None None
                (Some "f") 2000 1 "output" []) as [_ [_ [H3 _]]].
  split; [|split].
  - apply H1. reflexivity.
  - apply H2; [reflexivity | left; reflexivity | left; lia].
  - apply (H3 OSError); reflexivity.
Defined.

(** Against C9 as stated: the chunk size is 0, yet the exception is the
    one of the file that cannot be read, not [ValueError]: the file is read
    before the chunk size is looked at. *)
Lemma unreadable_file_hides_the_bad_chunk_size :
  let size := 0 in
  let delay := 1 in
  negb (xorb (truthy None) (truthy (Some "missing.txt")) && (0 <? size)
        && (0 <=? delay)) = true
  /\ FBDumper_init (scripted []) no_file no_post_data 3 None None
       (Some "missing.txt") size delay "output" []
     = ([], Exc OSError).
Proof. cbv zeta. split; reflexivity. Qed.

Lemma all_different_nodup l : all_different l = true -> NoDup l.
Proof.
  induction l as [|x l IH]; intros H; constructor.
  - simpl in H. apply andb_prop in H. destruct H as [H _].
    intros Hin. apply negb_true_iff in H.
    assert (Hex : existsb (String.eqb x) l = true).
    { apply existsb_exists. exists x. split; [exact Hin|apply String.eqb_refl]. }
    congruence.
  - apply IH. simpl in H. apply andb_prop in H. tauto.
Qed.

(** One full page of 1000 threads, then a page of 2 threads: 1002 entries
    after 2 requests. *)
Lemma directory_crawl_stops_at_the_short_page_witness :
  exists st' offsets,
    crawl_status (scripted [full_page; short_page]) 5 [] [] Inbox 0 empty_crawl
    = (st', Ret tt)
    /\ offsets = [0; 1000]
    /\ cs_log st' = map (listing_request [] [] Inbox) offsets
    /\ Z.of_nat (List.length (cs_convers st')) = 1002
    /\ NoDup (dict_keys (cs_convers st')).
Proof.
  destruct (directory_crawl_stops_at_the_short_page
              (scripted [full_page; short_page]) [] [] Inbox
              [full_page] short_page 5 empty_crawl []
              (numbered_ids 0 1000 ++ ["a"; "b"]))
    as (st' & offsets & Hrun & Hlog & Hoff & _ & _ & _ & _ & Hnd & Hlen).
  - apply scripted_serves_all.
  - vm_compute. reflexivity.
  - constructor; [vm_compute; reflexivity | constructor].
  - vm_compute. reflexivity.
  - reflexivity.
  - vm_compute. reflexivity.
  - apply all_different_nodup. vm_compute. reflexivity.
  - simpl. lia.
  - exists st', offsets.
    split; [exact Hrun|]. split; [exact Hoff|]. split; [exact Hlog|].
    split; [|exact Hnd].
    rewrite Hlen. vm_compute. reflexivity.
Defined.

(** Against C2 as stated: 1000 threads are served as one full page and an
    empty one; the crawl sends 2 requests, and the ceiling of 1000 / 1000
    is 1. *)
Lemma exact_multiple_costs_one_more_request :
  let rs := [full_page; listing_page [] []] in
  let N := Z.of_nat (List.length (all_threads rs)) in
  N = 1000
  /\ Z.of_nat (List.length (threads_of full_page)) = _chunk_size_convers
  /\ Z.of_nat (List.length (threads_of (listing_page [] []))) < _chunk_size_convers
  /\ (N + _chunk_size_convers - 1) / _chunk_size_convers = 1
  /\ exists st',
      crawl_status (scripted rs) 5 [] [] Inbox 0 empty_crawl = (st', Ret tt)
      /\ cs_log st' = map (listing_request [] [] Inbox) [0; 1000]
      /\ List.length (cs_convers st') = 1000%nat.
Proof.
  cbv zeta. split; [vm_compute; reflexivity|].
  split; [vm_compute; reflexivity|].
  split; [vm_compute; reflexivity|].
  split; [vm_compute; reflexivity|].
  eexists. split; [vm_compute; reflexivity|].
  split; vm_compute; reflexivity.
Qed.

Lemma malformed_page_aborts_the_crawl_witness :
  (exists st' e, merge_page Inbox bad_page empty_crawl = (st', Exc e))
  /\ (exists st' e,
         crawl_status (scripted [bad_page]) 3 [] [] Inbox 0 empty_crawl
         = (st', Exc e)
         /\ cs_log st' = [listing_request [] [] Inbox 0]).
Proof.
  destruct (malformed_page_aborts_the_crawl (scripted [bad_page]) Inbox
              bad_page eq_refl eq_refl) as (Hpage & _ & Hloop & _).
  split.
  - apply Hpage.
  - apply (Hloop 2%nat [] [] 0 empty_crawl). reflexivity.
Defined.

(** Against C6 as stated: when the exception is raised the participant of
    the page and the thread before the faulty one are in the two
    dictionaries. *)
Lemma malformed_page_is_merged_up_to_the_fault :
  page_malformed bad_page = true
  /\ exists st',
      merge_page Inbox bad_page empty_crawl
      = (st', Exc (KeyError (JStr "participants")))
      /\ cs_participants st' = [(JStr "9", JStr "Ann")]
      /\ dict_keys (cs_convers st') = [JStr "1"]
      /\ st' <> empty_crawl.
Proof.
  split; [reflexivity|].
  eexists. split; [vm_compute; reflexivity|].
  split; [reflexivity|]. split; [reflexivity|]. discriminate.
Qed.

(** The author ["77"] is not in the directory of the sample parser: the
    line has an empty name, and the message is counted. *)
Lemma message_line_needs_no_known_author_witness :
  exists self',
    check_and_get_msg sample_repr sample_clock sample_user_message
                      (sample_parser FBParserMode.REPORT)
    = (self', Ret tt)
    /\ msgs self'
       = "Message body: 'hello' - attachments {a.jpg b.pdf} - sent by: ''"
           +++ " (77) - the 2017-07-14 04:40:00" +++ nl
    /\ cnt_msgs self' = 1
    /\ (pics self', gifs self', videos self', files self', links self')
       = ("", "", "", "", "")
    /\ futures self' = [].
Proof.
  destruct (message_line_needs_no_known_author sample_repr sample_clock
              (sample_parser FBParserMode.REPORT) sample_user_message
              [JObj [("attach_type", JStr "photo"); ("name", JStr "a.jpg");
                     ("preview_url", JStr "https://cdn/a.jpg")];
               JObj [("attach_type", JStr "file"); ("name", JStr "b.pdf");
                     ("url", JNull)]]
              "fbid:77" (JStr "hello") (JNum 1500000000000)
              "2017-07-14 04:40:00"
              eq_refl eq_refl eq_refl eq_refl eq_refl eq_refl)
    as (self' & Hrun & _ & Habsent & Hcnt & _ & Hothers & _ & Hfutures).
  exists self'.
  split; [exact Hrun|].
  split; [exact (Habsent eq_refl)|].
  split; [exact Hcnt|].
  split; [exact Hothers | exact Hfutures].
Defined.

(** The message of the sample has a photo with a URL and a file without:
    one line, one more in the counter and one download for the pictures,
    nothing for the files. *)
Lemma media_check_keeps_attachments_with_a_url_witness :
  (exists self',
      media_check FBDataTypes.PICTURES sample_user_message
                  (sample_parser FBParserMode.DL)
      = (self', Ret tt)
      /\ pics self' = "https://cdn/a.jpg" +++ nl
      /\ cnt_pics self' = 1
      /\ futures self'
         = [((JStr "https://cdn/a.jpg", "output/42 - Ann/pictures/a.jpg"),
             JStr "https://cdn/a.jpg")])
  /\ (exists self',
         media_check FBDataTypes.FILES sample_user_message
                     (sample_parser FBParserMode.DL)
         = (self', Ret tt)
         /\ files self' = ""
         /\ cnt_files self' = 0
         /\ futures self' = []).
Proof.
  split.
  - destruct (media_check_keeps_attachments_with_a_url FBDataTypes.PICTURES
                (sample_parser FBParserMode.DL) sample_user_message
                [JObj [("attach_type", JStr "photo"); ("name", JStr "a.jpg");
                       ("preview_url", JStr "https://cdn/a.jpg")];
                 JObj [("attach_type", JStr "file"); ("name", JStr "b.pdf");
                       ("url", JNull)]]
                eq_refl eq_refl eq_refl)
      as [(self' & Hrun & Hreport & Hcount & Hfutures & _) _].
    exists self'.
    split; [exact Hrun|].
    split; [exact Hreport|]. split; [exact Hcount | exact Hfutures].
  - destruct (media_check_keeps_attachments_with_a_url FBDataTypes.FILES
                (sample_parser FBParserMode.DL) sample_user_message
                [JObj [("attach_type", JStr "photo"); ("name", JStr "a.jpg");
                       ("preview_url", JStr "https://cdn/a.jpg")];
                 JObj [("attach_type", JStr "file"); ("name", JStr "b.pdf");
                       ("url", JNull)]]
                eq_refl eq_refl eq_refl)
      as [(self' & Hrun & Hreport & Hcount & Hfutures & _) _].
    exists self'.
    split; [exact Hrun|].
    split; [exact Hreport|]. split; [exact Hcount | exact Hfutures].
Defined.

(** A wrapped share, a plain share, a share without URI, a photo and one
    inline range: three lines, the range last, and three more in the
    counter. *)
Lemma links_check_unwraps_shares_then_adds_ranges_witness :
  (exists self',
      check_and_get_links keep_bytes sample_links_message
                          (sample_parser FBParserMode.REPORT)
      = (self', Ret 0)
      /\ links self'
         = ("https://example.com/x" +++ nl)
             +++ ("https://plain.example/p" +++ nl)
             +++ ("https://inline.example/i" +++ nl)
      /\ cnt_links self' = 3)
  /\ share_line keep_bytes (share_attachment (JStr wrapped_example))
     = "https://example.com/x" +++ nl.
Proof.
  destruct (links_check_unwraps_shares_then_adds_ranges keep_bytes
              (sample_parser FBParserMode.REPORT) sample_links_message
              [share_attachment (JStr wrapped_example);
               share_attachment (JStr "https://plain.example/p");
               share_attachment JNull;
               JObj [("attach_type", JStr "photo")]]
              [link_range "https://inline.example/i"]
              eq_refl eq_refl eq_refl eq_refl)
    as ((self' & Hrun & Hlinks & Hcount & _) & _ & _ & Hexample).
  split.
  - exists self'. split; [exact Hrun|].
    split; [rewrite Hlinks; vm_compute; reflexivity | exact Hcount].
  - apply Hexample. reflexivity.
Defined.

(** Three downloads whose second one fails: with the traces the three are
    collected and the failure is printed; without them the failure is
    raised after two outcomes. *)
Lemma download_failures_are_reported_or_raised_witness :
  wait_threads sample_downloading_parser true false (outcomes sample_outcomes)
               {| stdout := []; loading_cnt := 0 |}
  = ({| stdout := [waiting_line;
                   failure_line "https://cdn/b.jpg" "connection reset"];
        loading_cnt := 0 |}, Ret tt)
  /\ wait_threads sample_downloading_parser false false
                  (outcomes sample_outcomes)
                  {| stdout := []; loading_cnt := 0 |}
     = ({| stdout := []; loading_cnt := 1 |}, Exc sample_failure).
Proof.
  destruct (download_failures_are_reported_or_raised
              sample_downloading_parser false sample_outcomes
              {| stdout := []; loading_cnt := 0 |} eq_refl)
    as (Hreport & _ & Hraise & _).
  split.
  - exact Hreport.
  - exact (Hraise [("https://cdn/a.jpg", Saved)] "https://cdn/b.jpg"
                  sample_failure "connection reset"
                  [("https://cdn/c.jpg", Saved)] eq_refl eq_refl).
Defined.

(** ** Closed instances of the further properties *)

(** The credential [__user] and the client name in the form data of the
    sample dumper. *)
Lemma build_data_forwards_the_credentials_witness :
  exists f,
    build_data sample_dumper (JStr "42") FBConversType.USER 0 (JStr "0") = Ok f
    /\ assoc "__user" f = Some (JStr "7")
    /\ assoc "client" f = Some (JStr "web_messenger").
Proof.
  destruct (build_data_forwards_the_credentials sample_dumper "42"
              FBConversType.USER 0 (JStr "0"))
    as (f & Hf & Hcred & _ & _ & _ & Hclient & _).
  - constructor; [intros [] | constructor].
  - exists f. split; [exact Hf|]. split.
    + apply Hcred. reflexivity.
    + apply Hclient. reflexivity.
Defined.

(** One full page: the loop has not ended after it, and asks for offset
    1000 next. *)
Lemma directory_crawl_goes_on_after_full_pages_witness :
  (exists st',
      crawl_status (scripted [full_page]) 1 [] [] Inbox 0 empty_crawl
      = (st', OutOfFuel))
  /\ exists reqs,
      cs_log (fst (crawl_status (scripted [full_page]) 2 [] [] Inbox 0
                     empty_crawl))
      = listing_request [] [] Inbox 0 :: listing_request [] [] Inbox 1000
          :: reqs.
Proof.
  destruct (directory_crawl_goes_on_after_full_pages
              (scripted [full_page]) [] [] Inbox [full_page] empty_crawl)
    as [(st' & Hrun & _) Hnext].
  - apply scripted_serves_all.
  - vm_compute. reflexivity.
  - constructor; [vm_compute; reflexivity | constructor].
  - split; [exists st'; exact Hrun|].
    destruct (Hnext 2%nat) as [reqs Hreqs]; [cbn; lia|].
    exists reqs. exact Hreqs.
Defined.

(** Two conversations in the inbox and one in the archive. *)
Lemma directory_crawl_covers_inbox_then_archive_witness :
  let archive := listing_page [group_thread "c"] [] in
  exists C P,
    get_all_convers_metadata (scripted [short_page; archive]) 3 [] [] []
    = ([listing_request [] [] Inbox 0; listing_request [] [] Archived 0],
       Ret (C, P))
    /\ dict_keys C = [JStr "a"; JStr "b"; JStr "c"]
    /\ exists e, dict_find (JStr "c") C = Some e
                 /\ ce_status e = Some "archived".
Proof.
  cbv zeta.
  destruct (directory_crawl_covers_inbox_then_archive
              (scripted [short_page; listing_page [group_thread "c"] []])
              3 [] [] [] [] short_page [] (listing_page [group_thread "c"] [])
              ["a"; "b"] ["c"])
    as (C & P & Hrun & Hkeys & _ & Harchived).
  - apply scripted_serves_all.
  - vm_compute. reflexivity.
  - constructor.
  - vm_compute. reflexivity.
  - vm_compute. reflexivity.
  - reflexivity.
  - reflexivity.
  - apply all_different_nodup. vm_compute. reflexivity.
  - cbn. lia.
  - cbn. lia.
  - exists C, P. split; [exact Hrun|]. split; [exact Hkeys|].
    apply Harchived. left. reflexivity.
Defined.

(** A dumper built with the filter ["99"] on a directory that does not
    list it. *)
Lemma only_a_requested_id_can_be_unknown_witness :
  let respond := scripted [short_page; listing_page [] []] in
  exists self lg,
    FBDumper_init respond no_file no_post_data 3 (Some ["99"]) (Some "raw")
      None 2000 1 "output" []
    = (lg, Ret self)
    /\ snd (dump respond (fun s => s) 3 self false
              {| w_log := lg; w_files := [] |})
       = Exc (FBUnknownConvers (JStr "99"))
    /\ exists id l,
        Some ["99"] = Some l /\ In id l
        /\ FBUnknownConvers (JStr "99") = FBUnknownConvers (JStr id)
        /\ dict_find (JStr id) (convers self) = None.
Proof.
  cbv zeta. eexists. eexists.
  split; [vm_compute; reflexivity|].
  split; [vm_compute; reflexivity|].
  refine (only_a_requested_id_can_be_unknown
            (scripted [short_page; listing_page [] []]) (fun s => s)
            no_file no_post_data 3 (Some ["99"]) (Some "raw") None 2000 1
            "output" [] _ _ _ (scripted_is_foreign _) 3%nat false
            empty_world _ _ _).
  - vm_compute. reflexivity.
  - vm_compute. reflexivity.
  - reflexivity.
Defined.

(** Two records for the participant 9: the later name stays. *)
Lemma participant_directory_keeps_the_last_name_witness :
  exists st',
    for_each [sample_participant "9" "Ann"; sample_participant "9" "Anna"]
             merge_participant empty_crawl
    = (st', Ret tt)
    /\ dict_getitem (cs_participants st') (JStr "9") = Ok (JStr "Anna").
Proof.
  destruct (participant_directory_keeps_the_last_name
              [sample_participant "9" "Ann"; sample_participant "9" "Anna"]
              empty_crawl eq_refl)
    as (st' & Hrun & _ & _ & Hlast & _).
  exists st'. split; [exact Hrun|].
  apply (Hlast [sample_participant "9" "Ann"] (sample_participant "9" "Anna")
               []); reflexivity.
Defined.

(** The thread of type 3 of the mixed page is recorded as a group named
    like the thread before it. *)
Lemma untyped_thread_inherits_from_the_thread_before_witness :
  exists st' e,
    merge_page Inbox mixed_page empty_crawl
    = (st', Ret (JArr (threads_of mixed_page)))
    /\ dict_find (JStr "u") (cs_convers st') = Some e
    /\ exists e_before,
        dict_find (JStr "g") (cs_convers st') = Some e_before
        /\ ce_type e = ce_type e_before
        /\ ce_name e = ce_name e_before.
Proof.
  exact (untyped_thread_inherits_from_the_thread_before
           Inbox mixed_page empty_crawl [group_thread "g"]
           (untyped_thread "u") [] ["g"] "u" []
           eq_refl eq_refl eq_refl eq_refl eq_refl eq_refl eq_refl
           (all_different_nodup ["g"; "u"] eq_refl) eq_refl eq_refl).
Defined.

(** The entry without a type stops its dump before any request. *)
Lemma untyped_conversation_cannot_be_dumped_witness :
  dump_convers (scripted []) (fun s => s) 1 sample_dumper_untyped false
               (JStr "u") empty_world
  = (empty_world, Exc (KeyError (JStr "type"))).
Proof.
  destruct (untyped_conversation_cannot_be_dumped
              (scripted []) (fun s => s) 0 sample_dumper_untyped false
              (JStr "u") untyped_entry empty_world eq_refl eq_refl eq_refl)
    as [_ Htype].
  apply Htype. left. reflexivity.
Defined.

(** The one-to-one thread of the short page is named after the
    participant 9 of that page. *)
Lemma direct_conversation_is_named_after_its_participant_witness :
  exists st' e,
    merge_page Inbox short_page empty_crawl
    = (st', Ret (JArr (threads_of short_page)))
    /\ dict_find (JStr "a") (cs_convers st') = Some e
    /\ ce_type e = Some FBConversType.USER
    /\ ce_name e = Some (JStr "Ann").
Proof.
  refine (direct_conversation_is_named_after_its_participant
            Inbox short_page empty_crawl [] (user_thread "a" "9")
            [group_thread "b"] "a" ["b"] [] (sample_participant "9" "Ann") []
            eq_refl eq_refl eq_refl eq_refl eq_refl eq_refl _
            eq_refl eq_refl eq_refl eq_refl eq_refl).
  intros [H|[]]. discriminate H.
Defined.

(** A system event before the message of the sample changes nothing. *)
Lemma process_msgs_skips_what_no_user_wrote_witness :
  let fs := [check_and_get_msg sample_repr sample_clock] in
  process_msgs fs [system_event; sample_user_message]
               (sample_parser FBParserMode.REPORT)
  = process_msgs fs [sample_user_message] (sample_parser FBParserMode.REPORT).
Proof.
  cbv zeta.
  destruct (process_msgs_skips_what_no_user_wrote
              [check_and_get_msg sample_repr sample_clock]
              [system_event; sample_user_message]
              (sample_parser FBParserMode.REPORT) eq_refl)
    as [Hsame _].
  exact Hsame.
Defined.


(** The two attachments of the sample message in its line. *)
Lemma message_line_joins_the_attachment_names_witness :
  exists self',
    check_and_get_msg sample_repr sample_clock sample_user_message
                      (sample_parser FBParserMode.REPORT)
    = (self', Ret tt)
    /\ msgs self'
       = "Message body: 'hello' - attachments {a.jpg b.pdf} - sent by: ''"
           +++ " (77) - the 2017-07-14 04:40:00" +++ nl.
Proof.
  destruct (message_line_joins_the_attachment_names sample_repr sample_clock
              (sample_parser FBParserMode.REPORT) sample_user_message
              [JObj [("attach_type", JStr "photo"); ("name", JStr "a.jpg");
                     ("preview_url", JStr "https://cdn/a.jpg")];
               JObj [("attach_type", JStr "file"); ("name", JStr "b.pdf");
                     ("url", JNull)]]
              "fbid:77" (JStr "hello") (JNum 1500000000000)
              "2017-07-14 04:40:00")
    as (self' & Hrun & Hmsgs);
    [reflexivity | reflexivity | reflexivity | reflexivity | reflexivity
    | reflexivity |].
  exists self'. split; [exact Hrun|]. rewrite Hmsgs. reflexivity.
Defined.

(** The participant 8 of the sample index is not in the directory. *)
Lemma metadata_needs_every_participant_in_the_directory_witness :
  format_convers sample_repr sample_clock sample_index
                 [(JStr "9", JStr "Ann")] (JStr "42")
  = Err (KeyError (JStr "8"))
  /\ exists e,
      format_convers_metadata sample_repr sample_clock (fun s => s)
                              sample_index [(JStr "9", JStr "Ann")]
      = Err e.
Proof.
  destruct (metadata_needs_every_participant_in_the_directory
              sample_repr sample_clock (fun s => s) sample_index
              [(JStr "9", JStr "Ann")] (JStr "42")
              {| ce_type := Some FBConversType.USER;
                 ce_name := Some (JStr "Ann"); ce_status := Some "inbox";
                 ce_participants := Some (JArr [JStr "fbid:9"; JStr "fbid:8"]);
                 ce_last_message_timestamp := Some (JNum 40) |}
              [JStr "fbid:9"] "fbid:8" [] eq_refl eq_refl)
    as [Hone Hall].
  - intros v [<-|[]]. exists "fbid:9", "Ann". split; reflexivity.
  - reflexivity.
  - split; [exact Hone|]. apply Hall. left. reflexivity.
Defined.


(** A parser built from one message in memory. *)
Lemma parse_cannot_use_messages_given_in_memory_witness :
  let respond := scripted [listing_page [] []; listing_page [] []] in
  exists self lg,
    FBParser_init respond no_file no_post_data sample_makedirs 3 (Some "raw")
      (Some (JArr [sample_record])) None FBParserMode.REPORT
      (Some [FBDataTypes.ALL]) 4 "output" []
    = (lg, Ret self)
    /\ parse (fun s => s) sample_repr keep_bytes sample_clock (fun s => s)
             sample_load false false (fun _ => [])
             {| ps_self := self; ps_stdout := []; ps_reports := [] |}
       = ({| ps_self := self; ps_stdout := []; ps_reports := [] |},
          Exc AttributeError).
Proof.
  cbv zeta. eexists. eexists.
  split; [vm_compute; reflexivity|].
  refine (proj2 (proj2
            (parse_cannot_use_messages_given_in_memory
               (scripted [listing_page [] []; listing_page [] []])
               (fun s => s) no_file no_post_data sample_repr keep_bytes
               sample_clock (fun s => s) sample_makedirs sample_load 3
               (Some "raw")
               (JArr [sample_record]) None FBParserMode.REPORT
               (Some [FBDataTypes.ALL]) 4 "output" [] _ _ _ eq_refl))
            false false (fun _ => []) [] []).
  vm_compute. reflexivity.
Defined.

(** The empty path as output folder: the folder cannot be created, and
    this is what is raised, also with no thread at all. *)
Lemma parser_constructor_validates_before_any_request_witness :
  FBParser_init (scripted []) no_file no_post_data sample_makedirs 3
    (Some "raw") None (Some (OnePath "dump.json")) FBParserMode.REPORT None
    0 "" []
  = ([], Exc OSError)
  /\ FBParser_init (scripted []) no_file no_post_data sample_makedirs 3
       (Some "raw") None (Some (OnePath "dump.json")) FBParserMode.REPORT
       None 0 "output" []
     = ([], Exc ValueError).
Proof.
  split.
  - apply (proj1 (proj2
             (parser_constructor_validates_before_any_request
                (scripted []) no_file no_post_data sample_makedirs 3
                (Some "raw") None (Some (OnePath "dump.json"))
                FBParserMode.REPORT None 0 "" []))).
    + discriminate.
    + reflexivity.
  - apply (proj1 (proj2 (proj2
             (parser_constructor_validates_before_any_request
                (scripted []) no_file no_post_data sample_makedirs 3
                (Some "raw") None (Some (OnePath "dump.json"))
                FBParserMode.REPORT None 0 "output" [])))).
    + lia.
    + reflexivity.
Defined.


(** The same file for a conversation with a participant that the
    directory does not hold. *)
Lemma unformattable_metadata_loses_the_reports_witness :
  exists ps1,
    parse_file (fun s => s) sample_repr keep_bytes sample_clock (fun s => s)
               sample_load [FBDataTypes.ALL] false false (fun _ => [])
               "complete.json" (sample_parse_state sample_index)
    = (ps1, Exc (KeyError (JStr "8")))
    /\ ps_reports ps1 = [].
Proof.
  edestruct (unformattable_metadata_loses_the_reports
               (fun s => s) sample_repr keep_bytes sample_clock (fun s => s)
               sample_load [FBDataTypes.ALL] false false (fun _ => [])
               "complete.json" (sample_parse_state sample_index))
    as (ps1 & Hrun & Hreports & _).
  - reflexivity.
  - reflexivity.
  - reflexivity.
  - reflexivity.
  - reflexivity.
  - vm_compute. reflexivity.
  - reflexivity.
  - vm_compute. reflexivity.
  - exists ps1. split; [exact Hrun | exact Hreports].
Defined.

(** The seven fields of the sample raw data. *)
Lemma credentials_are_the_rests_of_their_lines_witness :
  exists hp,
    FBDumper_get_post_data sample_raw = Ok hp
    /\ assoc "cookie" (fst hp) = Some "c=1; d=2"
    /\ assoc "fb_dtsg" (snd hp) = Some (JStr "t:k")
    /\ NoDup (map fst (snd hp)).
Proof.
  eexists. split; [vm_compute; reflexivity|].
  split; [reflexivity|]. split; [reflexivity|].
  destruct (credentials_are_the_rests_of_their_lines sample_raw)
    as (_ & Hok & _).
  destruct (Hok _ eq_refl) as (_ & _ & Hnd & _).
  exact Hnd.
Defined.

(** The path of the sample given as a string and not in a list: the file
    looked for is [c]. *)
Lemma parse_stops_at_the_first_file_that_fails_witness :
  parse (fun s => s) sample_repr keep_bytes sample_clock (fun s => s)
        sample_load true false (fun _ => []) sample_string_state
  = ({| ps_self := ps_self sample_string_state;
        ps_stdout := ["[+] - Loading JSON from file 'c'"];
        ps_reports := [] |},
     Exc OSError).
Proof.
  exact (proj1
           (parse_stops_at_the_first_file_that_fails
              (fun s => s) sample_repr keep_bytes sample_clock (fun s => s)
              sample_load [FBDataTypes.ALL] true false (fun _ => [])
              (InString "c" "omplete.json") sample_string_state [] "c"
              (string_chars "omplete.json") OSError sample_string_state
              eq_refl eq_refl eq_refl eq_refl eq_refl)).
Defined.
